(** * PCC Vivace sender: monitor-interval queue and rate controller

    A shallow embedding of [MonitorIntervalQueue.cpp] and
    [CongestionController.cpp], followed by the properties of the
    specification that were checked against it.

    Conventions of the embedding.
    - [float] and [double] are IEEE-754 binary32 and binary64 values, computed
      with the bit-exact operations of [SpecFloat] (round to nearest, ties to
      even).  Every implicit C++ conversion is written out.
    - Signed integers ([int], [int32_t], [int64_t]) are mathematical integers:
      signed overflow is undefined in C++, so the model speaks about the
      executions in which it does not occur.  [size_t] counters wrap modulo
      2^64 where the code increments them.
    - Undefined behaviour that depends on the data (a floating-point value
      converted to an integer type that cannot hold it, [operator[]] past the
      end of a vector, [back()] or [front()] of an empty deque) is the result
      [None].
    - [pow] comes from the C library and is an operation of the interface
      [Libm]; [rand] is an input of the call that may consult it. *)

From Stdlib Require Import ZArith List Bool Lia.
From Stdlib Require Import Floats.SpecFloat.
Import ListNotations.
Local Open Scope Z_scope.

(** ** The option monad for undefined behaviour *)

Definition bind {A B : Type} (c : option A) (k : A -> option B) : option B :=
  match c with
  | Some a => k a
  | None => None
  end.

Notation "x <- c ;; k" := (bind c (fun x => k))
  (at level 61, c at next level, right associativity).
Notation "' p <- c ;; k" := (bind c (fun x => let 'p := x in k))
  (at level 61, p pattern, c at next level, right associativity).

(** ** IEEE-754 arithmetic *)

Section IEEE.
Variables prec emax : Z.

(** Conversion of an integer: exact when representable, rounded otherwise. *)
Definition SFofZ (z : Z) : spec_float :=
  binary_normalize prec emax z 0 false.

(** Conversion from another binary format. *)
Definition SFconvert (x : spec_float) : spec_float :=
  match x with
  | S754_finite s m e => binary_normalize prec emax (cond_Zopp s (Zpos m)) e s
  | _ => x
  end.
End IEEE.

(** C++ conversion of a floating-point value to an integer type: the
    fractional part is discarded; the behaviour is undefined when the
    truncated value cannot be represented (in particular for infinities
    and NaN). *)
Definition SFtrunc (x : spec_float) : option Z :=
  match x with
  | S754_zero _ => Some 0
  | S754_finite s m e =>
      Some (cond_Zopp s (match e with
                         | Zneg p => Z.shiftr (Zpos m) (Zpos p)
                         | _ => Z.shiftl (Zpos m) e
                         end))
  | _ => None
  end.

Definition in_range (lo hi : Z) (z : Z) : option Z :=
  if (lo <=? z) && (z <=? hi) then Some z else None.

Definition to_int (x : spec_float) : option Z :=
  z <- SFtrunc x ;; in_range (- 2 ^ 31) (2 ^ 31 - 1) z.

Definition to_int64 (x : spec_float) : option Z :=
  z <- SFtrunc x ;; in_range (- 2 ^ 63) (2 ^ 63 - 1) z.

Inductive float : Type := Float (x : spec_float).
Inductive double : Type := Double (x : spec_float).

Declare Scope float_scope.
Delimit Scope float_scope with f32.
Bind Scope float_scope with float.
Declare Scope double_scope.
Delimit Scope double_scope with f64.
Bind Scope double_scope with double.

Module F32.
Definition prec := 24.
Definition emax := 128.
Definition bits (x : float) : spec_float := let 'Float b := x in b.
Definition lift2 (op : Z -> Z -> spec_float -> spec_float -> spec_float)
    (x y : float) : float := Float (op prec emax (bits x) (bits y)).
Definition add := lift2 SFadd.
Definition sub := lift2 SFsub.
Definition mul := lift2 SFmul.
Definition div := lift2 SFdiv.
Definition ltb (x y : float) : bool := SFltb (bits x) (bits y).
Definition leb (x y : float) : bool := SFleb (bits x) (bits y).
Definition eqb (x y : float) : bool := SFeqb (bits x) (bits y).
Definition of_Z (z : Z) : float := Float (SFofZ prec emax z).
Definition of_double (x : double) : float :=
  let 'Double b := x in Float (SFconvert prec emax b).
Definition to_int (x : float) : option Z := to_int (bits x).
Definition to_int64 (x : float) : option Z := to_int64 (bits x).
Definition is_nan (x : float) : bool :=
  match bits x with S754_nan => true | _ => false end.
End F32.

Module F64.
Definition prec := 53.
Definition emax := 1024.
Definition bits (x : double) : spec_float := let 'Double b := x in b.
Definition lift2 (op : Z -> Z -> spec_float -> spec_float -> spec_float)
    (x y : double) : double := Double (op prec emax (bits x) (bits y)).
Definition add := lift2 SFadd.
Definition sub := lift2 SFsub.
Definition mul := lift2 SFmul.
Definition div := lift2 SFdiv.
Definition ltb (x y : double) : bool := SFltb (bits x) (bits y).
Definition leb (x y : double) : bool := SFleb (bits x) (bits y).
Definition eqb (x y : double) : bool := SFeqb (bits x) (bits y).
Definition of_Z (z : Z) : double := Double (SFofZ prec emax z).
Definition of_float (x : float) : double :=
  let 'Float b := x in Double (SFconvert prec emax b).
Definition to_int (x : double) : option Z := to_int (bits x).
Definition to_int64 (x : double) : option Z := to_int64 (bits x).
Definition is_nan (x : double) : bool :=
  match bits x with S754_nan => true | _ => false end.
(** A decimal literal [n / d] with [n] and [d] exactly representable: the
    correctly rounded quotient is the value the compiler gives the literal. *)
Definition lit (n d : Z) : double := div (of_Z n) (of_Z d).
End F64.

Infix "+" := F32.add : float_scope.
Infix "-" := F32.sub : float_scope.
Infix "*" := F32.mul : float_scope.
Infix "/" := F32.div : float_scope.
Infix "<?" := F32.ltb : float_scope.
Infix "<=?" := F32.leb : float_scope.
Infix "=?" := F32.eqb : float_scope.
Notation "x >? y" := (F32.ltb y x) (only parsing) : float_scope.

Infix "+" := F64.add : double_scope.
Infix "-" := F64.sub : double_scope.
Infix "*" := F64.mul : double_scope.
Infix "/" := F64.div : double_scope.
Infix "<?" := F64.ltb : double_scope.
Infix "<=?" := F64.leb : double_scope.
Infix "=?" := F64.eqb : double_scope.
Notation "x >? y" := (F64.ltb y x) (only parsing) : double_scope.

(** A [float] literal written [n / d] with an [f] suffix. *)
Definition flit (n d : Z) : float := (F32.of_Z n / F32.of_Z d)%f32.

(** [std::max] and [std::min] as the standard defines them. *)
Definition std_max_int (a b : Z) : Z := if a <? b then b else a.
Definition std_max_double (a b : double) : double := if (a <? b)%f64 then b else a.
Definition std_min_float (a b : float) : float := if (b <? a)%f32 then b else a.

(** [size_t] arithmetic. *)
Definition size_t_max : Z := 2 ^ 64.
Definition to_size_t (z : Z) : Z := z mod size_t_max.
Definition size_t_incr (n : Z) : Z := to_size_t (n + 1).

(** The part of the C library the code calls.  The calls [pow(...)] are
    unqualified, which names the C function on [double]; [float] and [int]
    arguments are converted, which is exact. *)
Class Libm : Type := { pow : double -> double -> double }.

(** ** MonitorIntervalQueue.h: the data *)

(** [typedef int32_t QuicPacketCount, QuicPacketNumber;]
    [typedef int64_t QuicByteCount, QuicTime;]
    [typedef double QuicBandwidth;] *)
Definition QuicPacketCount := Z.
Definition QuicPacketNumber := Z.
Definition QuicByteCount := Z.
Definition QuicTime := Z.
Definition QuicBandwidth := double.

Module CongestionEvent.
Record t : Type := Build {
  packet_number : Z;
  bytes_acked : Z;
  bytes_lost : Z;
  time : Z
}.
End CongestionEvent.

Definition AckedPacket := CongestionEvent.t.
Definition LostPacket := CongestionEvent.t.
Definition AckedPacketVector := list CongestionEvent.t.
Definition LostPacketVector := list CongestionEvent.t.

Module PacketRttSample.
Record t : Type := Build {
  packet_number : QuicPacketNumber;
  sample_rtt : QuicTime
}.
End PacketRttSample.

Module UtilityInfo.
Record t : Type := Build {
  sending_rate : QuicBandwidth;
  utility : float
}.
(** [UtilityInfo() = default] *)
Definition default : t := Build (F64.of_Z 0) (flit 0 1).
End UtilityInfo.

Module MonitorInterval.
Record t : Type := Build {
  sending_rate : QuicBandwidth;
  is_useful : bool;
  rtt_fluctuation_tolerance_ratio : float;
  end_time : QuicTime;
  first_packet_sent_time : QuicTime;
  last_packet_sent_time : QuicTime;
  first_packet_number : QuicPacketNumber;
  last_packet_number : QuicPacketNumber;
  bytes_sent : QuicByteCount;
  bytes_acked : QuicByteCount;
  bytes_lost : QuicByteCount;
  rtt_on_monitor_start_us : Z;
  rtt_on_monitor_end_us : Z;
  utility : float;
  n_packets : Z;
  packet_rtt_samples : list PacketRttSample.t
}.

(** The constructor: the five arguments, every other member at its
    default member initializer. *)
Definition new (sending_rate : QuicBandwidth) (is_useful : bool)
    (rtt_fluctuation_tolerance_ratio : float) (rtt_us : Z)
    (end_time : QuicTime) : t :=
  Build sending_rate is_useful rtt_fluctuation_tolerance_ratio end_time
        0 0 0 0 0 0 0 rtt_us rtt_us (flit 0 1) 0 [].

(** Assignments to one member. *)
Definition set_first_packet (time : QuicTime) (number : QuicPacketNumber) (i : t) : t :=
  Build (sending_rate i) (is_useful i) (rtt_fluctuation_tolerance_ratio i)
        (end_time i) time (last_packet_sent_time i)
        number (last_packet_number i) (bytes_sent i)
        (bytes_acked i) (bytes_lost i) (rtt_on_monitor_start_us i)
        (rtt_on_monitor_end_us i) (utility i) (n_packets i)
        (packet_rtt_samples i).
Definition set_last_packet (time : QuicTime) (number : QuicPacketNumber) (i : t) : t :=
  Build (sending_rate i) (is_useful i) (rtt_fluctuation_tolerance_ratio i)
        (end_time i) (first_packet_sent_time i) time
        (first_packet_number i) number (bytes_sent i)
        (bytes_acked i) (bytes_lost i) (rtt_on_monitor_start_us i)
        (rtt_on_monitor_end_us i) (utility i) (n_packets i)
        (packet_rtt_samples i).
Definition set_bytes_sent (v : QuicByteCount) (i : t) : t :=
  Build (sending_rate i) (is_useful i) (rtt_fluctuation_tolerance_ratio i)
        (end_time i) (first_packet_sent_time i) (last_packet_sent_time i)
        (first_packet_number i) (last_packet_number i) v
        (bytes_acked i) (bytes_lost i) (rtt_on_monitor_start_us i)
        (rtt_on_monitor_end_us i) (utility i) (n_packets i)
        (packet_rtt_samples i).
Definition set_bytes_acked (v : QuicByteCount) (i : t) : t :=
  Build (sending_rate i) (is_useful i) (rtt_fluctuation_tolerance_ratio i)
        (end_time i) (first_packet_sent_time i) (last_packet_sent_time i)
        (first_packet_number i) (last_packet_number i) (bytes_sent i)
        v (bytes_lost i) (rtt_on_monitor_start_us i)
        (rtt_on_monitor_end_us i) (utility i) (n_packets i)
        (packet_rtt_samples i).
Definition set_bytes_lost (v : QuicByteCount) (i : t) : t :=
  Build (sending_rate i) (is_useful i) (rtt_fluctuation_tolerance_ratio i)
        (end_time i) (first_packet_sent_time i) (last_packet_sent_time i)
        (first_packet_number i) (last_packet_number i) (bytes_sent i)
        (bytes_acked i) v (rtt_on_monitor_start_us i)
        (rtt_on_monitor_end_us i) (utility i) (n_packets i)
        (packet_rtt_samples i).
Definition set_rtt_on_monitor_end_us (v : Z) (i : t) : t :=
  Build (sending_rate i) (is_useful i) (rtt_fluctuation_tolerance_ratio i)
        (end_time i) (first_packet_sent_time i) (last_packet_sent_time i)
        (first_packet_number i) (last_packet_number i) (bytes_sent i)
        (bytes_acked i) (bytes_lost i) (rtt_on_monitor_start_us i)
        v (utility i) (n_packets i)
        (packet_rtt_samples i).
Definition set_utility (v : float) (i : t) : t :=
  Build (sending_rate i) (is_useful i) (rtt_fluctuation_tolerance_ratio i)
        (end_time i) (first_packet_sent_time i) (last_packet_sent_time i)
        (first_packet_number i) (last_packet_number i) (bytes_sent i)
        (bytes_acked i) (bytes_lost i) (rtt_on_monitor_start_us i)
        (rtt_on_monitor_end_us i) v (n_packets i)
        (packet_rtt_samples i).
Definition set_n_packets (v : Z) (i : t) : t :=
  Build (sending_rate i) (is_useful i) (rtt_fluctuation_tolerance_ratio i)
        (end_time i) (first_packet_sent_time i) (last_packet_sent_time i)
        (first_packet_number i) (last_packet_number i) (bytes_sent i)
        (bytes_acked i) (bytes_lost i) (rtt_on_monitor_start_us i)
        (rtt_on_monitor_end_us i) (utility i) v
        (packet_rtt_samples i).
Definition push_back_rtt_sample (s : PacketRttSample.t) (i : t) : t :=
  Build (sending_rate i) (is_useful i) (rtt_fluctuation_tolerance_ratio i)
        (end_time i) (first_packet_sent_time i) (last_packet_sent_time i)
        (first_packet_number i) (last_packet_number i) (bytes_sent i)
        (bytes_acked i) (bytes_lost i) (rtt_on_monitor_start_us i)
        (rtt_on_monitor_end_us i) (utility i) (n_packets i)
        (packet_rtt_samples i ++ [s]).
End MonitorInterval.

(** The queue object: the deque (head first) and its two counters.  The
    reference [delegate_] is the environment the queue runs in, see
    [MonitorIntervalQueueDelegateInterface] below. *)
Module MonitorIntervalQueue.
Record t : Type := Build {
  monitor_intervals_ : list MonitorInterval.t;
  num_useful_intervals_ : Z;
  num_available_intervals_ : Z
}.
Definition new : t := Build [] 0 0.
End MonitorIntervalQueue.

(** ** MonitorIntervalQueue.cpp *)

Module MIQ.
Import MonitorIntervalQueue.

(** Constants of the anonymous namespace that the compiled code uses. *)
Definition kNumMicrosPerSecond : float := flit 1000000 1.
Definition kLatencyCoefficient : float := F32.of_Z 1.
Definition kAlpha : float := F32.of_Z 1.
Definition kExponent : float := F32.of_double (F64.lit 9 10).
Definition kMegabit : Z := 1024 * 1024.

Definition EnqueueNewMonitorInterval (sending_rate : QuicBandwidth)
    (is_useful : bool) (rtt_fluctuation_tolerance_ratio : float)
    (rtt_us : Z) (end_time : QuicTime) (q : t) : t :=
  Build (monitor_intervals_ q
           ++ [MonitorInterval.new sending_rate is_useful
                 rtt_fluctuation_tolerance_ratio rtt_us end_time])
        (if is_useful then size_t_incr (num_useful_intervals_ q)
         else num_useful_intervals_ q)
        (num_available_intervals_ q).

(** The body of [OnPacketSent] on [monitor_intervals_.back()]. *)
Definition record_packet (sent_time : QuicTime)
    (packet_number : QuicPacketNumber) (bytes : QuicByteCount)
    (back : MonitorInterval.t) : MonitorInterval.t :=
  let back :=
    if MonitorInterval.bytes_sent back =? 0
    then MonitorInterval.set_first_packet sent_time packet_number back
    else back in
  let back := MonitorInterval.set_last_packet sent_time packet_number back in
  let back :=
    MonitorInterval.set_bytes_sent (MonitorInterval.bytes_sent back + bytes) back in
  MonitorInterval.set_n_packets (MonitorInterval.n_packets back + 1) back.

Definition OnPacketSent (sent_time : QuicTime)
    (packet_number : QuicPacketNumber) (bytes : QuicByteCount) (q : t) : t :=
  match monitor_intervals_ q with
  | [] => q
  | _ :: _ =>
      Build (removelast (monitor_intervals_ q)
               ++ [record_packet sent_time packet_number bytes
                     (last (monitor_intervals_ q)
                        (MonitorInterval.new (F64.of_Z 0) false (flit 0 1) 0 0))])
            (num_useful_intervals_ q) (num_available_intervals_ q)
  end.

(** [current()] is [monitor_intervals_.back()]: undefined on an empty deque. *)
Definition current (q : t) : option MonitorInterval.t :=
  match monitor_intervals_ q with
  | [] => None
  | i :: rest => Some (last rest i)
  end.

Definition empty (q : t) : bool :=
  match monitor_intervals_ q with [] => true | _ => false end.

Definition size (q : t) : Z := Z.of_nat (length (monitor_intervals_ q)).

Definition num_useful_intervals (q : t) : Z := num_useful_intervals_ q.
Definition num_available_intervals (q : t) : Z := num_available_intervals_ q.

Definition OnRttInflationInStarting (q : t) : t := Build [] 0 0.

Definition IsUtilityAvailable (interval : MonitorInterval.t)
    (event_time : QuicTime) : bool :=
  (MonitorInterval.end_time interval <=? event_time)
  && (MonitorInterval.bytes_acked interval + MonitorInterval.bytes_lost interval
      =? MonitorInterval.bytes_sent interval).

Definition IntervalContainsPacket (interval : MonitorInterval.t)
    (packet_number : QuicPacketNumber) : bool :=
  (MonitorInterval.first_packet_number interval <=? packet_number)
  && (packet_number <=? MonitorInterval.last_packet_number interval).

(** *** CalculateUtility *)

Section CalculateUtility.
Context {libm : Libm}.

(** The loop that sums the two halves of [packet_rtt_samples]; [i] runs
    from [0] to [half_samples - 1]. *)
Definition rtt_half_sums (samples : list PacketRttSample.t)
    (half_samples : Z) : float * float :=
  let at_ i := PacketRttSample.sample_rtt
                 (nth i samples (PacketRttSample.Build 0 0)) in
  fold_left
    (fun (sums : float * float) (i : nat) =>
       let '(rtt_first_half_sum, rtt_second_half_sum) := sums in
       ((rtt_first_half_sum + F32.of_Z (at_ i))%f32,
        (rtt_second_half_sum
         + F32.of_Z (at_ (i + Z.to_nat half_samples)%nat))%f32))
    (seq 0 (Z.to_nat half_samples))
    (F32.of_double (F64.lit 0 1), F32.of_double (F64.lit 0 1)).

(** [float rtt_penalty = int(int(latency_inflation * 100) / 100.0 * 100) / 2 * 2 / 100.0;]
    Both [int(...)] are conversions of a floating-point value to [int];
    [/ 2 * 2] is integer arithmetic. *)
Definition rtt_penalty_of (latency_inflation : float) : option float :=
  inner <- F32.to_int (latency_inflation * F32.of_Z 100)%f32 ;;
  outer <- F64.to_int (F64.of_Z inner / F64.lit 100 1 * F64.of_Z 100)%f64 ;;
  Some (F32.of_double (F64.of_Z (Z.quot outer 2 * 2) / F64.lit 100 1)%f64).

(** Returns the flag the C++ function returns and the interval after the
    call. *)
Definition CalculateUtility (interval : MonitorInterval.t)
    : option (bool * MonitorInterval.t) :=
  if MonitorInterval.last_packet_sent_time interval
     =? MonitorInterval.first_packet_sent_time interval
  then Some (false, interval)
  else
    let kMinTransmissionTime := 1 in
    let mi_duration :=
      std_max_int kMinTransmissionTime
        (MonitorInterval.last_packet_sent_time interval
         - MonitorInterval.first_packet_sent_time interval) in
    let mi_time_seconds : float :=
      (F32.of_Z mi_duration / kNumMicrosPerSecond)%f32 in
    let bytes_lost : float := F32.of_Z (MonitorInterval.bytes_lost interval) in
    let bytes_sent : float := F32.of_Z (MonitorInterval.bytes_sent interval) in
    let sending_rate_bps : float :=
      (bytes_sent * flit 8 1 / mi_time_seconds)%f32 in
    let sending_factor : float :=
      F32.of_double
        (F64.of_float kAlpha
         * pow (F64.of_float (sending_rate_bps / F32.of_Z kMegabit)%f32)
               (F64.of_float kExponent))%f64 in
    let half_samples :=
      Z.of_nat (length (MonitorInterval.packet_rtt_samples interval)) / 2 in
    let '(rtt_first_half_sum, rtt_second_half_sum) :=
      rtt_half_sums (MonitorInterval.packet_rtt_samples interval) half_samples in
    let latency_inflation : float :=
      F32.of_double
        (F64.lit 2 1
         * F64.of_float (rtt_second_half_sum - rtt_first_half_sum)%f32
         / F64.of_float (rtt_first_half_sum + rtt_second_half_sum)%f32)%f64 in
    rtt_penalty <- rtt_penalty_of latency_inflation ;;
    let rtt_contribution : float :=
      F32.of_double
        (F64.of_float (kLatencyCoefficient * F32.of_Z 11330 * bytes_sent)%f32
         * pow (F64.of_float rtt_penalty) (F64.of_Z 1))%f64 in
    let loss_rate : float := (bytes_lost / bytes_sent)%f32 in
    let n_packets := MonitorInterval.n_packets interval in
    let loss_contribution : float :=
      F32.of_double
        (F64.of_Z n_packets
         * (F64.lit 1135 100
            * (pow (F64.of_float (F32.of_Z 1 + loss_rate)%f32) (F64.of_Z 1)
               - F64.of_Z 1)))%f64 in
    let loss_contribution : float :=
      if (F64.of_float loss_rate <=? F64.lit 3 100)%f64
      then F32.of_double
             (F64.of_Z n_packets
              * (F64.of_Z 1
                 * (pow (F64.of_float (F32.of_Z 1 + loss_rate)%f32) (F64.of_Z 1)
                    - F64.of_Z 1)))%f64
      else loss_contribution in
    let current_utility : float :=
      (sending_factor
       - (loss_contribution + rtt_contribution)
         * (sending_rate_bps / F32.of_Z kMegabit)
         / F32.of_Z n_packets)%f32 in
    Some (true, MonitorInterval.set_utility current_utility interval).

End CalculateUtility.

(** *** OnCongestionEvent *)

(** [MonitorIntervalQueueDelegateInterface]: the object the queue reports
    to.  [D] is the state of that object; the callback runs while the queue
    is in the state given as second argument, which the delegate may read. *)
Class MonitorIntervalQueueDelegateInterface (D : Type) : Type := {
  OnUtilityAvailable : list UtilityInfo.t -> t -> D -> option D
}.

Section OnCongestionEvent.
Context {libm : Libm}.
Context {D : Type} {delegate_ : MonitorIntervalQueueDelegateInterface D}.

(** [for (const LostPacket& lost_packet : lost_packets) ...] *)
Definition attribute_lost (lost_packets : LostPacketVector)
    (interval : MonitorInterval.t) : MonitorInterval.t :=
  fold_left
    (fun interval lost_packet =>
       if IntervalContainsPacket interval (CongestionEvent.packet_number lost_packet)
       then MonitorInterval.set_bytes_lost
              (MonitorInterval.bytes_lost interval
               + CongestionEvent.bytes_lost lost_packet) interval
       else interval)
    lost_packets interval.

(** [for (const AckedPacket& acked_packet : acked_packets) ...] *)
Definition attribute_acked (acked_packets : AckedPacketVector) (rtt_us : Z)
    (interval : MonitorInterval.t) : MonitorInterval.t :=
  fold_left
    (fun interval acked_packet =>
       if IntervalContainsPacket interval (CongestionEvent.packet_number acked_packet)
       then MonitorInterval.push_back_rtt_sample
              (PacketRttSample.Build (CongestionEvent.packet_number acked_packet) rtt_us)
              (MonitorInterval.set_bytes_acked
                 (MonitorInterval.bytes_acked interval
                  + CongestionEvent.bytes_acked acked_packet) interval)
       else interval)
    acked_packets interval.

(** [for (MonitorInterval& interval : monitor_intervals_) ...]: the
    intervals after the loop, [num_available_intervals_] and
    [has_invalid_utility].  A [break] leaves the remaining intervals as
    they are. *)
Fixpoint for_each_interval (acked_packets : AckedPacketVector)
    (lost_packets : LostPacketVector) (rtt_us : Z) (event_time : QuicTime)
    (intervals : list MonitorInterval.t) (num_available_intervals : Z)
    : option (list MonitorInterval.t * Z * bool) :=
  match intervals with
  | [] => Some ([], num_available_intervals, false)
  | interval :: rest =>
      let continue_ interval num_available_intervals :=
        '(rest, n, has_invalid_utility) <-
           for_each_interval acked_packets lost_packets rtt_us event_time
             rest num_available_intervals ;;
        Some (interval :: rest, n, has_invalid_utility) in
      if negb (MonitorInterval.is_useful interval)
      then continue_ interval num_available_intervals
      else if IsUtilityAvailable interval event_time
      then continue_ interval (size_t_incr num_available_intervals)
      else
        let interval := attribute_lost lost_packets interval in
        let interval := attribute_acked acked_packets rtt_us interval in
        if IsUtilityAvailable interval event_time
        then
          let interval := MonitorInterval.set_rtt_on_monitor_end_us rtt_us interval in
          '(valid, interval) <- CalculateUtility interval ;;
          let has_invalid_utility := negb valid in
          if has_invalid_utility
          then Some (interval :: rest, num_available_intervals, true)
          else continue_ interval (size_t_incr num_available_intervals)
        else continue_ interval num_available_intervals
  end.

(** The batch handed to the delegate: one entry per useful interval, in
    queue order. *)
Definition utility_info_of (intervals : list MonitorInterval.t)
    : list UtilityInfo.t :=
  map (fun interval =>
         UtilityInfo.Build (MonitorInterval.sending_rate interval)
                           (MonitorInterval.utility interval))
      (filter MonitorInterval.is_useful intervals).

(** [while (num_useful_intervals_ > 0) { ... pop_front(); }] *)
Fixpoint remove_useful_intervals (intervals : list MonitorInterval.t)
    (num_useful_intervals : Z) : option (list MonitorInterval.t * Z) :=
  if 0 <? num_useful_intervals
  then match intervals with
       | [] => None
       | front :: rest =>
           remove_useful_intervals rest
             (if MonitorInterval.is_useful front
              then num_useful_intervals - 1
              else num_useful_intervals)
       end
  else Some (intervals, num_useful_intervals).

Definition OnCongestionEvent (acked_packets : AckedPacketVector)
    (lost_packets : LostPacketVector) (rtt_us : Z) (event_time : QuicTime)
    (q : t) (delegate : D) : option (t * D) :=
  let q := Build (monitor_intervals_ q) (num_useful_intervals_ q) 0 in
  if num_useful_intervals_ q =? 0
  then Some (q, delegate)
  else
    '(intervals, num_available_intervals, has_invalid_utility) <-
       for_each_interval acked_packets lost_packets rtt_us event_time
         (monitor_intervals_ q) (num_available_intervals_ q) ;;
    let q := Build intervals (num_useful_intervals_ q) num_available_intervals in
    if (num_available_intervals_ q <? num_useful_intervals_ q)
       && negb has_invalid_utility
    then Some (q, delegate)
    else
      delegate <-
        (if negb has_invalid_utility
         then OnUtilityAvailable (utility_info_of (monitor_intervals_ q)) q delegate
         else Some delegate) ;;
      '(intervals, num_useful_intervals) <-
         remove_useful_intervals (monitor_intervals_ q) (num_useful_intervals_ q) ;;
      Some (Build intervals num_useful_intervals 0, delegate).

End OnCongestionEvent.
End MIQ.

(** ** CongestionController.h: the data *)

Inductive SenderMode : Type := STARTING | PROBING | DECISION_MADE.
Inductive RateChangeDirection : Type := INCREASE | DECREASE.

Definition SenderMode_eqb (a b : SenderMode) : bool :=
  match a, b with
  | STARTING, STARTING | PROBING, PROBING | DECISION_MADE, DECISION_MADE => true
  | _, _ => false
  end.

Definition RateChangeDirection_eqb (a b : RateChangeDirection) : bool :=
  match a, b with
  | INCREASE, INCREASE | DECREASE, DECREASE => true
  | _, _ => false
  end.

(** The members of the class, in declaration order.  [max_cwnd_bits_] is
    never initialised, written or read and is left out. *)
Module CongestionController.
Record t : Type := Build {
  mode_ : SenderMode;
  sending_rate_ : QuicBandwidth;
  latest_utility_info_ : UtilityInfo.t;
  monitor_duration_ : QuicTime;
  direction_ : RateChangeDirection;
  rounds_ : Z;
  interval_queue_ : MonitorIntervalQueue.t;
  avg_gradient_ : float;
  gradient_samples_ : list float;
  initial_rtt_ : QuicTime;
  avg_rtt_ : QuicTime;
  swing_buffer_ : Z;
  rate_change_amplifier_ : float;
  rate_change_proportion_allowance_ : Z;
  previous_change_ : QuicBandwidth
}.

Definition set_mode_ (v : SenderMode) (c : t) : t :=
  Build v (sending_rate_ c) (latest_utility_info_ c) (monitor_duration_ c)
       (direction_ c) (rounds_ c) (interval_queue_ c) (avg_gradient_ c)
       (gradient_samples_ c) (initial_rtt_ c) (avg_rtt_ c) (swing_buffer_ c)
       (rate_change_amplifier_ c) (rate_change_proportion_allowance_ c)
       (previous_change_ c).
Definition set_sending_rate_ (v : QuicBandwidth) (c : t) : t :=
  Build (mode_ c) v (latest_utility_info_ c) (monitor_duration_ c)
       (direction_ c) (rounds_ c) (interval_queue_ c) (avg_gradient_ c)
       (gradient_samples_ c) (initial_rtt_ c) (avg_rtt_ c) (swing_buffer_ c)
       (rate_change_amplifier_ c) (rate_change_proportion_allowance_ c)
       (previous_change_ c).
Definition set_latest_utility_info_ (v : UtilityInfo.t) (c : t) : t :=
  Build (mode_ c) (sending_rate_ c) v (monitor_duration_ c) (direction_ c)
       (rounds_ c) (interval_queue_ c) (avg_gradient_ c) (gradient_samples_ c)
       (initial_rtt_ c) (avg_rtt_ c) (swing_buffer_ c)
       (rate_change_amplifier_ c) (rate_change_proportion_allowance_ c)
       (previous_change_ c).
Definition set_monitor_duration_ (v : QuicTime) (c : t) : t :=
  Build (mode_ c) (sending_rate_ c) (latest_utility_info_ c) v (direction_ c)
       (rounds_ c) (interval_queue_ c) (avg_gradient_ c) (gradient_samples_ c)
       (initial_rtt_ c) (avg_rtt_ c) (swing_buffer_ c)
       (rate_change_amplifier_ c) (rate_change_proportion_allowance_ c)
       (previous_change_ c).
Definition set_direction_ (v : RateChangeDirection) (c : t) : t :=
  Build (mode_ c) (sending_rate_ c) (latest_utility_info_ c)
       (monitor_duration_ c) v (rounds_ c) (interval_queue_ c)
       (avg_gradient_ c) (gradient_samples_ c) (initial_rtt_ c) (avg_rtt_ c)
       (swing_buffer_ c) (rate_change_amplifier_ c)
       (rate_change_proportion_allowance_ c) (previous_change_ c).
Definition set_rounds_ (v : Z) (c : t) : t :=
  Build (mode_ c) (sending_rate_ c) (latest_utility_info_ c)
       (monitor_duration_ c) (direction_ c) v (interval_queue_ c)
       (avg_gradient_ c) (gradient_samples_ c) (initial_rtt_ c) (avg_rtt_ c)
       (swing_buffer_ c) (rate_change_amplifier_ c)
       (rate_change_proportion_allowance_ c) (previous_change_ c).
Definition set_interval_queue_ (v : MonitorIntervalQueue.t) (c : t) : t :=
  Build (mode_ c) (sending_rate_ c) (latest_utility_info_ c)
       (monitor_duration_ c) (direction_ c) (rounds_ c) v (avg_gradient_ c)
       (gradient_samples_ c) (initial_rtt_ c) (avg_rtt_ c) (swing_buffer_ c)
       (rate_change_amplifier_ c) (rate_change_proportion_allowance_ c)
       (previous_change_ c).
Definition set_avg_gradient_ (v : float) (c : t) : t :=
  Build (mode_ c) (sending_rate_ c) (latest_utility_info_ c)
       (monitor_duration_ c) (direction_ c) (rounds_ c) (interval_queue_ c) v
       (gradient_samples_ c) (initial_rtt_ c) (avg_rtt_ c) (swing_buffer_ c)
       (rate_change_amplifier_ c) (rate_change_proportion_allowance_ c)
       (previous_change_ c).
Definition set_gradient_samples_ (v : list float) (c : t) : t :=
  Build (mode_ c) (sending_rate_ c) (latest_utility_info_ c)
       (monitor_duration_ c) (direction_ c) (rounds_ c) (interval_queue_ c)
       (avg_gradient_ c) v (initial_rtt_ c) (avg_rtt_ c) (swing_buffer_ c)
       (rate_change_amplifier_ c) (rate_change_proportion_allowance_ c)
       (previous_change_ c).
Definition set_avg_rtt_ (v : QuicTime) (c : t) : t :=
  Build (mode_ c) (sending_rate_ c) (latest_utility_info_ c)
       (monitor_duration_ c) (direction_ c) (rounds_ c) (interval_queue_ c)
       (avg_gradient_ c) (gradient_samples_ c) (initial_rtt_ c) v
       (swing_buffer_ c) (rate_change_amplifier_ c)
       (rate_change_proportion_allowance_ c) (previous_change_ c).
Definition set_swing_buffer_ (v : Z) (c : t) : t :=
  Build (mode_ c) (sending_rate_ c) (latest_utility_info_ c)
       (monitor_duration_ c) (direction_ c) (rounds_ c) (interval_queue_ c)
       (avg_gradient_ c) (gradient_samples_ c) (initial_rtt_ c) (avg_rtt_ c) v
       (rate_change_amplifier_ c) (rate_change_proportion_allowance_ c)
       (previous_change_ c).
Definition set_rate_change_amplifier_ (v : float) (c : t) : t :=
  Build (mode_ c) (sending_rate_ c) (latest_utility_info_ c)
       (monitor_duration_ c) (direction_ c) (rounds_ c) (interval_queue_ c)
       (avg_gradient_ c) (gradient_samples_ c) (initial_rtt_ c) (avg_rtt_ c)
       (swing_buffer_ c) v (rate_change_proportion_allowance_ c)
       (previous_change_ c).
Definition set_rate_change_proportion_allowance_ (v : Z) (c : t) : t :=
  Build (mode_ c) (sending_rate_ c) (latest_utility_info_ c)
       (monitor_duration_ c) (direction_ c) (rounds_ c) (interval_queue_ c)
       (avg_gradient_ c) (gradient_samples_ c) (initial_rtt_ c) (avg_rtt_ c)
       (swing_buffer_ c) (rate_change_amplifier_ c) v (previous_change_ c).
Definition set_previous_change_ (v : QuicBandwidth) (c : t) : t :=
  Build (mode_ c) (sending_rate_ c) (latest_utility_info_ c)
       (monitor_duration_ c) (direction_ c) (rounds_ c) (interval_queue_ c)
       (avg_gradient_ c) (gradient_samples_ c) (initial_rtt_ c) (avg_rtt_ c)
       (swing_buffer_ c) (rate_change_amplifier_ c)
       (rate_change_proportion_allowance_ c) v.
End CongestionController.

(** ** CongestionController.cpp *)

Module CC.
Import CongestionController.

Definition FLAGS_max_rtt_fluctuation_tolerance_ratio_in_starting : float := flit 3 10.
Definition FLAGS_max_rtt_fluctuation_tolerance_ratio_in_decision_made : float := flit 5 100.

Definition kMegabit : Z := 1024 * 1024.
Definition kMinSendingRate : QuicBandwidth :=
  F64.of_float (flit 2 1 * F32.of_Z kMegabit)%f32.
(** [(int64_t) (0.5f * kMegabit)], see [kMinimumRateChange_value]. *)
Definition kMinimumRateChange : QuicBandwidth := F64.of_Z 524288.
Definition kNumMicrosPerSecond : float := flit 1000000 1.
Definition kDefaultTCPMSS : Z := 1400.
Definition kProbingStepSize : float := flit 5 100.
Definition kDecisionMadeStepSize : float := flit 2 100.
Definition kMaxDecisionMadeStepSize : float := flit 10 100.
Definition kNumIntervalGroupsInProbing : Z := 2.
Definition kBitsPerByte : Z := 8.
Definition kMinimumPacketsPerInterval : Z := 10.
Definition kAvgGradientSampleSize : Z := 1.
Definition kUtilityGradientToRateChangeFactor : float :=
  (flit 1 1 * F32.of_Z kMegabit)%f32.
Definition kInitialMaximumProportionalChange : float := flit 5 100.
Definition kMaximumProportionalChangeStepSize : float := flit 6 100.

Definition ComputeMonitorDuration (sending_rate : QuicBandwidth)
    (rtt : QuicTime) : option QuicTime :=
  F64.to_int64
    (std_max_double
       (F64.lit 15 10 * F64.of_Z rtt)%f64
       (F64.of_Z (to_size_t (to_size_t (kMinimumPacketsPerInterval * kBitsPerByte)
                             * kDefaultTCPMSS))
        / sending_rate)%f64).

(** The constructor.  [initial_congestion_window] is converted to [size_t]
    by the multiplication with [kDefaultTCPMSS]; the product becomes a
    [float] by the multiplication with [kNumMicrosPerSecond]. *)
Definition new (initial_rtt_us : QuicTime)
    (initial_congestion_window max_congestion_window : QuicPacketCount) : t :=
  Build STARTING
        (F64.of_float
           (F32.of_Z (to_size_t (to_size_t (to_size_t initial_congestion_window
                                            * kDefaultTCPMSS)
                                 * kBitsPerByte))
            * kNumMicrosPerSecond
            / F32.of_Z initial_rtt_us)%f32)
        UtilityInfo.default
        0 INCREASE 1 MonitorIntervalQueue.new
        (flit 0 1) [] initial_rtt_us 0 0 (flit 0 1) 0 (F64.of_Z 0).

Definition PacingRate (c : t) : option QuicBandwidth :=
  if MIQ.empty (interval_queue_ c)
  then Some (sending_rate_ c)
  else current <- MIQ.current (interval_queue_ c) ;;
       Some (MonitorInterval.sending_rate current).

Definition GetCongestionWindow (c : t) : option QuicByteCount :=
  let rtt_us := if avg_rtt_ c =? 0 then initial_rtt_ c else avg_rtt_ c in
  F64.to_int64
    (sending_rate_ c * F64.of_Z rtt_us / F64.of_float kNumMicrosPerSecond)%f64.

Definition UpdateAverageGradient (new_gradient : float) (c : t) : t :=
  let size := Z.of_nat (length (gradient_samples_ c)) in
  let c :=
    match gradient_samples_ c with
    | [] => set_avg_gradient_ new_gradient c
    | front :: popped =>
        if size <? kAvgGradientSampleSize
        then
          let avg := (avg_gradient_ c * F32.of_Z size)%f32 in
          let avg := (avg + new_gradient)%f32 in
          set_avg_gradient_ (avg / F32.of_Z (to_size_t (size + 1)))%f32 c
        else
          let oldest_gradient := front in
          let avg :=
            (avg_gradient_ c
             - oldest_gradient / F32.of_Z kAvgGradientSampleSize)%f32 in
          let avg := (avg + new_gradient / F32.of_Z kAvgGradientSampleSize)%f32 in
          set_gradient_samples_ popped (set_avg_gradient_ avg c)
    end in
  set_gradient_samples_ (gradient_samples_ c ++ [new_gradient]) c.

(** The last statement of [ComputeRateChange]: a change strictly between
    [-kMinimumRateChange] and [0], or between [0] and [kMinimumRateChange],
    is replaced by the bound of its sign. *)
Definition floor_rate_change (change : QuicBandwidth) : QuicBandwidth :=
  if (change <? F64.of_Z 0)%f64
     && (change >? F64.of_Z (-1) * kMinimumRateChange)%f64
  then (F64.of_Z (-1) * kMinimumRateChange)%f64
  else if (change >? F64.of_Z 0)%f64 && (change <? kMinimumRateChange)%f64
  then kMinimumRateChange
  else change.

(** [ComputeRateChange] up to, and without, the last statement: the change
    before it is floored and the controller after the call. *)
Definition ComputeRateChange_unfloored (utility_sample_1 utility_sample_2 : UtilityInfo.t)
    (c : t) : QuicBandwidth * t :=
  let utility_gradient : float :=
    (F32.of_Z kMegabit
     * (UtilityInfo.utility utility_sample_1 - UtilityInfo.utility utility_sample_2)
     / F32.of_double (UtilityInfo.sending_rate utility_sample_1
                      - UtilityInfo.sending_rate utility_sample_2)%f64)%f32 in
  let c := UpdateAverageGradient utility_gradient c in
  let change : QuicBandwidth :=
    F64.of_float (avg_gradient_ c * kUtilityGradientToRateChangeFactor)%f32 in
  let positive (x : QuicBandwidth) : bool := (x >? F64.of_Z 0)%f64 in
  let c :=
    if negb (Bool.eqb (positive change) (positive (previous_change_ c)))
    then
      let c := set_rate_change_amplifier_ (F32.of_Z 0) c in
      let c := set_rate_change_proportion_allowance_ 0 c in
      if swing_buffer_ c <? 2
      then set_swing_buffer_ (size_t_incr (swing_buffer_ c)) c
      else c
    else c in
  let a := rate_change_amplifier_ c in
  let change : QuicBandwidth :=
    if (a <? F32.of_Z 3)%f32
    then (change * F64.of_float (a + F32.of_Z 1)%f32)%f64
    else if (a <? F32.of_Z 6)%f32
    then (change * F64.of_float (F32.of_Z 2 * a - F32.of_Z 2)%f32)%f64
    else if (a <? F32.of_Z 9)%f32
    then (change * F64.of_float (F32.of_Z 4 * a - F32.of_Z 14)%f32)%f64
    else (change * F64.of_float (F32.of_Z 9 * a - F32.of_Z 50)%f32)%f64 in
  let c :=
    if Bool.eqb (positive change) (positive (previous_change_ c))
    then
      let c :=
        if swing_buffer_ c =? 0
        then
          if (rate_change_amplifier_ c <? F32.of_Z 3)%f32
          then set_rate_change_amplifier_
                 (F32.of_double
                    (F64.of_float (rate_change_amplifier_ c) + F64.lit 5 10)%f64) c
          else set_rate_change_amplifier_
                 (rate_change_amplifier_ c + F32.of_Z 1)%f32 c
        else c in
      if 0 <? swing_buffer_ c
      then set_swing_buffer_ (swing_buffer_ c - 1) c
      else c
    else c in
  let max_allowed_change_ratio : float :=
    (kInitialMaximumProportionalChange
     + F32.of_Z (rate_change_proportion_allowance_ c)
       * kMaximumProportionalChangeStepSize)%f32 in
  let change_ratio : float :=
    (F32.of_double change / F32.of_double (sending_rate_ c))%f32 in
  let change_ratio : float :=
    if (change_ratio >? F32.of_Z 0)%f32
    then change_ratio
    else (F32.of_Z (-1) * change_ratio)%f32 in
  let '(change, c) :=
    if (change_ratio >? max_allowed_change_ratio)%f32
    then
      let c := set_rate_change_proportion_allowance_
                 (size_t_incr (rate_change_proportion_allowance_ c)) c in
      if (change <? F64.of_Z 0)%f64
      then ((F64.of_float (F32.of_Z (-1) * max_allowed_change_ratio)%f32
             * sending_rate_ c)%f64, c)
      else ((F64.of_float max_allowed_change_ratio * sending_rate_ c)%f64, c)
    else
      (change,
       if 0 <? rate_change_proportion_allowance_ c
       then set_rate_change_proportion_allowance_
              (rate_change_proportion_allowance_ c - 1) c
       else c) in
  let c :=
    if negb (Bool.eqb (positive change) (positive (previous_change_ c)))
    then set_rate_change_proportion_allowance_ 0
           (set_rate_change_amplifier_ (F32.of_Z 0) c)
    else c in
  (change, c).

Definition ComputeRateChange (utility_sample_1 utility_sample_2 : UtilityInfo.t)
    (c : t) : QuicBandwidth * t :=
  if (UtilityInfo.sending_rate utility_sample_1
      =? UtilityInfo.sending_rate utility_sample_2)%f64
  then (kMinimumRateChange, c)
  else
    let '(change, c) :=
      ComputeRateChange_unfloored utility_sample_1 utility_sample_2 c in
    (floor_rate_change change, c).

Definition CreateUsefulInterval (c : t) : bool :=
  if avg_rtt_ c =? 0
  then false
  else
    let max_num_useful :=
      if SenderMode_eqb (mode_ c) PROBING
      then 2 * kNumIntervalGroupsInProbing else 1 in
    MIQ.num_useful_intervals (interval_queue_ c) <? max_num_useful.

(** [rand] is the value [rand()] returns if the call consults it. *)
Definition MaybeSetSendingRate (rand : Z) (c : t) : option t :=
  let num_useful := MIQ.num_useful_intervals (interval_queue_ c) in
  unchanged <-
    (if negb (SenderMode_eqb (mode_ c) PROBING)
     then Some true
     else if num_useful =? 2 * kNumIntervalGroupsInProbing
     then current <- MIQ.current (interval_queue_ c) ;;
          Some (negb (MonitorInterval.is_useful current))
     else Some false) ;;
  if unchanged
  then Some c
  else
    let c :=
      if negb (num_useful =? 0)
      then
        if RateChangeDirection_eqb (direction_ c) INCREASE
        then set_sending_rate_
               (sending_rate_ c
                * (F64.lit 1 1 / F64.of_float (F32.of_Z 1 + kProbingStepSize)%f32))%f64 c
        else set_sending_rate_
               (sending_rate_ c
                * (F64.lit 1 1 / F64.of_float (F32.of_Z 1 - kProbingStepSize)%f32))%f64 c
      else c in
    if negb (num_useful =? 0) && (num_useful =? 2 * kNumIntervalGroupsInProbing)
    then Some c
    else
      let c :=
        if num_useful mod 2 =? 0
        then set_direction_ (if Z.rem rand 2 =? 1 then INCREASE else DECREASE) c
        else set_direction_
               (if RateChangeDirection_eqb (direction_ c) INCREASE
                then DECREASE else INCREASE) c in
      if RateChangeDirection_eqb (direction_ c) INCREASE
      then Some (set_sending_rate_
                   (sending_rate_ c
                    * F64.of_float (F32.of_Z 1 + kProbingStepSize)%f32)%f64 c)
      else Some (set_sending_rate_
                   (sending_rate_ c
                    * F64.of_float (F32.of_Z 1 - kProbingStepSize)%f32)%f64 c).

(** The [operator[]] of the utility batch. *)
Definition at_ (utility_info : list UtilityInfo.t) (i : Z) : option UtilityInfo.t :=
  nth_error utility_info (Z.to_nat i).

(** The loop of [CanMakeDecision] over the probing groups [is]. *)
Fixpoint CanMakeDecision_groups (utility_info : list UtilityInfo.t)
    (groups : list Z) (increase : bool) : option bool :=
  match groups with
  | [] => Some true
  | i :: groups =>
      a <- at_ utility_info (2 * i) ;;
      b <- at_ utility_info (2 * i + 1) ;;
      let increase_i :=
        if (UtilityInfo.utility a >? UtilityInfo.utility b)%f32
        then (UtilityInfo.sending_rate a >? UtilityInfo.sending_rate b)%f64
        else (UtilityInfo.sending_rate a <? UtilityInfo.sending_rate b)%f64 in
      let increase := if i =? 0 then increase_i else increase in
      if negb (Bool.eqb increase_i increase)
      then Some false
      else CanMakeDecision_groups utility_info groups increase
  end.

Definition CanMakeDecision (utility_info : list UtilityInfo.t) : option bool :=
  if Z.of_nat (length utility_info) <? 2 * kNumIntervalGroupsInProbing
  then Some false
  else CanMakeDecision_groups utility_info
         (map Z.of_nat (seq 0 (Z.to_nat kNumIntervalGroupsInProbing))) false.

Definition EnterProbing (c : t) : option t :=
  c <-
    match mode_ c with
    | STARTING =>
        Some (set_sending_rate_ (sending_rate_ c * F64.lit 5 10)%f64 c)
    | DECISION_MADE =>
        let step : float :=
          std_min_float (F32.of_Z (rounds_ c) * kDecisionMadeStepSize)%f32
                        kMaxDecisionMadeStepSize in
        if RateChangeDirection_eqb (direction_ c) INCREASE
        then Some (set_sending_rate_
                     (sending_rate_ c
                      * (F64.lit 1 1 / F64.of_float (F32.of_Z 1 + step)%f32))%f64 c)
        else Some (set_sending_rate_
                     (sending_rate_ c
                      * (F64.lit 1 1 / F64.of_float (F32.of_Z 1 - step)%f32))%f64 c)
    | PROBING =>
        current <- MIQ.current (interval_queue_ c) ;;
        if MonitorInterval.is_useful current
        then
          if RateChangeDirection_eqb (direction_ c) INCREASE
          then Some (set_sending_rate_
                       (sending_rate_ c
                        * (F64.lit 1 1
                           / F64.of_float (F32.of_Z 1 + kProbingStepSize)%f32))%f64 c)
          else Some (set_sending_rate_
                       (sending_rate_ c
                        * (F64.lit 1 1
                           / F64.of_float (F32.of_Z 1 - kProbingStepSize)%f32))%f64 c)
        else Some c
    end ;;
  if SenderMode_eqb (mode_ c) PROBING
  then Some (set_rounds_ (size_t_incr (rounds_ c)) c)
  else Some (set_rounds_ 1 (set_mode_ PROBING c)).

Definition EnterDecisionMade (new_rate : QuicBandwidth) (c : t) : t :=
  set_rounds_ 1 (set_mode_ DECISION_MADE (set_sending_rate_ new_rate c)).

(** [if (sending_rate_ + rate_change < kMinSendingRate)
       rate_change = kMinSendingRate - sending_rate_;] *)
Definition clamp_rate_change (sending_rate rate_change : QuicBandwidth)
    : QuicBandwidth :=
  if (sending_rate + rate_change <? kMinSendingRate)%f64
  then (kMinSendingRate - sending_rate)%f64
  else rate_change.

Definition OnUtilityAvailable (utility_info : list UtilityInfo.t) (c : t)
    : option t :=
  match mode_ c with
  | STARTING =>
      info0 <- at_ utility_info 0 ;;
      if (UtilityInfo.utility info0
          >? UtilityInfo.utility (latest_utility_info_ c))%f32
      then
        let c := set_sending_rate_ (sending_rate_ c * F64.of_Z 2)%f64 c in
        let c := set_latest_utility_info_ info0 c in
        Some (set_rounds_ (size_t_incr (rounds_ c)) c)
      else EnterProbing c
  | PROBING =>
      can <- CanMakeDecision utility_info ;;
      if can
      then
        info0 <- at_ utility_info 0 ;;
        info1 <- at_ utility_info 1 ;;
        let higher_rate_0 :=
          (UtilityInfo.sending_rate info0 >? UtilityInfo.sending_rate info1)%f64 in
        let c :=
          set_direction_
            (if (UtilityInfo.utility info0 >? UtilityInfo.utility info1)%f32
             then (if higher_rate_0 then INCREASE else DECREASE)
             else (if higher_rate_0 then DECREASE else INCREASE)) c in
        info2 <- at_ utility_info (2 * kNumIntervalGroupsInProbing - 2) ;;
        info3 <- at_ utility_info (2 * kNumIntervalGroupsInProbing - 1) ;;
        let c :=
          set_latest_utility_info_
            (if (UtilityInfo.utility info2 >? UtilityInfo.utility info3)%f32
             then info2 else info3) c in
        let '(rate_change, c) := ComputeRateChange info0 info1 c in
        let rate_change := clamp_rate_change (sending_rate_ c) rate_change in
        let c := set_previous_change_ rate_change c in
        Some (EnterDecisionMade (sending_rate_ c + rate_change)%f64 c)
      else EnterProbing c
  | DECISION_MADE =>
      info0 <- at_ utility_info 0 ;;
      let '(rate_change, c) :=
        ComputeRateChange info0 (latest_utility_info_ c) c in
      let rate_change := clamp_rate_change (sending_rate_ c) rate_change in
      if Bool.eqb (rate_change >? F64.of_Z 0)%f64
                  (previous_change_ c >? F64.of_Z 0)%f64
      then
        let c := set_previous_change_ rate_change c in
        let c := set_sending_rate_ (sending_rate_ c + rate_change)%f64 c in
        Some (set_latest_utility_info_ info0 c)
      else EnterProbing c
  end.

(** The controller is the delegate of its own queue: while the callback
    runs, [interval_queue_] is the queue in its state at the call. *)
#[global] Instance delegate : MIQ.MonitorIntervalQueueDelegateInterface t := {
  MIQ.OnUtilityAvailable utility_info q c :=
    OnUtilityAvailable utility_info (set_interval_queue_ q c)
}.

Section Api.
Context {libm : Libm}.

Definition OnPacketSent (rand : Z) (sent_time : QuicTime)
    (bytes_in_flight : QuicByteCount) (packet_number : QuicPacketNumber)
    (bytes : QuicByteCount) (is_retransmittable : bool) (c : t) : option t :=
  new_interval <-
    (if MIQ.num_useful_intervals (interval_queue_ c) =? 0
     then Some true
     else if avg_rtt_ c =? 0
     then Some false
     else current <- MIQ.current (interval_queue_ c) ;;
          Some (monitor_duration_ c
                <? sent_time - MonitorInterval.first_packet_sent_time current)) ;;
  c <-
    (if new_interval
     then
       c <- MaybeSetSendingRate rand c ;;
       monitor_duration <- ComputeMonitorDuration (sending_rate_ c) (avg_rtt_ c) ;;
       let c := set_monitor_duration_ monitor_duration c in
       let rtt_fluctuation_tolerance_ratio : float :=
         match mode_ c with
         | STARTING => FLAGS_max_rtt_fluctuation_tolerance_ratio_in_starting
         | DECISION_MADE => FLAGS_max_rtt_fluctuation_tolerance_ratio_in_decision_made
         | PROBING => F32.of_double (F64.lit 0 1)
         end in
       let is_useful := CreateUsefulInterval c in
       Some (set_interval_queue_
               (MIQ.EnqueueNewMonitorInterval (sending_rate_ c) is_useful
                  rtt_fluctuation_tolerance_ratio (avg_rtt_ c)
                  (sent_time + monitor_duration_ c) (interval_queue_ c)) c)
     else Some c) ;;
  Some (set_interval_queue_
          (MIQ.OnPacketSent sent_time packet_number bytes (interval_queue_ c)) c).

(** The condition of the fast path out of STARTING; the operands of [&&]
    are evaluated from the left, as far as needed. *)
Definition rtt_inflation_in_starting (avg_rtt_us : Z) (c : t) : option bool :=
  if negb (SenderMode_eqb (mode_ c) STARTING)
  then Some false
  else if MIQ.empty (interval_queue_ c)
  then Some false
  else
    current <- MIQ.current (interval_queue_ c) ;;
    if MonitorInterval.rtt_on_monitor_start_us current =? 0
    then Some false
    else
      bound <- F32.to_int64
                 ((F32.of_Z 1 + FLAGS_max_rtt_fluctuation_tolerance_ratio_in_starting)
                  * F32.of_Z (MonitorInterval.rtt_on_monitor_start_us current))%f32 ;;
      Some (bound <? avg_rtt_us).

(** The value assigned to [avg_rtt_] by an event with a nonzero [rtt]. *)
Definition smoothed_rtt (rtt : QuicTime) (c : t) : option QuicTime :=
  if avg_rtt_ c =? 0
  then Some rtt
  else F64.to_int64
         ((F64.of_Z (avg_rtt_ c) * F64.lit 3 1 + F64.of_Z rtt)
          / F64.lit 4 1)%f64.

Definition OnCongestionEvent (event_time : QuicTime) (rtt : QuicTime)
    (acked_packets : AckedPacketVector) (lost_packets : LostPacketVector)
    (c : t) : option t :=
  let avg_rtt_us := rtt in
  let to_queue (c : t) : option t :=
    '(q, c) <- MIQ.OnCongestionEvent acked_packets lost_packets avg_rtt_us
                 event_time (interval_queue_ c) c ;;
    Some (set_interval_queue_ q c) in
  if negb (avg_rtt_us =? 0)
  then
    avg_rtt <- smoothed_rtt rtt c ;;
    let c := set_avg_rtt_ avg_rtt c in
    inflated <- rtt_inflation_in_starting avg_rtt_us c ;;
    if inflated
    then
      let c := set_interval_queue_
                 (MIQ.OnRttInflationInStarting (interval_queue_ c)) c in
      EnterProbing c
    else to_queue c
  else to_queue c.

End Api.
End CC.

(** * Vocabulary of the properties *)

(** ** Rates *)

Definition below_min_sending_rate (rate : QuicBandwidth) : bool :=
  (rate <? CC.kMinSendingRate)%f64.

(** [-1 * kMinimumRateChange], the lower bound of the floor. *)
Definition minus_kMinimumRateChange : QuicBandwidth :=
  (F64.of_Z (-1) * CC.kMinimumRateChange)%f64.

(** The members [ComputeRateChange] does not assign. *)
Definition outside_rate_change (c : CongestionController.t) :=
  (CongestionController.mode_ c, CongestionController.sending_rate_ c,
   CongestionController.latest_utility_info_ c,
   CongestionController.monitor_duration_ c,
   CongestionController.direction_ c, CongestionController.rounds_ c,
   CongestionController.interval_queue_ c,
   CongestionController.initial_rtt_ c, CongestionController.avg_rtt_ c,
   CongestionController.previous_change_ c).

(** ** The queue *)

Definition useful_intervals (intervals : list MonitorInterval.t)
    : list MonitorInterval.t :=
  filter MonitorInterval.is_useful intervals.

(** The counter agrees with the deque, and the deque is not longer than a
    [size_t] can count. *)
Definition queue_wf (q : MonitorIntervalQueue.t) : Prop :=
  MonitorIntervalQueue.num_useful_intervals_ q
  = Z.of_nat (length (useful_intervals (MonitorIntervalQueue.monitor_intervals_ q)))
  /\ Z.of_nat (length (MonitorIntervalQueue.monitor_intervals_ q)) < size_t_max.

(** An interval after the loss and ack loops of one event. *)
Definition attributed (acked_packets : AckedPacketVector)
    (lost_packets : LostPacketVector) (rtt_us : Z)
    (interval : MonitorInterval.t) : MonitorInterval.t :=
  MIQ.attribute_acked acked_packets rtt_us
    (MIQ.attribute_lost lost_packets interval).

(** The members of an interval that an event never assigns. *)
Definition identity_of (interval : MonitorInterval.t) :=
  (MonitorInterval.sending_rate interval, MonitorInterval.is_useful interval,
   MonitorInterval.rtt_fluctuation_tolerance_ratio interval,
   MonitorInterval.end_time interval,
   MonitorInterval.first_packet_sent_time interval,
   MonitorInterval.last_packet_sent_time interval,
   MonitorInterval.first_packet_number interval,
   MonitorInterval.last_packet_number interval,
   MonitorInterval.bytes_sent interval,
   MonitorInterval.rtt_on_monitor_start_us interval,
   MonitorInterval.n_packets interval).

(** An interval that is utility-available at the event, either when the
    event arrives or after the event's packets are attributed to it. *)
Definition becomes_available (acked_packets : AckedPacketVector)
    (lost_packets : LostPacketVector) (rtt_us : Z) (event_time : QuicTime)
    (interval : MonitorInterval.t) : bool :=
  MIQ.IsUtilityAvailable interval event_time
  || MIQ.IsUtilityAvailable
       (attributed acked_packets lost_packets rtt_us interval) event_time.

(** A useful interval that the event completes and whose first and last
    packet were sent at the same time. *)
Definition completes_with_invalid_utility (acked_packets : AckedPacketVector)
    (lost_packets : LostPacketVector) (rtt_us : Z) (event_time : QuicTime)
    (interval : MonitorInterval.t) : bool :=
  MonitorInterval.is_useful interval
  && negb (MIQ.IsUtilityAvailable interval event_time)
  && MIQ.IsUtilityAvailable
       (attributed acked_packets lost_packets rtt_us interval) event_time
  && (MonitorInterval.last_packet_sent_time interval
      =? MonitorInterval.first_packet_sent_time interval).

(** How one pass of the loop of [OnCongestionEvent] may change an interval:
    not at all, by attribution only, or by attribution, the new
    [rtt_on_monitor_end_us] and the utility. *)
Inductive loop_result (acked_packets : AckedPacketVector)
    (lost_packets : LostPacketVector) (rtt_us : Z) (event_time : QuicTime)
    (before : MonitorInterval.t) : MonitorInterval.t -> Prop :=
| untouched : loop_result acked_packets lost_packets rtt_us event_time before before
| pending :
    MonitorInterval.is_useful before = true ->
    MIQ.IsUtilityAvailable before event_time = false ->
    MIQ.IsUtilityAvailable
      (attributed acked_packets lost_packets rtt_us before) event_time = false ->
    loop_result acked_packets lost_packets rtt_us event_time before
      (attributed acked_packets lost_packets rtt_us before)
| completed (utility : float) :
    MonitorInterval.is_useful before = true ->
    MIQ.IsUtilityAvailable before event_time = false ->
    MIQ.IsUtilityAvailable
      (attributed acked_packets lost_packets rtt_us before) event_time = true ->
    loop_result acked_packets lost_packets rtt_us event_time before
      (MonitorInterval.set_utility utility
         (MonitorInterval.set_rtt_on_monitor_end_us rtt_us
            (attributed acked_packets lost_packets rtt_us before)))
| aborted :
    MonitorInterval.is_useful before = true ->
    MIQ.IsUtilityAvailable before event_time = false ->
    MIQ.IsUtilityAvailable
      (attributed acked_packets lost_packets rtt_us before) event_time = true ->
    loop_result acked_packets lost_packets rtt_us event_time before
      (MonitorInterval.set_rtt_on_monitor_end_us rtt_us
         (attributed acked_packets lost_packets rtt_us before)).

(** Whether an event delivers a batch, from the state of the queue when
    the event arrives: there are useful intervals, each of them is or
    becomes utility-available, and none completes with invalid utility. *)
Definition delivers (acked_packets : AckedPacketVector)
    (lost_packets : LostPacketVector) (rtt_us : Z) (event_time : QuicTime)
    (q : MonitorIntervalQueue.t) : bool :=
  (0 <? MonitorIntervalQueue.num_useful_intervals_ q)
  && forallb (becomes_available acked_packets lost_packets rtt_us event_time)
       (useful_intervals (MonitorIntervalQueue.monitor_intervals_ q))
  && negb (existsb (completes_with_invalid_utility acked_packets lost_packets
                      rtt_us event_time)
             (MonitorIntervalQueue.monitor_intervals_ q)).

(** A delegate that only records the batches it is given. *)
Definition Recorder : Type := list (list UtilityInfo.t).

#[global] Instance recorder : MIQ.MonitorIntervalQueueDelegateInterface Recorder := {
  MIQ.OnUtilityAvailable utility_info q log := Some (log ++ [utility_info])
}.

(** ** [bytes_acked + bytes_lost <= bytes_sent] *)

Definition bytes_ok (interval : MonitorInterval.t) : Prop :=
  MonitorInterval.bytes_acked interval + MonitorInterval.bytes_lost interval
  <= MonitorInterval.bytes_sent interval.

(** The bytes one event adds to an interval. *)
Definition reported_bytes (field : CongestionEvent.t -> Z)
    (packets : list CongestionEvent.t) (interval : MonitorInterval.t) : Z :=
  fold_right
    (fun packet total =>
       if MIQ.IntervalContainsPacket interval (CongestionEvent.packet_number packet)
       then field packet + total else total)
    0 packets.

Definition within_outstanding (acked_packets : AckedPacketVector)
    (lost_packets : LostPacketVector) (interval : MonitorInterval.t) : Prop :=
  reported_bytes CongestionEvent.bytes_acked acked_packets interval
  + reported_bytes CongestionEvent.bytes_lost lost_packets interval
  <= MonitorInterval.bytes_sent interval
     - (MonitorInterval.bytes_acked interval + MonitorInterval.bytes_lost interval).

(** The operations of the queue, run with the recording delegate. *)
Inductive QueueOp : Type :=
| OpEnqueue (sending_rate : QuicBandwidth) (is_useful : bool)
    (rtt_fluctuation_tolerance_ratio : float) (rtt_us : Z) (end_time : QuicTime)
| OpPacketSent (sent_time : QuicTime) (packet_number : QuicPacketNumber)
    (bytes : QuicByteCount)
| OpCongestionEvent (acked_packets : AckedPacketVector)
    (lost_packets : LostPacketVector) (rtt_us : Z) (event_time : QuicTime)
| OpRttInflationInStarting.

Definition queue_step {libm : Libm} (op : QueueOp)
    (q : MonitorIntervalQueue.t) : option MonitorIntervalQueue.t :=
  match op with
  | OpEnqueue sending_rate is_useful tolerance rtt_us end_time =>
      Some (MIQ.EnqueueNewMonitorInterval sending_rate is_useful tolerance
              rtt_us end_time q)
  | OpPacketSent sent_time packet_number bytes =>
      Some (MIQ.OnPacketSent sent_time packet_number bytes q)
  | OpCongestionEvent acked_packets lost_packets rtt_us event_time =>
      '(q, _) <- MIQ.OnCongestionEvent (D := Recorder) acked_packets
                   lost_packets rtt_us event_time q [] ;;
      Some q
  | OpRttInflationInStarting => Some (MIQ.OnRttInflationInStarting q)
  end.

Fixpoint queue_run {libm : Libm} (ops : list QueueOp)
    (q : MonitorIntervalQueue.t) : option MonitorIntervalQueue.t :=
  match ops with
  | [] => Some q
  | op :: ops => q <- queue_step op q ;; queue_run ops q
  end.

(** What the caller has to respect for the byte counters to stay ordered. *)
Definition deduplicated (op : QueueOp) (q : MonitorIntervalQueue.t) : Prop :=
  match op with
  | OpPacketSent _ _ bytes => 0 <= bytes
  | OpCongestionEvent acked_packets lost_packets _ _ =>
      Forall (within_outstanding acked_packets lost_packets)
             (MonitorIntervalQueue.monitor_intervals_ q)
  | _ => True
  end.

(** Every operation of a run respects [deduplicated] in the state it is
    applied to. *)
Fixpoint run_deduplicated {libm : Libm} (ops : list QueueOp)
    (q : MonitorIntervalQueue.t) : Prop :=
  match ops with
  | [] => True
  | op :: ops =>
      deduplicated op q
      /\ forall q', queue_step op q = Some q' -> run_deduplicated ops q'
  end.

(** ** RTT samples *)

(** [after] is [before] with samples appended that all carry [rtt], and
    with [rtt_on_monitor_end_us] either kept or set to [rtt]. *)
Definition records_rtt (rtt : Z) (before after : MonitorInterval.t) : Prop :=
  (exists added,
     MonitorInterval.packet_rtt_samples after
     = MonitorInterval.packet_rtt_samples before ++ added
     /\ Forall (fun sample => PacketRttSample.sample_rtt sample = rtt) added)
  /\ (MonitorInterval.rtt_on_monitor_end_us after
      = MonitorInterval.rtt_on_monitor_end_us before
      \/ MonitorInterval.rtt_on_monitor_end_us after = rtt).

(** ** The mode graph *)

Definition mode_edge (from to : SenderMode) : bool :=
  match from, to with
  | STARTING, (STARTING | PROBING) => true
  | PROBING, (PROBING | DECISION_MADE) => true
  | DECISION_MADE, (DECISION_MADE | PROBING) => true
  | _, _ => false
  end.

Fixpoint follows_mode_graph (modes : list SenderMode) : bool :=
  match modes with
  | from :: ((to :: _) as rest) => mode_edge from to && follows_mode_graph rest
  | _ => true
  end.

(** The calls of the transport. *)
Inductive ApiCall : Type :=
| CallOnPacketSent (rand : Z) (sent_time : QuicTime)
    (bytes_in_flight : QuicByteCount) (packet_number : QuicPacketNumber)
    (bytes : QuicByteCount) (is_retransmittable : bool)
| CallOnCongestionEvent (event_time rtt : QuicTime)
    (acked_packets : AckedPacketVector) (lost_packets : LostPacketVector).

Definition api_step {libm : Libm} (call : ApiCall)
    (c : CongestionController.t) : option CongestionController.t :=
  match call with
  | CallOnPacketSent rand sent_time bytes_in_flight packet_number bytes retx =>
      CC.OnPacketSent rand sent_time bytes_in_flight packet_number bytes retx c
  | CallOnCongestionEvent event_time rtt acked_packets lost_packets =>
      CC.OnCongestionEvent event_time rtt acked_packets lost_packets c
  end.

(** The controller before the first call and after each call. *)
Fixpoint api_run {libm : Libm} (calls : list ApiCall)
    (c : CongestionController.t) : option (list CongestionController.t) :=
  match calls with
  | [] => Some [c]
  | call :: calls =>
      c' <- api_step call c ;;
      trace <- api_run calls c' ;;
      Some (c :: trace)
  end.

(** The event takes the fast path out of STARTING: [rtt] is not zero and,
    with [avg_rtt_] updated, the inflation test succeeds. *)
Definition takes_fast_path (rtt : QuicTime) (c : CongestionController.t) : Prop :=
  rtt <> 0
  /\ exists avg_rtt,
       CC.smoothed_rtt rtt c = Some avg_rtt
       /\ CC.rtt_inflation_in_starting rtt
            (CongestionController.set_avg_rtt_ avg_rtt c) = Some true.

(** ** The utility formula as the specification writes it *)

Section UtilityFormula.
Context {libm : Libm}.



End UtilityFormula.


(** * Concrete data for the examples *)

(** An instance of [Libm] to run examples with: exact at exponent 1, as
    [pow_exact_at_one] asks; what it returns for other exponents only
    fixes the utility values the examples print. *)
Definition libm_example : Libm := {| pow := fun x _ => x |}.

(** The controller of scenario S1. *)
Definition controller_S1 : CongestionController.t := CC.new 10000 10 100.

(** A controller that starts at 2 240 000 bit/s, above [kMinSendingRate],
    and a batch whose utility is not above the initial one. *)
Definition controller_2_packets : CongestionController.t := CC.new 10000 2 100.
Definition batch_without_gain : list UtilityInfo.t :=
  [UtilityInfo.Build (F64.of_Z 2240000) (flit 0 1)].

(** Two samples of different rates and equal utility. *)
Definition sample_12Mbit : UtilityInfo.t :=
  UtilityInfo.Build (F64.of_Z 12000000) (flit 5 1).
Definition sample_10Mbit : UtilityInfo.t :=
  UtilityInfo.Build (F64.of_Z 10000000) (flit 5 1).

(** A controller in PROBING at scenario S1's rate and a batch in which
    both probing groups prefer the higher rate. *)
Definition controller_probing : CongestionController.t :=
  CongestionController.set_mode_ PROBING controller_S1.
Definition batch_agreeing : list UtilityInfo.t :=
  [UtilityInfo.Build (F64.of_Z 11760000) (flit 6 1);
   UtilityInfo.Build (F64.of_Z 10640000) (flit 5 1);
   UtilityInfo.Build (F64.of_Z 11760000) (flit 6 1);
   UtilityInfo.Build (F64.of_Z 10640000) (flit 5 1)].

(** A controller in PROBING at 2 200 000 bit/s and a batch in which both
    groups prefer the lower rate. *)
Definition controller_probing_low : CongestionController.t :=
  CongestionController.set_sending_rate_ (F64.of_Z 2200000) controller_probing.
Definition batch_preferring_lower : list UtilityInfo.t :=
  [UtilityInfo.Build (F64.of_Z 2310000) (flit 5 1);
   UtilityInfo.Build (F64.of_Z 2090000) (flit 6 1);
   UtilityInfo.Build (F64.of_Z 2310000) (flit 5 1);
   UtilityInfo.Build (F64.of_Z 2090000) (flit 6 1)].

(** A packet of 1000 bytes in an ack vector. *)
Definition ack_1000 (packet_number : QuicPacketNumber) : AckedPacket :=
  CongestionEvent.Build packet_number 1000 0 0.

(** A queue holding one useful interval planned to end at 15 ms, in which
    a single packet of 1000 bytes was sent. *)
Definition queue_single_packet : MonitorIntervalQueue.t :=
  MIQ.OnPacketSent 0 1 1000
    (MIQ.EnqueueNewMonitorInterval (F64.of_Z 11200000) true (flit 3 10)
       10000 15000 MonitorIntervalQueue.new).

(** The controller of scenario S1 holding that queue, with a smoothed RTT
    of 10 ms. *)
Definition controller_single_packet : CongestionController.t :=
  CongestionController.set_avg_rtt_ 10000
    (CongestionController.set_interval_queue_ queue_single_packet controller_S1).

(** The same queue after its interval received a second packet, 10
    microseconds later. *)
Definition queue_two_packets : MonitorIntervalQueue.t :=
  MIQ.OnPacketSent 10 2 1000 queue_single_packet.

(** A queue holding one interval that is not useful, as the controller of
    scenario S1 creates it before the first RTT sample, with two packets. *)
Definition queue_not_useful : MonitorIntervalQueue.t :=
  MIQ.OnPacketSent 10 2 1000
    (MIQ.OnPacketSent 0 1 1000
       (MIQ.EnqueueNewMonitorInterval (F64.of_Z 11200000) false (flit 3 10)
          0 0 MonitorIntervalQueue.new)).

(** Two packets in one useful interval; the first is then acknowledged
    three times by one event. *)
Definition ops_duplicate_ack : list QueueOp :=
  [OpEnqueue (F64.of_Z 11200000) true (flit 3 10) 10000 15000;
   OpPacketSent 0 1 1000;
   OpPacketSent 10 2 1000;
   OpCongestionEvent [ack_1000 1; ack_1000 1; ack_1000 1] [] 10000 5000].

(** The same packets, each acknowledged once, the second one after the
    planned end of the interval. *)
Definition ops_each_acked_once : list QueueOp :=
  [OpEnqueue (F64.of_Z 11200000) true (flit 3 10) 10000 15000;
   OpPacketSent 0 1 1000;
   OpPacketSent 10 2 1000;
   OpCongestionEvent [ack_1000 1] [] 10000 12000;
   OpCongestionEvent [ack_1000 2] [] 10000 20000].

(** A run from scenario S1: a first interval without RTT, a useful
    interval whose utility doubles the rate, and an event whose RTT of
    14 ms exceeds 1.3 times the 10 ms at which the current interval
    started. *)
Definition calls_S1 : list ApiCall :=
  [CallOnPacketSent 0 0 0 1 1000 true;
   CallOnCongestionEvent 10000 10000 [ack_1000 1] [];
   CallOnPacketSent 0 10100 0 2 1000 true;
   CallOnPacketSent 0 10200 0 3 1000 true;
   CallOnCongestionEvent 30000 10000 [ack_1000 2; ack_1000 3] [];
   CallOnPacketSent 1 30100 0 4 1000 true;
   CallOnCongestionEvent 40000 14000 [] []].

(** * Tactics *)

(** Goals [outside_rate_change (set_... c') = outside_rate_change c] for the
    setters [ComputeRateChange] uses, through conditionals. *)
Ltac outside_setters :=
  repeat (first [ match goal with
                  | |- outside_rate_change (if ?b then _ else _) = _ =>
                      destruct b
                  end
                | assumption
                | reflexivity
                | match goal with
                  | |- outside_rate_change (?f _ ?c') = _ =>
                      transitivity (outside_rate_change c'); [reflexivity | ]
                  end ]).

(** Moves the outermost [let] of the function body into the context,
    without unfolding it in the rest of the body. *)
Ltac enter_let :=
  lazymatch goal with
  | |- outside_rate_change (snd (let x := ?v in @?f x)) = ?r =>
      change (let x := v in outside_rate_change (snd (f x)) = r);
      intro; cbv beta
  end.

(** Splits a hypothesis [x <- c ;; k = Some r] on the result of [c]. *)
Ltac bind_inv H :=
  match type of H with
  | bind ?c _ = Some _ =>
      let E := fresh "E" in
      destruct c eqn:E; [simpl in H | discriminate H]
  end.

(** * Vocabulary of the further properties *)

(** The verdict of one probing group in [CanMakeDecision]: the sample with
    the greater utility is the one with the greater rate. *)
Definition prefers_increase (a b : UtilityInfo.t) : bool :=
  if (UtilityInfo.utility a >? UtilityInfo.utility b)%f32
  then (UtilityInfo.sending_rate a >? UtilityInfo.sending_rate b)%f64
  else (UtilityInfo.sending_rate a <? UtilityInfo.sending_rate b)%f64.

(** The intervals behind the last useful one. *)
Fixpoint trailing_not_useful (intervals : list MonitorInterval.t)
    : list MonitorInterval.t :=
  match intervals with
  | [] => []
  | interval :: rest =>
      if existsb MonitorInterval.is_useful intervals
      then trailing_not_useful rest
      else intervals
  end.

(** No packet of the event falls in the range of the interval. *)
Definition foreign_to (packets : list CongestionEvent.t)
    (interval : MonitorInterval.t) : Prop :=
  Forall (fun packet =>
            MIQ.IntervalContainsPacket interval
              (CongestionEvent.packet_number packet) = false)
         packets.

(** The event removes the useful intervals: it delivers a batch, or a
    useful interval completes with invalid utility. *)
Definition drains (acked_packets : AckedPacketVector)
    (lost_packets : LostPacketVector) (rtt_us : Z) (event_time : QuicTime)
    (q : MonitorIntervalQueue.t) : bool :=
  delivers acked_packets lost_packets rtt_us event_time q
  || existsb (completes_with_invalid_utility acked_packets lost_packets
                rtt_us event_time)
       (MonitorIntervalQueue.monitor_intervals_ q).

(** A queue with a useful interval followed by one that is not. *)
Definition queue_with_trailing : MonitorIntervalQueue.t :=
  MIQ.OnPacketSent 20 3 1000
    (MIQ.EnqueueNewMonitorInterval (F64.of_Z 11200000) false (flit 3 10)
       10000 30000 queue_two_packets).

(** A packet as [OnPacketSent] receives it: sent time, packet number and
    size. *)
Definition SentPacket : Type := QuicTime * QuicPacketNumber * QuicByteCount.

(** [OnPacketSent] of the queue for each packet in turn. *)
Definition send_packets (packets : list SentPacket)
    (q : MonitorIntervalQueue.t) : MonitorIntervalQueue.t :=
  fold_left
    (fun q (packet : SentPacket) =>
       let '(sent_time, packet_number, bytes) := packet in
       MIQ.OnPacketSent sent_time packet_number bytes q)
    packets q.

(** The same on the interval at the back of the deque. *)
Definition record_packets (packets : list SentPacket)
    (back : MonitorInterval.t) : MonitorInterval.t :=
  fold_left
    (fun back (packet : SentPacket) =>
       let '(sent_time, packet_number, bytes) := packet in
       MIQ.record_packet sent_time packet_number bytes back)
    packets back.

Definition total_bytes (packets : list SentPacket) : Z :=
  fold_right (fun (packet : SentPacket) total => snd packet + total) 0 packets.

(** An interval of two packets sent 10 microseconds apart, with the given
    RTT samples. *)
Definition interval_with_samples (samples : list PacketRttSample.t)
    : MonitorInterval.t :=
  MonitorInterval.Build (F64.of_Z 11200000) true (flit 3 10) 15000
    0 10 1 2 2000 1000 1000 10000 10000 (flit 0 1) 2 samples.

(** The members of the controller that the callback of the queue has no
    business with: the queue itself and the RTT state. *)
Definition queue_and_rtt_state (c : CongestionController.t) :=
  (CongestionController.interval_queue_ c, CongestionController.avg_rtt_ c,
   CongestionController.initial_rtt_ c, CongestionController.monitor_duration_ c).

(** One more round of PROBING without a decision. *)
Definition stays_in_probing (c c' : CongestionController.t) : Prop :=
  CC.EnterProbing c = Some c'
  /\ CongestionController.mode_ c' = PROBING
  /\ CongestionController.rounds_ c' = size_t_incr (CongestionController.rounds_ c)
  /\ CongestionController.direction_ c' = CongestionController.direction_ c
  /\ CongestionController.latest_utility_info_ c'
     = CongestionController.latest_utility_info_ c
  /\ CongestionController.previous_change_ c'
     = CongestionController.previous_change_ c.

(** A controller in PROBING whose queue holds an interval, and a batch in
    which the two probing groups disagree. *)
Definition controller_probing_queued : CongestionController.t :=
  CongestionController.set_interval_queue_ queue_two_packets controller_probing.
Definition batch_disagreeing : list UtilityInfo.t :=
  [UtilityInfo.Build (F64.of_Z 11760000) (flit 6 1);
   UtilityInfo.Build (F64.of_Z 10640000) (flit 5 1);
   UtilityInfo.Build (F64.of_Z 11760000) (flit 5 1);
   UtilityInfo.Build (F64.of_Z 10640000) (flit 6 1)].

(** Calls that bring no RTT sample: every [OnPacketSent], and the
    congestion events with [rtt = 0]. *)
Definition carries_no_rtt (call : ApiCall) : bool :=
  match call with
  | CallOnPacketSent _ _ _ _ _ _ => true
  | CallOnCongestionEvent _ rtt _ _ => rtt =? 0
  end.

Definition is_packet_sent (call : ApiCall) : bool :=
  match call with
  | CallOnPacketSent _ _ _ _ _ _ => true
  | CallOnCongestionEvent _ _ _ _ => false
  end.

Definition packets_sent (calls : list ApiCall) : nat :=
  length (filter is_packet_sent calls).

(** An interval that is not useful and holds one packet, sent at [rate]. *)
Definition lone_packet_interval (rate : QuicBandwidth)
    (interval : MonitorInterval.t) : Prop :=
  MonitorInterval.is_useful interval = false
  /\ MonitorInterval.n_packets interval = 1
  /\ MonitorInterval.first_packet_number interval
     = MonitorInterval.last_packet_number interval
  /\ MonitorInterval.sending_rate interval = rate.

(** A controller that has not seen an RTT sample yet. *)
Definition awaiting_first_rtt (rate : QuicBandwidth)
    (c : CongestionController.t) : Prop :=
  CongestionController.mode_ c = STARTING
  /\ CongestionController.avg_rtt_ c = 0
  /\ CongestionController.sending_rate_ c = rate
  /\ MonitorIntervalQueue.num_useful_intervals_
       (CongestionController.interval_queue_ c) = 0
  /\ Forall (lone_packet_interval rate)
       (MonitorIntervalQueue.monitor_intervals_
          (CongestionController.interval_queue_ c)).

(** Three packets and two events without RTT. *)
Definition calls_without_rtt : list ApiCall :=
  [CallOnPacketSent 0 0 0 1 1000 true;
   CallOnPacketSent 0 100 1000 2 1000 true;
   CallOnCongestionEvent 5000 0 [ack_1000 1] [];
   CallOnPacketSent 0 200 1000 3 1000 true;
   CallOnCongestionEvent 6000 0 [] [ack_1000 2]].

(** [max_num_useful] of [CreateUsefulInterval]. *)
Definition max_num_useful (mode : SenderMode) : Z :=
  if SenderMode_eqb mode PROBING
  then 2 * CC.kNumIntervalGroupsInProbing else 1.

(** The counter of useful intervals agrees with the deque and respects
    the bound of the mode. *)
Definition useful_within_bound (c : CongestionController.t) : Prop :=
  queue_wf (CongestionController.interval_queue_ c)
  /\ MonitorIntervalQueue.num_useful_intervals_
       (CongestionController.interval_queue_ c)
     <= max_num_useful (CongestionController.mode_ c).

(** The run of scenario S1 continued through PROBING: four useful
    intervals of two packets each at alternating rates, a fifth interval
    at the central rate, one event that completes the four, and a packet
    sent after the decision. *)
Definition calls_probing : list ApiCall :=
  calls_S1
  ++ [CallOnPacketSent 1 40100 0 5 1000 true;
      CallOnPacketSent 0 40200 0 6 1000 true;
      CallOnPacketSent 0 57000 0 7 1000 true;
      CallOnPacketSent 0 57100 0 8 1000 true;
      CallOnPacketSent 1 74000 0 9 1000 true;
      CallOnPacketSent 0 74100 0 10 1000 true;
      CallOnPacketSent 0 91000 0 11 1000 true;
      CallOnPacketSent 0 91100 0 12 1000 true;
      CallOnPacketSent 0 108000 0 13 1000 true;
      CallOnCongestionEvent 120000 11000
        [ack_1000 5; ack_1000 6; ack_1000 7; ack_1000 8;
         ack_1000 9; ack_1000 10; ack_1000 11; ack_1000 12] [];
      CallOnPacketSent 0 120100 0 14 1000 true].

(** In DECISION_MADE the controller is in its first round, so that
    leaving the mode restores the rate by one step of
    [kDecisionMadeStepSize]. *)
Definition single_round_decision (c : CongestionController.t) : Prop :=
  CongestionController.mode_ c = DECISION_MADE ->
  CongestionController.rounds_ c = 1
  /\ CC.EnterProbing c
     = Some (CongestionController.set_rounds_ 1
               (CongestionController.set_mode_ PROBING
                  (CongestionController.set_sending_rate_
                     (CongestionController.sending_rate_ c
                      * (F64.lit 1 1
                         / F64.of_float
                             (if RateChangeDirection_eqb
                                   (CongestionController.direction_ c) INCREASE
                              then F32.of_Z 1 + CC.kDecisionMadeStepSize
                              else F32.of_Z 1 - CC.kDecisionMadeStepSize)%f32))%f64
                     c))).

(** ** Intervals that are complete when an event arrives *)

(** The first and the last packet of the interval were sent at the same
    time: [CalculateUtility] reports invalid utility. *)
Definition single_send_time (interval : MonitorInterval.t) : bool :=
  MonitorInterval.last_packet_sent_time interval
  =? MonitorInterval.first_packet_sent_time interval.

(** The condition of delivery in the words of the specification: there
    are useful intervals, every one of them is or becomes
    utility-available at the event, and none has invalid utility. *)
Definition all_available_and_valid (acked_packets : AckedPacketVector)
    (lost_packets : LostPacketVector) (rtt_us : Z) (event_time : QuicTime)
    (q : MonitorIntervalQueue.t) : bool :=
  (0 <? MonitorIntervalQueue.num_useful_intervals_ q)
  && forallb (becomes_available acked_packets lost_packets rtt_us event_time)
       (useful_intervals (MonitorIntervalQueue.monitor_intervals_ q))
  && negb (existsb single_send_time
             (useful_intervals (MonitorIntervalQueue.monitor_intervals_ q))).

(** No useful interval that is utility-available when the event arrives
    has invalid utility.  The loop of [OnCongestionEvent] counts such an
    interval without calling [CalculateUtility]. *)
Definition settled_utilities_valid (event_time : QuicTime)
    (q : MonitorIntervalQueue.t) : Prop :=
  Forall (fun interval =>
            MonitorInterval.is_useful interval = true ->
            MIQ.IsUtilityAvailable interval event_time = true ->
            single_send_time interval = false)
         (MonitorIntervalQueue.monitor_intervals_ q).

(** A connection that sends one packet, learns the RTT from its
    acknowledgement, sends a second packet in a useful interval planned to
    end at 25.1 ms, sees it acknowledged at 20.1 ms, and receives an empty
    event at 30 ms. *)
Definition calls_single_packet : list ApiCall :=
  [CallOnPacketSent 0 0 0 1 1000 true;
   CallOnCongestionEvent 10000 10000 [ack_1000 1] [];
   CallOnPacketSent 0 10100 0 2 1000 true;
   CallOnCongestionEvent 20100 10000 [ack_1000 2] [];
   CallOnCongestionEvent 30000 10000 [] []].

(** One useful interval planned to end at 15 ms, holding a single packet
    that is acknowledged at 12 ms. *)
Definition ops_acked_early : list QueueOp :=
  [OpEnqueue (F64.of_Z 11200000) true (flit 3 10) 10000 15000;
   OpPacketSent 0 1 1000;
   OpCongestionEvent [ack_1000 1] [] 10000 12000].

(** * Properties *)

(** ** Facts about comparisons of floating-point values *)

Lemma SFcompare_antisym (x y : spec_float) :
  SFcompare y x = option_map CompOpp (SFcompare x y).
Proof.
  destruct x as [sx | sx | | sx mx ex], y as [sy | sy | | sy my ey];
    simpl; try reflexivity;
    try (destruct sx; reflexivity); try (destruct sy; reflexivity);
    try (destruct sx, sy; reflexivity).
  pose proof (Pos.compare_cont_antisym mx my Eq) as Hm. simpl in Hm.
  rewrite (Z.compare_antisym ex ey).
  destruct sx, sy; simpl; try reflexivity;
    destruct (ex ?= ey); simpl; try reflexivity;
    rewrite <- Hm; try reflexivity;
    now rewrite CompOpp_involutive.
Qed.

Lemma SFltb_asym (x y : spec_float) : SFltb x y = true -> SFltb y x = false.
Proof.
  unfold SFltb. rewrite (SFcompare_antisym x y).
  destruct (SFcompare x y) as [[ | | ] | ]; simpl; congruence.
Qed.

Lemma SFcompare_defined (x y : spec_float) :
  x <> S754_nan -> y <> S754_nan -> exists c, SFcompare x y = Some c.
Proof.
  intros Hx Hy. destruct x, y; try congruence; simpl; eauto.
Qed.

Lemma SFltb_false_SFleb (x y : spec_float) :
  x <> S754_nan -> y <> S754_nan -> SFltb x y = false -> SFleb y x = true.
Proof.
  intros Hx Hy. unfold SFltb, SFleb. rewrite (SFcompare_antisym x y).
  destruct (SFcompare_defined x y Hx Hy) as [c ->].
  destruct c; simpl; congruence.
Qed.

Lemma F64_ltb_asym (x y : double) : (x <? y)%f64 = true -> (y <? x)%f64 = false.
Proof. destruct x, y. apply SFltb_asym. Qed.

Lemma F64_ltb_false_leb (x y : double) :
  F64.is_nan x = false -> F64.is_nan y = false ->
  (x <? y)%f64 = false -> (y <=? x)%f64 = true.
Proof.
  destruct x as [x], y as [y]. unfold F64.is_nan, F64.ltb, F64.leb. simpl.
  intros Hx Hy. apply SFltb_false_SFleb; intro; subst; discriminate.
Qed.

(** ** Constants *)

Lemma kMinimumRateChange_value :
  F32.to_int64 (flit 5 10 * F32.of_Z CC.kMegabit)%f32 = Some 524288
  /\ CC.kMinimumRateChange = F64.lit 524288 1
  /\ CC.kMinSendingRate = F64.of_Z (2 * 2 ^ 20).
Proof. repeat split; vm_compute; reflexivity. Qed.

(** ** The floor of [ComputeRateChange] *)

Lemma floor_rate_change_magnitude (change : QuicBandwidth) :
  let r := CC.floor_rate_change change in
  F64.is_nan r = true
  \/ (r =? F64.of_Z 0)%f64 = true
  \/ (r <=? minus_kMinimumRateChange)%f64 = true
  \/ (CC.kMinimumRateChange <=? r)%f64 = true.
Proof.
  unfold CC.floor_rate_change. fold minus_kMinimumRateChange.
  destruct ((change <? F64.of_Z 0)%f64 && (minus_kMinimumRateChange <? change)%f64)
    eqn:Hneg.
  { right; right; left. vm_compute. reflexivity. }
  destruct ((F64.of_Z 0 <? change)%f64 && (change <? CC.kMinimumRateChange)%f64)
    eqn:Hpos.
  { right; right; right. vm_compute. reflexivity. }
  cbv zeta.
  destruct (F64.is_nan change) eqn:Hnan; [now left | right].
  destruct (change <? F64.of_Z 0)%f64 eqn:Hlt0.
  - right; left. simpl in Hneg.
    apply F64_ltb_false_leb; [reflexivity | assumption | assumption].
  - destruct (F64.of_Z 0 <? change)%f64 eqn:Hgt0.
    + right; right. simpl in Hpos.
      apply F64_ltb_false_leb; [assumption | reflexivity | assumption].
    + left. destruct change as [[s | s | | s m e]]; try reflexivity;
        try discriminate; destruct s; discriminate.
Qed.

Lemma floor_rate_change_sign (change : QuicBandwidth) :
  let r := CC.floor_rate_change change in
  (F64.of_Z 0 <? r)%f64 = (F64.of_Z 0 <? change)%f64
  /\ (r <? F64.of_Z 0)%f64 = (change <? F64.of_Z 0)%f64.
Proof.
  unfold CC.floor_rate_change. fold minus_kMinimumRateChange.
  destruct (change <? F64.of_Z 0)%f64 eqn:Hlt0; simpl.
  - pose proof (F64_ltb_asym _ _ Hlt0) as Hgt0.
    destruct (minus_kMinimumRateChange <? change)%f64.
    + rewrite Hgt0. split; vm_compute; reflexivity.
    + rewrite Hgt0. simpl. now rewrite Hgt0, Hlt0.
  - destruct (F64.of_Z 0 <? change)%f64 eqn:Hgt0; simpl.
    + destruct (change <? CC.kMinimumRateChange)%f64; [ | now rewrite Hlt0, Hgt0].
      split; vm_compute; reflexivity.
    + now rewrite Hlt0, Hgt0.
Qed.

(** ** Initialization *)

(** C9: the controller constructed with [initial_rtt_us = 10000],
    [initial_congestion_window = 10] and [max_congestion_window = 100]
    has [PacingRate() = 11200000] bits/s and
    [GetCongestionWindow() = 112000] bytes; its queue is empty and
    [avg_rtt_] is 0. *)
Theorem C9_initialization :
  CC.PacingRate controller_S1 = Some (F64.of_Z (10 * 1400 * 8 * 10 ^ 6 / 10000))
  /\ F64.of_Z (10 * 1400 * 8 * 10 ^ 6 / 10000) = F64.of_Z 11200000
  /\ CC.GetCongestionWindow controller_S1 = Some (11200000 * 10000 / 10 ^ 6)
  /\ 11200000 * 10000 / 10 ^ 6 = 112000
  /\ MIQ.empty (CongestionController.interval_queue_ controller_S1) = true
  /\ CongestionController.avg_rtt_ controller_S1 = 0
  /\ CongestionController.initial_rtt_ controller_S1 = 10000.
Proof. repeat split; vm_compute; reflexivity. Qed.

(** ** The STARTING step *)

(** C6: in STARTING, a batch whose first utility exceeds
    [latest_utility_info_.utility] doubles [sending_rate_], stores the
    first entry in [latest_utility_info_], increments [rounds_] and stays
    in STARTING; any other batch halves [sending_rate_], enters PROBING
    and sets [rounds_] to 1. *)
Theorem C6_starting_step (info0 : UtilityInfo.t) (rest : list UtilityInfo.t)
    (c : CongestionController.t) :
  CongestionController.mode_ c = STARTING ->
  exists c',
    CC.OnUtilityAvailable (info0 :: rest) c = Some c'
    /\ if (UtilityInfo.utility info0
           >? UtilityInfo.utility (CongestionController.latest_utility_info_ c))%f32
       then CongestionController.sending_rate_ c'
            = (CongestionController.sending_rate_ c * F64.of_Z 2)%f64
            /\ CongestionController.latest_utility_info_ c' = info0
            /\ CongestionController.rounds_ c'
               = size_t_incr (CongestionController.rounds_ c)
            /\ CongestionController.mode_ c' = STARTING
       else CongestionController.sending_rate_ c'
            = (CongestionController.sending_rate_ c * F64.lit 5 10)%f64
            /\ CongestionController.mode_ c' = PROBING
            /\ CongestionController.rounds_ c' = 1.
Proof.
  intros Hmode. unfold CC.OnUtilityAvailable. rewrite Hmode. simpl.
  destruct (_ <? _)%f32.
  - eexists. split; [reflexivity | ]. simpl. auto.
  - unfold CC.EnterProbing. rewrite Hmode. simpl. rewrite Hmode. simpl.
    eexists. split; [reflexivity | ]. simpl. auto.
Qed.

Lemma C6_starting_step_witness :
  exists c',
    CC.OnUtilityAvailable batch_without_gain controller_2_packets = Some c'
    /\ CongestionController.sending_rate_ c' = F64.of_Z 1120000
    /\ CongestionController.mode_ c' = PROBING
    /\ CongestionController.rounds_ c' = 1.
Proof.
  destruct (C6_starting_step
              (UtilityInfo.Build (F64.of_Z 2240000) (flit 0 1)) []
              controller_2_packets eq_refl) as [c' [Hrun Hcase]].
  exists c'. split; [exact Hrun | ].
  vm_compute in Hcase. destruct Hcase as [Hrate [Hmode Hrounds]].
  repeat split; assumption.
Defined.

(** ** What [ComputeRateChange] leaves alone *)

Lemma UpdateAverageGradient_outside (g : float) (c : CongestionController.t) :
  outside_rate_change (CC.UpdateAverageGradient g c) = outside_rate_change c.
Proof.
  unfold CC.UpdateAverageGradient.
  destruct (CongestionController.gradient_samples_ c); [reflexivity | ].
  destruct (_ <? _); reflexivity.
Qed.

Lemma ComputeRateChange_unfloored_outside (s1 s2 : UtilityInfo.t)
    (c : CongestionController.t) :
  outside_rate_change (snd (CC.ComputeRateChange_unfloored s1 s2 c))
  = outside_rate_change c.
Proof.
  cbv beta delta [CC.ComputeRateChange_unfloored].
  enter_let. clearbody utility_gradient.
  enter_let.
  assert (H0 : outside_rate_change c0 = outside_rate_change c)
    by apply UpdateAverageGradient_outside.
  clearbody c0.
  enter_let. clearbody change.
  enter_let.
  enter_let.
  assert (H1 : outside_rate_change c1 = outside_rate_change c)
    by (subst c1; cbv zeta; outside_setters).
  clearbody c1.
  enter_let. clearbody a.
  enter_let. clearbody change0.
  enter_let.
  assert (H2 : outside_rate_change c2 = outside_rate_change c)
    by (subst c2; cbv zeta; outside_setters).
  clearbody c2.
  enter_let. clearbody max_allowed_change_ratio.
  enter_let. clearbody change_ratio.
  enter_let. clearbody change_ratio0.
  match goal with
  | |- context [let '(x, y) := ?p in _] =>
      assert (H3 : outside_rate_change (snd p) = outside_rate_change c);
      [ | destruct p as [change1 c3] ]
  end.
  { cbv zeta.
    repeat match goal with
           | |- context [if ?b then _ else _] => destruct b
           end; simpl; outside_setters. }
  simpl in H3. cbv zeta. simpl. outside_setters.
Qed.

Lemma ComputeRateChange_outside (s1 s2 : UtilityInfo.t)
    (c : CongestionController.t) :
  outside_rate_change (snd (CC.ComputeRateChange s1 s2 c))
  = outside_rate_change c.
Proof.
  unfold CC.ComputeRateChange. destruct (_ =? _)%f64; [reflexivity | ].
  pose proof (ComputeRateChange_unfloored_outside s1 s2 c) as H.
  destruct (CC.ComputeRateChange_unfloored s1 s2 c). exact H.
Qed.

Lemma outside_rate_change_fields (c c' : CongestionController.t) :
  outside_rate_change c' = outside_rate_change c ->
  CongestionController.mode_ c' = CongestionController.mode_ c
  /\ CongestionController.sending_rate_ c' = CongestionController.sending_rate_ c
  /\ CongestionController.latest_utility_info_ c'
     = CongestionController.latest_utility_info_ c
  /\ CongestionController.rounds_ c' = CongestionController.rounds_ c
  /\ CongestionController.direction_ c' = CongestionController.direction_ c
  /\ CongestionController.interval_queue_ c'
     = CongestionController.interval_queue_ c
  /\ CongestionController.previous_change_ c'
     = CongestionController.previous_change_ c.
Proof. unfold outside_rate_change. intros H. inversion H. repeat split; auto. Qed.

(** ** The rate change and its floor *)

(** C2 (amended): for samples of equal sending rate [ComputeRateChange]
    returns exactly [kMinimumRateChange], which is positive.  Otherwise it
    returns the floored change, which is NaN, or zero, or at most
    [-kMinimumRateChange], or at least [kMinimumRateChange]; the floor
    keeps the sign of the change. *)
Theorem C2_rate_change_floor (s1 s2 : UtilityInfo.t)
    (c : CongestionController.t) :
  let r := fst (CC.ComputeRateChange s1 s2 c) in
  let change := fst (CC.ComputeRateChange_unfloored s1 s2 c) in
  if (UtilityInfo.sending_rate s1 =? UtilityInfo.sending_rate s2)%f64
  then r = CC.kMinimumRateChange
       /\ CC.kMinimumRateChange = F64.of_Z 524288
       /\ (F64.of_Z 0 <? r)%f64 = true
  else r = CC.floor_rate_change change
       /\ (F64.is_nan r = true
           \/ (r =? F64.of_Z 0)%f64 = true
           \/ (r <=? minus_kMinimumRateChange)%f64 = true
           \/ (CC.kMinimumRateChange <=? r)%f64 = true)
       /\ (F64.of_Z 0 <? r)%f64 = (F64.of_Z 0 <? change)%f64
       /\ (r <? F64.of_Z 0)%f64 = (change <? F64.of_Z 0)%f64.
Proof.
  cbv zeta. unfold CC.ComputeRateChange.
  destruct (_ =? _)%f64.
  - simpl. repeat split; vm_compute; reflexivity.
  - destruct (CC.ComputeRateChange_unfloored s1 s2 c) as [change c'].
    simpl. split; [reflexivity | ]. split.
    + apply floor_rate_change_magnitude.
    + apply floor_rate_change_sign.
Qed.

(** C2 as stated fails: two samples of different rates and equal utility
    give a zero gradient, and the change returned is zero, strictly
    between [-kMinimumRateChange] and [kMinimumRateChange]. *)
Lemma C2_counterexample :
  (UtilityInfo.sending_rate sample_12Mbit
   =? UtilityInfo.sending_rate sample_10Mbit)%f64 = false
  /\ fst (CC.ComputeRateChange sample_12Mbit sample_10Mbit controller_S1)
     = F64.of_Z 0
  /\ (minus_kMinimumRateChange
      <? fst (CC.ComputeRateChange sample_12Mbit sample_10Mbit controller_S1))%f64
     = true
  /\ (fst (CC.ComputeRateChange sample_12Mbit sample_10Mbit controller_S1)
      <? CC.kMinimumRateChange)%f64 = true.
Proof. repeat split; vm_compute; reflexivity. Qed.

(** ** The minimum sending rate *)

Lemma EnterProbing_mode (c c' : CongestionController.t) :
  CC.EnterProbing c = Some c' -> CongestionController.mode_ c' = PROBING.
Proof.
  unfold CC.EnterProbing. intros H.
  destruct (CongestionController.mode_ c) eqn:Hmode; simpl in H.
  - rewrite Hmode in H. simpl in H. now inversion H.
  - destruct (MIQ.current _); [simpl in H | discriminate].
    destruct (MonitorInterval.is_useful _);
      [destruct (RateChangeDirection_eqb _ _) | ];
      simpl in H; rewrite Hmode in H; simpl in H; inversion H; exact Hmode.
  - destruct (RateChangeDirection_eqb _ _); simpl in H; rewrite Hmode in H;
      simpl in H; now inversion H.
Qed.

Lemma clamp_rate_change_not_below (s rate_change : QuicBandwidth) :
  (CC.kMinSendingRate <=? s + CC.clamp_rate_change s rate_change)%f64 = true
  \/ F64.is_nan (s + CC.clamp_rate_change s rate_change)%f64 = true
  \/ (s + CC.clamp_rate_change s rate_change
      = s + (CC.kMinSendingRate - s))%f64.
Proof.
  unfold CC.clamp_rate_change.
  destruct (s + rate_change <? CC.kMinSendingRate)%f64 eqn:E; [auto | ].
  destruct (F64.is_nan (s + rate_change)%f64) eqn:Hnan; [auto | left].
  apply F64_ltb_false_leb; [exact Hnan | reflexivity | exact E].
Qed.

(** C1 (amended): a step of [OnUtilityAvailable] that leaves the controller
    in DECISION_MADE (PROBING with a decision, or DECISION_MADE keeping its
    direction) has applied the clamp on the rate change: the new
    [sending_rate_] is at least [kMinSendingRate], or NaN, or the clamped
    sum [sending_rate_ + (kMinSendingRate - sending_rate_)]. *)
Theorem C1_min_sending_rate_when_decided (utility_info : list UtilityInfo.t)
    (c c' : CongestionController.t) :
  CC.OnUtilityAvailable utility_info c = Some c' ->
  CongestionController.mode_ c' = DECISION_MADE ->
  (CC.kMinSendingRate <=? CongestionController.sending_rate_ c')%f64 = true
  \/ F64.is_nan (CongestionController.sending_rate_ c') = true
  \/ CongestionController.sending_rate_ c'
     = (CongestionController.sending_rate_ c
        + (CC.kMinSendingRate - CongestionController.sending_rate_ c))%f64.
Proof.
  unfold CC.OnUtilityAvailable. intros Hrun Hmode'.
  destruct (CongestionController.mode_ c) eqn:Hmode.
  - bind_inv Hrun. destruct (_ <? _)%f32.
    + inversion Hrun; subst c'. simpl in Hmode'. congruence.
    + apply EnterProbing_mode in Hrun. congruence.
  - bind_inv Hrun. destruct b.
    + do 4 bind_inv Hrun.
      match type of Hrun with
      | context [CC.ComputeRateChange ?a ?b ?c0] =>
          pose proof (ComputeRateChange_outside a b c0) as Hout;
          destruct (CC.ComputeRateChange a b c0) as [rate_change c2]
      end.
      apply outside_rate_change_fields in Hout.
      destruct Hout as [_ [Hrate _]]. simpl in Hrate.
      inversion Hrun; subst c'. simpl. rewrite Hrate.
      apply clamp_rate_change_not_below.
    + apply EnterProbing_mode in Hrun. congruence.
  - bind_inv Hrun.
    match type of Hrun with
    | context [CC.ComputeRateChange ?a ?b ?c0] =>
        pose proof (ComputeRateChange_outside a b c0) as Hout;
        destruct (CC.ComputeRateChange a b c0) as [rate_change c2]
    end.
    apply outside_rate_change_fields in Hout.
    destruct Hout as [_ [Hrate _]]. simpl in Hrate.
    destruct (Bool.eqb _ _).
    + inversion Hrun; subst c'. simpl. rewrite Hrate.
      apply clamp_rate_change_not_below.
    + apply EnterProbing_mode in Hrun. congruence.
Qed.

Lemma C1_min_sending_rate_when_decided_witness :
  exists c',
    CC.OnUtilityAvailable batch_agreeing controller_probing = Some c'
    /\ CongestionController.mode_ c' = DECISION_MADE
    /\ ((CC.kMinSendingRate <=? CongestionController.sending_rate_ c')%f64 = true
        \/ F64.is_nan (CongestionController.sending_rate_ c') = true
        \/ CongestionController.sending_rate_ c'
           = (CongestionController.sending_rate_ controller_probing
              + (CC.kMinSendingRate
                 - CongestionController.sending_rate_ controller_probing))%f64).
Proof.
  eexists. split; [vm_compute; reflexivity | ].
  split; [reflexivity | ].
  eapply (C1_min_sending_rate_when_decided batch_agreeing controller_probing).
  - vm_compute. reflexivity.
  - reflexivity.
Defined.

(** C1 as stated fails: from STARTING at 2 240 000 bit/s, a batch without
    utility gain halves the rate to 1 120 000 bit/s, below
    [kMinSendingRate]. *)
Lemma C1_counterexample :
  CongestionController.mode_ controller_2_packets = STARTING
  /\ below_min_sending_rate
       (CongestionController.sending_rate_ controller_2_packets) = false
  /\ option_map CongestionController.sending_rate_
       (CC.OnUtilityAvailable batch_without_gain controller_2_packets)
     = Some (F64.of_Z 1120000)
  /\ below_min_sending_rate (F64.of_Z 1120000) = true.
Proof. repeat split; vm_compute; reflexivity. Qed.

(** ** The loop of [MonitorIntervalQueue::OnCongestionEvent] *)

Section QueueLoop.
Context {libm : Libm}.
Variables (acked_packets : AckedPacketVector) (lost_packets : LostPacketVector).
Variables (rtt_us : Z) (event_time : QuicTime).

Lemma CalculateUtility_cases (interval after : MonitorInterval.t) (valid : bool) :
  MIQ.CalculateUtility interval = Some (valid, after) ->
  (valid = false /\ after = interval
   /\ (MonitorInterval.last_packet_sent_time interval
       =? MonitorInterval.first_packet_sent_time interval) = true)
  \/ (valid = true
      /\ (MonitorInterval.last_packet_sent_time interval
          =? MonitorInterval.first_packet_sent_time interval) = false
      /\ exists utility, after = MonitorInterval.set_utility utility interval).
Proof.
  unfold MIQ.CalculateUtility.
  destruct (_ =? _).
  - intros H. inversion H. left. auto.
  - destruct (MIQ.rtt_half_sums _ _) as [first_sum second_sum].
    intros H. bind_inv H. inversion H. right. eauto.
Qed.

Lemma reported_bytes_ext (field : CongestionEvent.t -> Z)
    (packets : list CongestionEvent.t) (a b : MonitorInterval.t) :
  identity_of a = identity_of b ->
  reported_bytes field packets a = reported_bytes field packets b.
Proof.
  intros H. unfold identity_of in H.
  assert (Hfirst : MonitorInterval.first_packet_number a
                   = MonitorInterval.first_packet_number b) by congruence.
  assert (Hlast : MonitorInterval.last_packet_number a
                  = MonitorInterval.last_packet_number b) by congruence.
  unfold reported_bytes, MIQ.IntervalContainsPacket.
  now rewrite Hfirst, Hlast.
Qed.

Lemma attribute_lost_spec (interval : MonitorInterval.t) :
  let after := MIQ.attribute_lost lost_packets interval in
  identity_of after = identity_of interval
  /\ MonitorInterval.bytes_acked after = MonitorInterval.bytes_acked interval
  /\ MonitorInterval.bytes_lost after
     = MonitorInterval.bytes_lost interval
       + reported_bytes CongestionEvent.bytes_lost lost_packets interval
  /\ MonitorInterval.packet_rtt_samples after
     = MonitorInterval.packet_rtt_samples interval
  /\ MonitorInterval.rtt_on_monitor_end_us after
     = MonitorInterval.rtt_on_monitor_end_us interval.
Proof.
  unfold MIQ.attribute_lost. revert interval.
  induction lost_packets as [ | packet packets IH]; intros interval; simpl.
  - repeat split; lia.
  - destruct (MIQ.IntervalContainsPacket interval _) eqn:Hin.
    + specialize (IH (MonitorInterval.set_bytes_lost
                        (MonitorInterval.bytes_lost interval
                         + CongestionEvent.bytes_lost packet) interval)).
      cbv zeta in IH. destruct IH as (Hid & Ha & Hl & Hs & He).
      match type of Hl with
      | context [reported_bytes ?f ?ps ?a] =>
          rewrite (reported_bytes_ext f ps a interval eq_refl) in Hl
      end.
      rewrite Hid, Ha, Hl, Hs, He. simpl.
      repeat split; lia.
    + apply IH.
Qed.

Lemma attribute_acked_spec (interval : MonitorInterval.t) :
  let after := MIQ.attribute_acked acked_packets rtt_us interval in
  identity_of after = identity_of interval
  /\ MonitorInterval.bytes_lost after = MonitorInterval.bytes_lost interval
  /\ MonitorInterval.bytes_acked after
     = MonitorInterval.bytes_acked interval
       + reported_bytes CongestionEvent.bytes_acked acked_packets interval
  /\ (exists added,
        MonitorInterval.packet_rtt_samples after
        = MonitorInterval.packet_rtt_samples interval ++ added
        /\ Forall (fun sample => PacketRttSample.sample_rtt sample = rtt_us) added)
  /\ MonitorInterval.rtt_on_monitor_end_us after
     = MonitorInterval.rtt_on_monitor_end_us interval.
Proof.
  unfold MIQ.attribute_acked. revert interval.
  induction acked_packets as [ | packet packets IH]; intros interval; simpl.
  - repeat split; try lia. exists []. now rewrite app_nil_r.
  - destruct (MIQ.IntervalContainsPacket interval _) eqn:Hin.
    + match goal with
      | |- context [fold_left _ packets ?start] => specialize (IH start)
      end.
      cbv zeta in IH. destruct IH as (Hid & Hl & Ha & (added & Hs & Hall) & He).
      match type of Ha with
      | context [reported_bytes ?f ?ps ?a] =>
          rewrite (reported_bytes_ext f ps a interval eq_refl) in Ha
      end.
      rewrite Hid, Ha, Hl, Hs, He. simpl.
      repeat split; try lia.
      eexists. rewrite <- app_assoc. split; [reflexivity | ].
      constructor; [reflexivity | assumption].
    + apply IH.
Qed.

Lemma attributed_spec (interval : MonitorInterval.t) :
  let after := attributed acked_packets lost_packets rtt_us interval in
  identity_of after = identity_of interval
  /\ MonitorInterval.bytes_acked after + MonitorInterval.bytes_lost after
     = MonitorInterval.bytes_acked interval + MonitorInterval.bytes_lost interval
       + (reported_bytes CongestionEvent.bytes_acked acked_packets interval
          + reported_bytes CongestionEvent.bytes_lost lost_packets interval)
  /\ (exists added,
        MonitorInterval.packet_rtt_samples after
        = MonitorInterval.packet_rtt_samples interval ++ added
        /\ Forall (fun sample => PacketRttSample.sample_rtt sample = rtt_us) added)
  /\ MonitorInterval.rtt_on_monitor_end_us after
     = MonitorInterval.rtt_on_monitor_end_us interval.
Proof.
  unfold attributed. cbv zeta.
  destruct (attribute_lost_spec interval) as (Hid & Ha & Hl & Hs & He).
  destruct (attribute_acked_spec (MIQ.attribute_lost lost_packets interval))
    as (Hid' & Hl' & Ha' & (added & Hs' & Hall) & He').
  rewrite Hid', Ha', Hl', Hs', He', Hid, Ha, Hl, Hs, He.
  rewrite (reported_bytes_ext _ _ _ interval Hid).
  repeat split; try lia. eauto.
Qed.

Lemma loop_result_identity (before after : MonitorInterval.t) :
  loop_result acked_packets lost_packets rtt_us event_time before after ->
  identity_of after = identity_of before.
Proof.
  destruct (attributed_spec before) as (Hid & _).
  intros [ | | utility | ]; try reflexivity; exact Hid.
Qed.

Lemma completes_with_invalid_utility_false (interval : MonitorInterval.t) :
  MonitorInterval.is_useful interval = false
  \/ MIQ.IsUtilityAvailable interval event_time = true
  \/ MIQ.IsUtilityAvailable
       (attributed acked_packets lost_packets rtt_us interval) event_time = false
  \/ (MonitorInterval.last_packet_sent_time interval
      =? MonitorInterval.first_packet_sent_time interval) = false ->
  completes_with_invalid_utility acked_packets lost_packets rtt_us event_time
    interval = false.
Proof.
  unfold completes_with_invalid_utility.
  intros [-> | [-> | [-> | ->]]]; simpl;
    rewrite ?andb_false_r; reflexivity.
Qed.

Lemma available_count_cons (interval : MonitorInterval.t)
    (rest : list MonitorInterval.t) :
  length (filter (becomes_available acked_packets lost_packets rtt_us event_time)
                 (useful_intervals (interval :: rest)))
  = ((if MonitorInterval.is_useful interval
         && becomes_available acked_packets lost_packets rtt_us event_time interval
      then 1 else 0)
     + length (filter (becomes_available acked_packets lost_packets rtt_us
                         event_time)
                      (useful_intervals rest)))%nat.
Proof.
  unfold useful_intervals. simpl.
  destruct (MonitorInterval.is_useful interval); simpl; [ | reflexivity].
  destruct (becomes_available _ _ _ _ interval); reflexivity.
Qed.

(** The intervals after the loop, the flag and the counter, in terms of
    the intervals before it. *)
Lemma for_each_interval_spec (intervals : list MonitorInterval.t) :
  forall (n : Z) (after : list MonitorInterval.t) (n' : Z) (invalid : bool),
    MIQ.for_each_interval acked_packets lost_packets rtt_us event_time
      intervals n = Some (after, n', invalid) ->
    Forall2 (loop_result acked_packets lost_packets rtt_us event_time)
      intervals after
    /\ invalid
       = existsb (completes_with_invalid_utility acked_packets lost_packets
                    rtt_us event_time) intervals
    /\ (invalid = false ->
        n' = Nat.iter
               (length (filter (becomes_available acked_packets lost_packets
                                  rtt_us event_time)
                               (useful_intervals intervals)))
               size_t_incr n).
Proof.
  induction intervals as [ | interval rest IH]; intros n after n' invalid Hrun.
  - simpl in Hrun. inversion Hrun. repeat split. constructor.
  - simpl in Hrun. rewrite available_count_cons. unfold becomes_available at 1.
    destruct (MonitorInterval.is_useful interval) eqn:Huseful; simpl in Hrun.
    + destruct (MIQ.IsUtilityAvailable interval event_time) eqn:Hbefore.
      * bind_inv Hrun. destruct p as [[rest' m] flag].
        inversion Hrun; subst. apply IH in E. destruct E as (Hall & Hflag & Hn).
        simpl existsb.
        rewrite completes_with_invalid_utility_false by auto.
        split; [constructor; [constructor | assumption] | ].
        split; [assumption | ].
        intros Hno. rewrite (Hn Hno). simpl. now rewrite <- Nat.iter_succ_r.
      * fold (attributed acked_packets lost_packets rtt_us interval) in Hrun.
        destruct (MIQ.IsUtilityAvailable
                    (attributed acked_packets lost_packets rtt_us interval)
                    event_time) eqn:Hafter.
        -- bind_inv Hrun. destruct p as [valid interval'].
           apply CalculateUtility_cases in E.
           destruct (attributed_spec interval) as (Hid & _).
           assert (Htimes :
                     (MonitorInterval.last_packet_sent_time
                        (MonitorInterval.set_rtt_on_monitor_end_us rtt_us
                           (attributed acked_packets lost_packets rtt_us interval))
                      =? MonitorInterval.first_packet_sent_time
                           (MonitorInterval.set_rtt_on_monitor_end_us rtt_us
                              (attributed acked_packets lost_packets rtt_us interval)))
                     = (MonitorInterval.last_packet_sent_time interval
                        =? MonitorInterval.first_packet_sent_time interval)).
           { simpl. unfold identity_of in Hid. inversion Hid. congruence. }
           rewrite Htimes in E. simpl existsb.
           destruct E as [(-> & -> & Hsame) | (-> & Hdiffer & utility & ->)].
           ++ simpl in Hrun. inversion Hrun; subst.
              unfold completes_with_invalid_utility.
              rewrite Huseful, Hbefore, Hafter, Hsame. simpl.
              split; [constructor; [now apply aborted | ] | ].
              { clear. induction rest; constructor; [constructor | assumption]. }
              split; [reflexivity | discriminate].
           ++ simpl in Hrun. bind_inv Hrun. destruct p as [[rest' m] flag].
              inversion Hrun; subst. apply IH in E.
              destruct E as (Hall & Hflag & Hn).
              rewrite completes_with_invalid_utility_false by auto.
              split; [constructor; [now apply completed | assumption] | ].
              split; [assumption | ].
              intros Hno. rewrite (Hn Hno). simpl.
              now rewrite <- Nat.iter_succ_r.
        -- bind_inv Hrun. destruct p as [[rest' m] flag].
           inversion Hrun; subst. apply IH in E.
           destruct E as (Hall & Hflag & Hn). simpl existsb.
           rewrite completes_with_invalid_utility_false by auto.
           split; [constructor; [now apply pending | assumption] | ].
           split; assumption.
    + bind_inv Hrun. destruct p as [[rest' m] flag].
      inversion Hrun; subst. apply IH in E. destruct E as (Hall & Hflag & Hn).
      simpl existsb.
      rewrite completes_with_invalid_utility_false by auto.
      split; [constructor; [constructor | assumption] | ].
      split; assumption.
Qed.

End QueueLoop.

(** ** Counting and draining *)

Lemma size_t_incr_iter (k : nat) (n : Z) :
  0 <= n -> n + Z.of_nat k < size_t_max ->
  Nat.iter k size_t_incr n = n + Z.of_nat k.
Proof.
  induction k as [ | k IH]; intros Hn Hk; simpl.
  - lia.
  - rewrite IH by lia. unfold size_t_incr, to_size_t.
    rewrite Z.mod_small; lia.
Qed.

Lemma filter_length_le {A : Type} (P : A -> bool) (l : list A) :
  (length (filter P l) <= length l)%nat.
Proof.
  induction l as [ | x l IH]; simpl; [lia | ].
  destruct (P x); simpl; lia.
Qed.

Lemma filter_length_forallb {A : Type} (P : A -> bool) (l : list A) :
  (Z.of_nat (length (filter P l)) <? Z.of_nat (length l)) = negb (forallb P l).
Proof.
  induction l as [ | x l IH]; simpl; [reflexivity | ].
  pose proof (filter_length_le P l) as Hle.
  destruct (P x); simpl.
  - rewrite <- IH. destruct (Z.ltb_spec (Z.of_nat (length (filter P l)))
                                        (Z.of_nat (length l)));
      [apply Z.ltb_lt | apply Z.ltb_ge]; lia.
  - apply Z.ltb_lt. lia.
Qed.

Lemma useful_intervals_length_le (intervals : list MonitorInterval.t) :
  (length (useful_intervals intervals) <= length intervals)%nat.
Proof. apply filter_length_le. Qed.

Lemma remove_useful_intervals_suffix (intervals : list MonitorInterval.t) :
  forall (n : Z) (remaining : list MonitorInterval.t) (n' : Z),
    MIQ.remove_useful_intervals intervals n = Some (remaining, n') ->
    exists dropped, intervals = dropped ++ remaining.
Proof.
  induction intervals as [ | front rest IH]; intros n remaining n' H; simpl in H.
  - destruct (0 <? n); [discriminate | ]. inversion H. now exists [].
  - destruct (0 <? n).
    + apply IH in H. destruct H as [dropped ->]. now exists (front :: dropped).
    + inversion H. now exists [].
Qed.

Lemma remove_useful_intervals_counted (intervals : list MonitorInterval.t) :
  exists remaining,
    MIQ.remove_useful_intervals intervals
      (Z.of_nat (length (useful_intervals intervals)))
    = Some (remaining, 0)
    /\ useful_intervals remaining = [].
Proof.
  induction intervals as [ | front rest IH]; simpl.
  - exists []. auto.
  - unfold useful_intervals. simpl.
    destruct (MonitorInterval.is_useful front) eqn:Huseful.
    + simpl length. rewrite Nat2Z.inj_succ.
      destruct (Z.ltb_spec 0 (Z.succ (Z.of_nat (length (filter MonitorInterval.is_useful rest)))));
        [ | lia].
      replace (Z.succ (Z.of_nat (length (filter MonitorInterval.is_useful rest))) - 1)
        with (Z.of_nat (length (useful_intervals rest)))
        by (unfold useful_intervals; lia).
      exact IH.
    + destruct (Z.ltb_spec 0 (Z.of_nat (length (filter MonitorInterval.is_useful rest)))).
      * exact IH.
      * exists (front :: rest). split.
        -- f_equal. f_equal. lia.
        -- unfold useful_intervals. simpl. rewrite Huseful.
           destruct (filter MonitorInterval.is_useful rest); [reflexivity | ].
           simpl in *. lia.
Qed.

Section QueueEvent.
Context {libm : Libm}.
Context {D : Type} {delegate_ : MIQ.MonitorIntervalQueueDelegateInterface D}.
Variables (acked_packets : AckedPacketVector) (lost_packets : LostPacketVector).
Variables (rtt_us : Z) (event_time : QuicTime).

Lemma loop_result_useful (before after : list MonitorInterval.t) :
  Forall2 (loop_result acked_packets lost_packets rtt_us event_time) before after ->
  map MonitorInterval.sending_rate (useful_intervals after)
  = map MonitorInterval.sending_rate (useful_intervals before)
  /\ length (useful_intervals after) = length (useful_intervals before).
Proof.
  induction 1 as [ | b a before after Hone Hall IH]; [auto | ].
  apply loop_result_identity in Hone. unfold identity_of in Hone.
  assert (Huseful : MonitorInterval.is_useful a = MonitorInterval.is_useful b)
    by congruence.
  assert (Hrate : MonitorInterval.sending_rate a = MonitorInterval.sending_rate b)
    by congruence.
  unfold useful_intervals in *. simpl. rewrite Huseful.
  destruct (MonitorInterval.is_useful b); simpl; [ | exact IH].
  destruct IH as [-> ->]. now rewrite Hrate.
Qed.

(** The intervals after an event: each one as the loop left it, minus the
    ones removed from the head.  No assumption on the queue. *)
Lemma OnCongestionEvent_intervals (q q' : MonitorIntervalQueue.t) (d d' : D) :
  MIQ.OnCongestionEvent acked_packets lost_packets rtt_us event_time q d
  = Some (q', d') ->
  exists after dropped,
    Forall2 (loop_result acked_packets lost_packets rtt_us event_time)
      (MonitorIntervalQueue.monitor_intervals_ q) after
    /\ after = dropped ++ MonitorIntervalQueue.monitor_intervals_ q'.
Proof.
  unfold MIQ.OnCongestionEvent. simpl. intros H.
  assert (Hrefl : forall l,
             Forall2 (loop_result acked_packets lost_packets rtt_us event_time) l l).
  { induction l; constructor; [constructor | assumption]. }
  destruct (MonitorIntervalQueue.num_useful_intervals_ q =? 0).
  { inversion H; subst. simpl.
    exists (MonitorIntervalQueue.monitor_intervals_ q), []. auto. }
  bind_inv H. destruct p as [[after n] invalid]. simpl in H.
  apply for_each_interval_spec in E. destruct E as (Hall & _).
  exists after.
  destruct ((n <? MonitorIntervalQueue.num_useful_intervals_ q) && negb invalid).
  { inversion H; subst. simpl. exists []. auto. }
  bind_inv H. bind_inv H. destruct p as [remaining m]. inversion H; subst.
  simpl. apply remove_useful_intervals_suffix in E0.
  destruct E0 as [dropped ->]. eauto.
Qed.

(** What an event does to a well-formed queue and to the delegate. *)
Lemma OnCongestionEvent_delivery (q q' : MonitorIntervalQueue.t) (d d' : D) :
  queue_wf q ->
  MIQ.OnCongestionEvent acked_packets lost_packets rtt_us event_time q d
  = Some (q', d') ->
  exists after,
    Forall2 (loop_result acked_packets lost_packets rtt_us event_time)
      (MonitorIntervalQueue.monitor_intervals_ q) after
    /\ if delivers acked_packets lost_packets rtt_us event_time q
       then MIQ.OnUtilityAvailable (MIQ.utility_info_of after)
              (MonitorIntervalQueue.Build after
                 (MonitorIntervalQueue.num_useful_intervals_ q)
                 (MonitorIntervalQueue.num_useful_intervals_ q)) d
            = Some d'
            /\ useful_intervals (MonitorIntervalQueue.monitor_intervals_ q') = []
            /\ MonitorIntervalQueue.num_useful_intervals_ q' = 0
            /\ MonitorIntervalQueue.num_available_intervals_ q' = 0
       else d' = d
            /\ (existsb (completes_with_invalid_utility acked_packets
                           lost_packets rtt_us event_time)
                  (MonitorIntervalQueue.monitor_intervals_ q) = true ->
                useful_intervals (MonitorIntervalQueue.monitor_intervals_ q') = []
                /\ MonitorIntervalQueue.num_useful_intervals_ q' = 0
                /\ MonitorIntervalQueue.num_available_intervals_ q' = 0).
Proof.
  intros [Hcount Hsize] H. unfold MIQ.OnCongestionEvent in H. simpl in H.
  unfold delivers.
  assert (Hrefl : forall l,
             Forall2 (loop_result acked_packets lost_packets rtt_us event_time) l l).
  { induction l; constructor; [constructor | assumption]. }
  destruct (Z.eqb_spec (MonitorIntervalQueue.num_useful_intervals_ q) 0) as [Hzero | Hsome].
  { inversion H; subst. rewrite Hzero. simpl.
    exists (MonitorIntervalQueue.monitor_intervals_ q).
    split; [apply Hrefl | ]. split; [reflexivity | ]. intros _.
    rewrite Hzero in Hcount.
    destruct (useful_intervals (MonitorIntervalQueue.monitor_intervals_ q));
      [auto | simpl in Hcount; lia]. }
  bind_inv H. destruct p as [[after n] invalid]. simpl in H.
  apply for_each_interval_spec in E. destruct E as (Hall & Hinvalid & Hn).
  exists after. split; [exact Hall | ].
  destruct (loop_result_useful _ _ Hall) as [_ Hlen].
  destruct (Z.ltb_spec 0 (MonitorIntervalQueue.num_useful_intervals_ q));
    [ | lia].
  rewrite <- Hinvalid. simpl.
  pose proof (useful_intervals_length_le (MonitorIntervalQueue.monitor_intervals_ q))
    as Hle.
  pose proof (filter_length_le
                (becomes_available acked_packets lost_packets rtt_us event_time)
                (useful_intervals (MonitorIntervalQueue.monitor_intervals_ q)))
    as Hle'.
  destruct invalid.
  - rewrite andb_false_r in *. simpl in H.
    rewrite Hcount, <- Hlen in H.
    destruct (remove_useful_intervals_counted after) as (remaining & Hdrain & Hnone).
    rewrite Hdrain in H. simpl in H. inversion H; subst. simpl. auto.
  - rewrite andb_true_r in *.
    rewrite (Hn eq_refl), size_t_incr_iter in H by lia.
    rewrite Z.add_0_l, Hcount, filter_length_forallb in H.
    destruct (forallb _ _) eqn:Hforall; simpl in H.
    + assert (Hfull :
                Z.of_nat (length (filter (becomes_available acked_packets
                                            lost_packets rtt_us event_time)
                                    (useful_intervals
                                       (MonitorIntervalQueue.monitor_intervals_ q))))
                = Z.of_nat (length (useful_intervals
                                      (MonitorIntervalQueue.monitor_intervals_ q)))).
      { pose proof (filter_length_forallb
                      (becomes_available acked_packets lost_packets rtt_us event_time)
                      (useful_intervals (MonitorIntervalQueue.monitor_intervals_ q)))
          as Hlt.
        rewrite Hforall in Hlt. simpl in Hlt. apply Z.ltb_ge in Hlt. lia. }
      rewrite Hfull in H. bind_inv H. rewrite <- Hlen in H.
      destruct (remove_useful_intervals_counted after) as (remaining & Hdrain & Hnone).
      rewrite Hdrain in H. simpl in H. inversion H; subst. simpl.
      rewrite Hcount. auto.
    + inversion H; subst. split; [reflexivity | discriminate].
Qed.

End QueueEvent.

(** ** Invalid utility *)

(** The path that calls [CalculateUtility]: when the attribution of this
    event completes a useful interval whose first and last packet were
    sent at the same time, the delegate is not called, so the controller
    is the one before the event (same mode, sending rate, latest utility
    and rounds), and the queue is left without useful intervals. *)
Lemma completing_event_drops_silently {libm : Libm}
    (acked_packets : AckedPacketVector) (lost_packets : LostPacketVector)
    (rtt_us : Z) (event_time : QuicTime)
    (c c' : CongestionController.t) (q' : MonitorIntervalQueue.t) :
  queue_wf (CongestionController.interval_queue_ c) ->
  existsb (completes_with_invalid_utility acked_packets lost_packets rtt_us
             event_time)
    (MonitorIntervalQueue.monitor_intervals_
       (CongestionController.interval_queue_ c)) = true ->
  MIQ.OnCongestionEvent acked_packets lost_packets rtt_us event_time
    (CongestionController.interval_queue_ c) c = Some (q', c') ->
  c' = c
  /\ CongestionController.mode_ c' = CongestionController.mode_ c
  /\ CongestionController.sending_rate_ c' = CongestionController.sending_rate_ c
  /\ CongestionController.latest_utility_info_ c'
     = CongestionController.latest_utility_info_ c
  /\ CongestionController.rounds_ c' = CongestionController.rounds_ c
  /\ useful_intervals (MonitorIntervalQueue.monitor_intervals_ q') = []
  /\ MonitorIntervalQueue.num_useful_intervals_ q' = 0.
Proof.
  intros Hwf Hinvalid Hrun.
  destruct (OnCongestionEvent_delivery _ _ _ _ _ _ _ _ Hwf Hrun)
    as (after & _ & Hcase).
  unfold delivers in Hcase. rewrite Hinvalid, andb_false_r in Hcase.
  destruct Hcase as [-> Hdrop]. destruct (Hdrop eq_refl) as (Hnone & Hzero & _).
  repeat split; assumption.
Qed.

Lemma completing_event_drops_silently_example :
  exists q',
    @MIQ.OnCongestionEvent libm_example _ CC.delegate [ack_1000 1] [] 10000
      20000 queue_single_packet controller_single_packet
    = Some (q', controller_single_packet)
    /\ useful_intervals (MonitorIntervalQueue.monitor_intervals_ q') = []
    /\ MonitorIntervalQueue.num_useful_intervals_ q' = 0.
Proof.
  eexists. split; [vm_compute; reflexivity | ].
  eapply (@completing_event_drops_silently libm_example [ack_1000 1] []
            10000 20000 controller_single_packet).
  - split; vm_compute; reflexivity.
  - vm_compute. reflexivity.
  - vm_compute. reflexivity.
Defined.

(** C3: the claim fails on the code for a useful interval that holds a
    single packet and whose bytes are all acknowledged before its planned
    end.  The event that completes its bytes comes too early for the
    interval to be utility-available, so [CalculateUtility] is not called;
    the next event finds the interval available, counts it without
    calling [CalculateUtility] and hands the delegate the utility 0 that
    was never calculated.  In the run [calls_single_packet] the last
    event, which carries no packet, takes the controller from STARTING at
    11 200 000 bit/s to PROBING at 5 600 000 bit/s, although the only
    useful interval has invalid utility. *)
Theorem C3_single_packet_interval_is_delivered :
  exists before after,
    option_map (skipn 4)
      (@api_run libm_example calls_single_packet controller_S1)
    = Some [before; after]
    /\ map (fun interval =>
              (single_send_time interval,
               option_map fst (@MIQ.CalculateUtility libm_example interval),
               MIQ.IsUtilityAvailable interval 30000))
           (useful_intervals
              (MonitorIntervalQueue.monitor_intervals_
                 (CongestionController.interval_queue_ before)))
       = [(true, Some false, true)]
    /\ (CongestionController.mode_ before,
        CongestionController.sending_rate_ before)
       = (STARTING, F64.of_Z 11200000)
    /\ (CongestionController.mode_ after,
        CongestionController.sending_rate_ after)
       = (PROBING, F64.of_Z 5600000)
    /\ MonitorIntervalQueue.monitor_intervals_
         (CongestionController.interval_queue_ after) = [].
Proof.
  eexists. eexists. split; [vm_compute; reflexivity | ].
  repeat split; vm_compute; reflexivity.
Qed.

(** ** Delivery of utility batches *)

Lemma delivery_conditions_agree (acked_packets : AckedPacketVector)
    (lost_packets : LostPacketVector) (rtt_us : Z) (event_time : QuicTime)
    (q : MonitorIntervalQueue.t) :
  settled_utilities_valid event_time q ->
  all_available_and_valid acked_packets lost_packets rtt_us event_time q
  = delivers acked_packets lost_packets rtt_us event_time q.
Proof.
  unfold settled_utilities_valid, all_available_and_valid, delivers.
  intros Hsettled. rewrite <- !andb_assoc. f_equal.
  unfold useful_intervals.
  induction Hsettled as [ | interval rest Hone _ IH]; [reflexivity | ].
  cbn [filter existsb].
  unfold completes_with_invalid_utility at 1.
  destruct (MonitorInterval.is_useful interval) eqn:Huseful;
    [ | exact IH].
  cbn [forallb existsb].
  assert (Havailable :
            becomes_available acked_packets lost_packets rtt_us event_time
              interval
            = MIQ.IsUtilityAvailable interval event_time
              || MIQ.IsUtilityAvailable
                   (attributed acked_packets lost_packets rtt_us interval)
                   event_time) by reflexivity.
  rewrite !Havailable. fold (single_send_time interval).
  destruct (MIQ.IsUtilityAvailable interval event_time) eqn:Hbefore.
  - rewrite (Hone eq_refl eq_refl). simpl. exact IH.
  - destruct (MIQ.IsUtilityAvailable
                (attributed acked_packets lost_packets rtt_us interval)
                event_time); simpl; [ | reflexivity].
    destruct (single_send_time interval); simpl.
    + now rewrite !andb_false_r.
    + exact IH.
Qed.

(** C4 (amended): on a queue whose counter agrees with its deque, and
    provided no useful interval that is already utility-available when
    the event arrives has invalid utility, [OnCongestionEvent] calls the
    delegate exactly when the queue holds at least one useful interval,
    every useful interval is or becomes utility-available at the event
    and none has invalid utility.  The batch has one entry per useful
    interval, in queue order, so its length is [num_useful_intervals_];
    after the delivery the queue holds no useful interval and both
    counters are 0. *)
Theorem C4_delivery {libm : Libm}
    (acked_packets : AckedPacketVector) (lost_packets : LostPacketVector)
    (rtt_us : Z) (event_time : QuicTime)
    (q q' : MonitorIntervalQueue.t) (log log' : Recorder) :
  queue_wf q ->
  settled_utilities_valid event_time q ->
  MIQ.OnCongestionEvent acked_packets lost_packets rtt_us event_time q log
  = Some (q', log') ->
  if all_available_and_valid acked_packets lost_packets rtt_us event_time q
  then exists after,
         Forall2 (loop_result acked_packets lost_packets rtt_us event_time)
           (MonitorIntervalQueue.monitor_intervals_ q) after
         /\ log' = log
                   ++ [map (fun interval =>
                              UtilityInfo.Build
                                (MonitorInterval.sending_rate interval)
                                (MonitorInterval.utility interval))
                           (useful_intervals after)]
         /\ map MonitorInterval.sending_rate (useful_intervals after)
            = map MonitorInterval.sending_rate
                (useful_intervals (MonitorIntervalQueue.monitor_intervals_ q))
         /\ Z.of_nat (length (useful_intervals after))
            = MonitorIntervalQueue.num_useful_intervals_ q
         /\ useful_intervals (MonitorIntervalQueue.monitor_intervals_ q') = []
         /\ MonitorIntervalQueue.num_useful_intervals_ q' = 0
         /\ MonitorIntervalQueue.num_available_intervals_ q' = 0
  else log' = log.
Proof.
  intros Hwf Hsettled Hrun.
  rewrite (delivery_conditions_agree acked_packets lost_packets rtt_us
             event_time q Hsettled).
  destruct (OnCongestionEvent_delivery _ _ _ _ _ _ _ _ Hwf Hrun)
    as (after & Hall & Hcase).
  destruct (delivers _ _ _ _ q); [ | apply Hcase].
  destruct Hcase as (Hcall & Hnone & Hzero & Havailable).
  simpl in Hcall. inversion Hcall.
  destruct (loop_result_useful _ _ _ _ _ _ Hall) as [Hrates Hlen].
  destruct Hwf as [Hcount _].
  exists after. unfold MIQ.utility_info_of. fold (useful_intervals after).
  repeat split; try assumption. rewrite Hlen. symmetry. exact Hcount.
Qed.

Lemma C4_delivery_witness :
  exists q' batch,
    @MIQ.OnCongestionEvent libm_example _ recorder [ack_1000 1; ack_1000 2] []
      10000 20000 queue_two_packets []
    = Some (q', [batch])
    /\ Z.of_nat (length batch)
       = MonitorIntervalQueue.num_useful_intervals_ queue_two_packets
    /\ useful_intervals (MonitorIntervalQueue.monitor_intervals_ q') = [].
Proof.
  pose proof (@C4_delivery libm_example [ack_1000 1; ack_1000 2] [] 10000
                20000 queue_two_packets) as H.
  destruct (@MIQ.OnCongestionEvent libm_example _ recorder
              [ack_1000 1; ack_1000 2] [] 10000 20000 queue_two_packets [])
    as [[q' log'] | ] eqn:Hrun; [ | vm_compute in Hrun; discriminate Hrun].
  specialize (H q' [] log').
  assert (Hwf : queue_wf queue_two_packets) by (split; vm_compute; reflexivity).
  assert (Hsettled : settled_utilities_valid 20000 queue_two_packets).
  { constructor; [ | constructor]. intros _ _. reflexivity. }
  specialize (H Hwf Hsettled Hrun).
  change (all_available_and_valid [ack_1000 1; ack_1000 2] [] 10000 20000
            queue_two_packets)
    with true in H.
  destruct H as (after & _ & Hlog & _ & Hlen & Hnone & _).
  exists q'. eexists. rewrite Hlog. split; [reflexivity | ].
  split; [ | exact Hnone]. rewrite length_map. exact Hlen.
Defined.

(** C4 as stated fails in two places.  After [ops_acked_early] the one
    useful interval is utility-available at 20 ms and has invalid utility
    ([CalculateUtility] reports it, the interval holding a single packet),
    and yet an event at 20 ms calls the delegate, with the utility 0 that
    was never calculated.  And on a queue without useful intervals, here
    the one of a connection that has no RTT sample yet, every useful
    interval is utility-available and none is invalid, vacuously, and the
    delegate is not called. *)
Lemma C4_counterexample :
  option_map
    (fun q =>
       (map (fun interval =>
               (MIQ.IsUtilityAvailable interval 20000,
                option_map fst (@MIQ.CalculateUtility libm_example interval)))
            (useful_intervals (MonitorIntervalQueue.monitor_intervals_ q)),
        option_map snd
          (@MIQ.OnCongestionEvent libm_example _ recorder [] [] 10000 20000
             q [])))
    (@queue_run libm_example ops_acked_early MonitorIntervalQueue.new)
  = Some ([(true, Some false)],
          Some [[UtilityInfo.Build (F64.of_Z 11200000) (flit 0 1)]])
  /\ useful_intervals (MonitorIntervalQueue.monitor_intervals_ queue_not_useful)
     = []
  /\ queue_wf queue_not_useful
  /\ option_map snd
       (@MIQ.OnCongestionEvent libm_example _ recorder [ack_1000 1; ack_1000 2]
          [] 10000 20000 queue_not_useful [])
     = Some [].
Proof. repeat split; vm_compute; reflexivity. Qed.

(** ** Byte counters *)

Lemma loop_result_bytes_ok (acked_packets : AckedPacketVector)
    (lost_packets : LostPacketVector) (rtt_us : Z) (event_time : QuicTime)
    (before after : MonitorInterval.t) :
  loop_result acked_packets lost_packets rtt_us event_time before after ->
  within_outstanding acked_packets lost_packets before ->
  bytes_ok before ->
  bytes_ok after.
Proof.
  intros Hres Hroom Hok.
  assert (Hattributed :
            bytes_ok (attributed acked_packets lost_packets rtt_us before)).
  { unfold within_outstanding, bytes_ok in *.
    destruct (attributed_spec acked_packets lost_packets rtt_us before)
      as (Hid & Hbytes & _).
    assert (Hsent : MonitorInterval.bytes_sent
                      (attributed acked_packets lost_packets rtt_us before)
                    = MonitorInterval.bytes_sent before)
      by (unfold identity_of in Hid; congruence).
    lia. }
  destruct Hres as [ | | utility | ]; assumption.
Qed.

Lemma record_packet_bytes_ok (sent_time : QuicTime)
    (packet_number : QuicPacketNumber) (bytes : QuicByteCount)
    (back : MonitorInterval.t) :
  0 <= bytes -> bytes_ok back ->
  bytes_ok (MIQ.record_packet sent_time packet_number bytes back).
Proof.
  unfold bytes_ok, MIQ.record_packet. intros Hbytes Hok.
  destruct (MonitorInterval.bytes_sent back =? 0); simpl; lia.
Qed.

Lemma queue_step_bytes_ok {libm : Libm} (op : QueueOp)
    (q q' : MonitorIntervalQueue.t) :
  deduplicated op q ->
  Forall bytes_ok (MonitorIntervalQueue.monitor_intervals_ q) ->
  queue_step op q = Some q' ->
  Forall bytes_ok (MonitorIntervalQueue.monitor_intervals_ q').
Proof.
  intros Hop Hok Hstep.
  destruct op as [rate useful tolerance rtt end_time | sent_time number bytes
                 | acked lost rtt event_time | ]; simpl in *.
  - inversion Hstep; subst. simpl. apply Forall_app. split; [assumption | ].
    constructor; [ | constructor]. unfold bytes_ok. simpl. lia.
  - inversion Hstep; subst. unfold MIQ.OnPacketSent.
    destruct (MonitorIntervalQueue.monitor_intervals_ q) as [ | front rest] eqn:Hq.
    + rewrite Hq. constructor.
    + simpl MonitorIntervalQueue.monitor_intervals_.
      assert (Hnonempty : front :: rest <> []) by discriminate.
      rewrite (app_removelast_last
                 (MonitorInterval.new (F64.of_Z 0) false (flit 0 1) 0 0)
                 Hnonempty) in Hok.
      apply Forall_app in Hok. destruct Hok as [Hinit Hlast].
      apply Forall_app. split; [assumption | ].
      constructor; [ | constructor].
      apply record_packet_bytes_ok; [assumption | now inversion Hlast].
  - bind_inv Hstep. destruct p as [q1 log]. inversion Hstep; subst.
    apply OnCongestionEvent_intervals in E.
    destruct E as (after & dropped & Hall & Hsplit).
    assert (Hafter : Forall bytes_ok after).
    { clear Hsplit. induction Hall as [ | b a bs as_ Hone Hrest IH];
        constructor.
      - eapply loop_result_bytes_ok;
          [exact Hone | now inversion Hop | now inversion Hok].
      - apply IH; [now inversion Hop | now inversion Hok]. }
    rewrite Hsplit in Hafter. apply Forall_app in Hafter. apply Hafter.
  - inversion Hstep. constructor.
Qed.

(** C8 (amended): starting from the empty queue, after every sequence of
    queue operations in which [OnPacketSent] is given a byte count that is
    not negative and each [OnCongestionEvent] reports, for every interval,
    no more acked and lost bytes than the interval has outstanding, every
    interval in the queue has [bytes_acked + bytes_lost <= bytes_sent]. *)
Theorem C8_bytes_within_sent {libm : Libm} (ops : list QueueOp)
    (q : MonitorIntervalQueue.t) :
  run_deduplicated ops MonitorIntervalQueue.new ->
  queue_run ops MonitorIntervalQueue.new = Some q ->
  Forall bytes_ok (MonitorIntervalQueue.monitor_intervals_ q).
Proof.
  assert (Hgen : forall (start : MonitorIntervalQueue.t),
             Forall bytes_ok (MonitorIntervalQueue.monitor_intervals_ start) ->
             run_deduplicated ops start ->
             queue_run ops start = Some q ->
             Forall bytes_ok (MonitorIntervalQueue.monitor_intervals_ q)).
  { induction ops as [ | op ops IH]; intros start Hok Hded Hrun; simpl in *.
    - now inversion Hrun; subst.
    - bind_inv Hrun. destruct Hded as [Hop Hnext].
      match goal with
      | Hstep : queue_step op start = Some ?next |- _ =>
          apply (IH next); [ | now apply Hnext | exact Hrun];
          exact (queue_step_bytes_ok op start next Hop Hok Hstep)
      end. }
  apply Hgen. constructor.
Qed.

Lemma C8_bytes_within_sent_witness :
  exists q,
    @queue_run libm_example ops_each_acked_once MonitorIntervalQueue.new = Some q
    /\ Forall bytes_ok (MonitorIntervalQueue.monitor_intervals_ q).
Proof.
  eexists. split; [vm_compute; reflexivity | ].
  apply (@C8_bytes_within_sent libm_example ops_each_acked_once).
  - simpl. split; [exact I | ]. intros q1 H1. inversion H1; subst; clear H1.
    split; [lia | ]. intros q2 H2. inversion H2; subst; clear H2.
    split; [lia | ]. intros q3 H3. inversion H3; subst; clear H3.
    split.
    { repeat constructor. unfold within_outstanding. vm_compute.
      intros H; discriminate H. }
    intros q4 H4. vm_compute in H4. inversion H4; subst; clear H4.
    split.
    { repeat constructor. unfold within_outstanding. vm_compute.
      intros H; discriminate H. }
    intros q5 _. exact I.
  - vm_compute. reflexivity.
Defined.

(** C8 as stated fails: the queue adds every reported byte count, so one
    event that acknowledges the same packet three times leaves an interval
    with [bytes_acked = 3000] and [bytes_sent = 2000]. *)
Lemma C8_counterexample :
  option_map
    (fun q =>
       map (fun interval =>
              (MonitorInterval.bytes_acked interval,
               MonitorInterval.bytes_lost interval,
               MonitorInterval.bytes_sent interval))
           (MonitorIntervalQueue.monitor_intervals_ q))
    (@queue_run libm_example ops_duplicate_ack MonitorIntervalQueue.new)
  = Some [(3000, 0, 2000)]
  /\ ~ (3000 + 0 <= 2000).
Proof. split; [vm_compute; reflexivity | lia]. Qed.

(** ** RTT samples *)

Lemma Forall2_untouched (acked_packets : AckedPacketVector)
    (lost_packets : LostPacketVector) (rtt_us : Z) (event_time : QuicTime)
    (intervals : list MonitorInterval.t) :
  Forall2 (loop_result acked_packets lost_packets rtt_us event_time)
    intervals intervals.
Proof. induction intervals; constructor; [constructor | assumption]. Qed.

Lemma loop_result_records_rtt (acked_packets : AckedPacketVector)
    (lost_packets : LostPacketVector) (rtt_us : Z) (event_time : QuicTime)
    (before after : MonitorInterval.t) :
  loop_result acked_packets lost_packets rtt_us event_time before after ->
  records_rtt rtt_us before after.
Proof.
  destruct (attributed_spec acked_packets lost_packets rtt_us before)
    as (_ & _ & Hsamples & Hend).
  unfold records_rtt.
  intros [ | | utility | ]; simpl; auto.
  split; [ | now left]. exists []. now rewrite app_nil_r.
Qed.

Lemma EnterProbing_queue (c c' : CongestionController.t) :
  CC.EnterProbing c = Some c' ->
  CongestionController.interval_queue_ c'
  = CongestionController.interval_queue_ c.
Proof.
  unfold CC.EnterProbing. intros H. bind_inv H.
  assert (Hq : CongestionController.interval_queue_ t
               = CongestionController.interval_queue_ c).
  { destruct (CongestionController.mode_ c).
    - now inversion E.
    - bind_inv E.
      destruct (MonitorInterval.is_useful _);
        [destruct (RateChangeDirection_eqb _ _) | ]; now inversion E.
    - destruct (RateChangeDirection_eqb _ _); now inversion E. }
  destruct (SenderMode_eqb _ _); inversion H; subst; simpl; exact Hq.
Qed.

(** C10: in one call of the controller's [OnCongestionEvent], the loop of
    the queue runs with [rtt_us] equal to the [rtt] argument: every sample
    appended to an interval carries [rtt], and
    [rtt_on_monitor_end_us] is kept or set to [rtt].  The intervals of the
    queue after the call are the intervals the loop left, minus the ones
    removed from the head. *)
Theorem C10_samples_carry_raw_rtt {libm : Libm} (event_time rtt : QuicTime)
    (acked_packets : AckedPacketVector) (lost_packets : LostPacketVector)
    (c c' : CongestionController.t) :
  CC.OnCongestionEvent event_time rtt acked_packets lost_packets c = Some c' ->
  exists after dropped,
    Forall2
      (fun before interval =>
         loop_result acked_packets lost_packets rtt event_time before interval
         /\ records_rtt rtt before interval)
      (MonitorIntervalQueue.monitor_intervals_
         (CongestionController.interval_queue_ c))
      after
    /\ after
       = dropped
         ++ MonitorIntervalQueue.monitor_intervals_
              (CongestionController.interval_queue_ c').
Proof.
  assert (Hweaken : forall before after,
             Forall2 (loop_result acked_packets lost_packets rtt event_time)
               before after ->
             Forall2
               (fun b a =>
                  loop_result acked_packets lost_packets rtt event_time b a
                  /\ records_rtt rtt b a) before after).
  { induction 1; constructor; [ | assumption].
    split; [assumption | eapply loop_result_records_rtt; eassumption]. }
  assert (Hqueue : forall c1 c2,
             CongestionController.interval_queue_ c1
             = CongestionController.interval_queue_ c ->
             (bind (MIQ.OnCongestionEvent acked_packets lost_packets rtt
                      event_time (CongestionController.interval_queue_ c1) c1)
                   (fun x => let '(q, c3) := x in
                             Some (CongestionController.set_interval_queue_ q c3))
              = Some c2) ->
             exists after dropped,
               Forall2
                 (fun b a =>
                    loop_result acked_packets lost_packets rtt event_time b a
                    /\ records_rtt rtt b a)
                 (MonitorIntervalQueue.monitor_intervals_
                    (CongestionController.interval_queue_ c)) after
               /\ after
                  = dropped
                    ++ MonitorIntervalQueue.monitor_intervals_
                         (CongestionController.interval_queue_ c2)).
  { intros c1 c2 Hsame H. bind_inv H. destruct p as [q c3].
    inversion H; subst. simpl.
    apply OnCongestionEvent_intervals in E.
    destruct E as (after & dropped & Hall & Hsplit).
    rewrite Hsame in Hall. exists after, dropped. auto. }
  unfold CC.OnCongestionEvent. intros H.
  destruct (negb (rtt =? 0)); [ | now apply (Hqueue c c')].
  bind_inv H. bind_inv H. destruct b.
  - apply EnterProbing_queue in H. simpl in H.
    exists (MonitorIntervalQueue.monitor_intervals_
              (CongestionController.interval_queue_ c)),
           (MonitorIntervalQueue.monitor_intervals_
              (CongestionController.interval_queue_ c)).
    rewrite H. simpl. rewrite app_nil_r. split; [ | reflexivity].
    apply Hweaken, Forall2_untouched.
  - exact (Hqueue (CongestionController.set_avg_rtt_ q c) c' eq_refl H).
Qed.

Lemma C10_samples_carry_raw_rtt_witness :
  (exists c',
     @CC.OnCongestionEvent libm_example 12000 12000 [ack_1000 1] []
       controller_single_packet = Some c'
     /\ CongestionController.avg_rtt_ c' = 10500
     /\ map (fun interval =>
               map PacketRttSample.sample_rtt
                   (MonitorInterval.packet_rtt_samples interval))
            (MonitorIntervalQueue.monitor_intervals_
               (CongestionController.interval_queue_ c'))
        = [[12000]])
  /\ exists c' after dropped,
       Forall2
         (fun before interval =>
            loop_result [ack_1000 1] [] 12000 12000 before interval
            /\ records_rtt 12000 before interval)
         (MonitorIntervalQueue.monitor_intervals_
            (CongestionController.interval_queue_ controller_single_packet))
         after
       /\ after
          = dropped
            ++ MonitorIntervalQueue.monitor_intervals_
                 (CongestionController.interval_queue_ c').
Proof.
  split.
  - eexists. split; [vm_compute; reflexivity | ].
    split; vm_compute; reflexivity.
  - eexists.
    eapply (@C10_samples_carry_raw_rtt libm_example 12000 12000 [ack_1000 1] []
              controller_single_packet).
    vm_compute. reflexivity.
Defined.

(** ** Mode transitions *)

Lemma mode_edge_refl (m : SenderMode) : mode_edge m m = true.
Proof. now destruct m. Qed.

Lemma mode_edge_to_probing (m : SenderMode) : mode_edge m PROBING = true.
Proof. now destruct m. Qed.

Lemma OnUtilityAvailable_mode_edge (utility_info : list UtilityInfo.t)
    (c c' : CongestionController.t) :
  CC.OnUtilityAvailable utility_info c = Some c' ->
  mode_edge (CongestionController.mode_ c) (CongestionController.mode_ c') = true.
Proof.
  unfold CC.OnUtilityAvailable. intros Hrun.
  destruct (CongestionController.mode_ c) eqn:Hmode.
  - bind_inv Hrun. destruct (_ <? _)%f32.
    + inversion Hrun; subst c'. simpl. now rewrite Hmode.
    + apply EnterProbing_mode in Hrun. now rewrite Hrun.
  - bind_inv Hrun. destruct b.
    + do 4 bind_inv Hrun.
      destruct (CC.ComputeRateChange _ _ _) as [rate_change c2].
      inversion Hrun; subst c'. reflexivity.
    + apply EnterProbing_mode in Hrun. now rewrite Hrun.
  - bind_inv Hrun.
    match type of Hrun with
    | context [CC.ComputeRateChange ?a ?b ?c0] =>
        pose proof (ComputeRateChange_outside a b c0) as Hout;
        destruct (CC.ComputeRateChange a b c0) as [rate_change c2]
    end.
    apply outside_rate_change_fields in Hout.
    destruct Hout as [Hsame _]. simpl in Hsame.
    destruct (Bool.eqb _ _).
    + inversion Hrun; subst c'. simpl. now rewrite Hsame, Hmode.
    + apply EnterProbing_mode in Hrun. now rewrite Hrun.
Qed.

Lemma MaybeSetSendingRate_mode (rand : Z) (c c' : CongestionController.t) :
  CC.MaybeSetSendingRate rand c = Some c' ->
  CongestionController.mode_ c' = CongestionController.mode_ c.
Proof.
  unfold CC.MaybeSetSendingRate. intros H. bind_inv H.
  destruct b; [now inversion H | ].
  repeat match type of H with
         | context [if ?b then _ else _] => destruct b
         end; inversion H; reflexivity.
Qed.

Lemma OnPacketSent_mode {libm : Libm} (rand : Z) (sent_time : QuicTime)
    (bytes_in_flight : QuicByteCount) (packet_number : QuicPacketNumber)
    (bytes : QuicByteCount) (is_retransmittable : bool)
    (c c' : CongestionController.t) :
  CC.OnPacketSent rand sent_time bytes_in_flight packet_number bytes
    is_retransmittable c = Some c' ->
  CongestionController.mode_ c' = CongestionController.mode_ c.
Proof.
  unfold CC.OnPacketSent. intros H. bind_inv H. bind_inv H.
  inversion H; subst c'. simpl.
  destruct b.
  - bind_inv E0. bind_inv E0. inversion E0; subst. simpl.
    eapply MaybeSetSendingRate_mode; eassumption.
  - now inversion E0.
Qed.

(** The delegate after an event of the queue: untouched, or the result of
    one call of [OnUtilityAvailable]. *)
Lemma OnCongestionEvent_delegate {libm : Libm} {D : Type}
    {delegate_ : MIQ.MonitorIntervalQueueDelegateInterface D}
    (acked_packets : AckedPacketVector) (lost_packets : LostPacketVector)
    (rtt_us : Z) (event_time : QuicTime)
    (q q' : MonitorIntervalQueue.t) (d d' : D) :
  MIQ.OnCongestionEvent acked_packets lost_packets rtt_us event_time q d
  = Some (q', d') ->
  d' = d
  \/ exists utility_info at_call,
       MIQ.OnUtilityAvailable utility_info at_call d = Some d'.
Proof.
  unfold MIQ.OnCongestionEvent. simpl. intros H.
  destruct (_ =? 0); [inversion H; now left | ].
  bind_inv H. destruct p as [[after n] invalid]. simpl in H.
  destruct (_ && _); [inversion H; now left | ].
  bind_inv H. bind_inv H. destruct p as [remaining m]. inversion H; subst.
  destruct (negb invalid); [right; eauto | inversion E0; now left].
Qed.

Lemma rtt_inflation_in_starting_mode (avg_rtt_us : Z)
    (c : CongestionController.t) :
  CC.rtt_inflation_in_starting avg_rtt_us c = Some true ->
  CongestionController.mode_ c = STARTING.
Proof.
  unfold CC.rtt_inflation_in_starting.
  destruct (CongestionController.mode_ c); simpl; congruence.
Qed.

Lemma OnCongestionEvent_mode_edge {libm : Libm} (event_time rtt : QuicTime)
    (acked_packets : AckedPacketVector) (lost_packets : LostPacketVector)
    (c c' : CongestionController.t) :
  CC.OnCongestionEvent event_time rtt acked_packets lost_packets c = Some c' ->
  mode_edge (CongestionController.mode_ c) (CongestionController.mode_ c') = true.
Proof.
  assert (Hqueue : forall c1 c2,
             (bind (MIQ.OnCongestionEvent acked_packets lost_packets rtt
                      event_time (CongestionController.interval_queue_ c1) c1)
                   (fun x => let '(q, c3) := x in
                             Some (CongestionController.set_interval_queue_ q c3))
              = Some c2) ->
             mode_edge (CongestionController.mode_ c1)
                       (CongestionController.mode_ c2) = true).
  { intros c1 c2 H. bind_inv H. destruct p as [q c3]. inversion H; subst.
    simpl. apply OnCongestionEvent_delegate in E.
    destruct E as [-> | (utility_info & at_call & Hcall)].
    - apply mode_edge_refl.
    - simpl in Hcall. apply OnUtilityAvailable_mode_edge in Hcall.
      exact Hcall. }
  unfold CC.OnCongestionEvent. intros H.
  destruct (negb (rtt =? 0)); [ | now apply Hqueue].
  bind_inv H. bind_inv H. destruct b.
  - apply EnterProbing_mode in H. rewrite H. apply mode_edge_to_probing.
  - exact (Hqueue (CongestionController.set_avg_rtt_ q c) c' H).
Qed.

(** C7: every call of the API moves the mode along the graph
    STARTING -> {STARTING, PROBING}, PROBING -> {PROBING, DECISION_MADE},
    DECISION_MADE -> {DECISION_MADE, PROBING}, and so does every
    [OnUtilityAvailable] step; hence the modes of a run follow the
    graph.  The fast path of [OnCongestionEvent] is taken only in
    STARTING and ends in PROBING. *)
Theorem C7_mode_graph {libm : Libm} :
  (forall utility_info c c',
      CC.OnUtilityAvailable utility_info c = Some c' ->
      mode_edge (CongestionController.mode_ c) (CongestionController.mode_ c')
      = true)
  /\ (forall calls c trace,
         api_run calls c = Some trace ->
         follows_mode_graph (map CongestionController.mode_ trace) = true)
  /\ (forall event_time rtt acked_packets lost_packets c,
         takes_fast_path rtt c ->
         CongestionController.mode_ c = STARTING
         /\ forall c',
              CC.OnCongestionEvent event_time rtt acked_packets lost_packets c
              = Some c' ->
              CongestionController.mode_ c' = PROBING).
Proof.
  split; [exact OnUtilityAvailable_mode_edge | ]. split.
  - induction calls as [ | call calls IH]; intros c trace Hrun; simpl in Hrun.
    + now inversion Hrun.
    + do 2 bind_inv Hrun. inversion Hrun; subst trace.
      assert (Hstep : mode_edge (CongestionController.mode_ c)
                                (CongestionController.mode_ t) = true).
      { destruct call; simpl in E.
        - apply OnPacketSent_mode in E. rewrite E. apply mode_edge_refl.
        - eapply OnCongestionEvent_mode_edge; eassumption. }
      specialize (IH _ _ E0).
      destruct calls; simpl in E0.
      * inversion E0; subst. simpl. now rewrite Hstep.
      * do 2 bind_inv E0. inversion E0; subst. simpl in *.
        now rewrite Hstep, IH.
  - intros event_time rtt acked_packets lost_packets c
           (Hrtt & avg_rtt & Havg & Hinflated).
    split.
    + apply rtt_inflation_in_starting_mode in Hinflated. exact Hinflated.
    + intros c'. unfold CC.OnCongestionEvent.
      apply Z.eqb_neq in Hrtt. rewrite Hrtt, Havg. simpl.
      rewrite Hinflated. simpl. apply EnterProbing_mode.
Qed.

Lemma C7_mode_graph_witness :
  (exists trace,
      @api_run libm_example calls_S1 controller_S1 = Some trace
      /\ map CongestionController.mode_ trace
         = [STARTING; STARTING; STARTING; STARTING; STARTING; STARTING;
            STARTING; PROBING]
      /\ follows_mode_graph (map CongestionController.mode_ trace) = true)
  /\ exists c',
       CC.OnUtilityAvailable batch_agreeing controller_probing = Some c'
       /\ mode_edge (CongestionController.mode_ controller_probing)
                    (CongestionController.mode_ c') = true.
Proof.
  destruct (@C7_mode_graph libm_example) as (Hstep & Hrun & _).
  split.
  - eexists. split; [vm_compute; reflexivity | ].
    split; [reflexivity | ].
    apply (Hrun calls_S1 controller_S1). vm_compute. reflexivity.
  - eexists. split; [vm_compute; reflexivity | ].
    apply (Hstep batch_agreeing controller_probing). vm_compute. reflexivity.
Defined.

(** ** The utility function *)




(** ** The queue stays well-formed *)

Lemma useful_intervals_app (a b : list MonitorInterval.t) :
  useful_intervals (a ++ b) = useful_intervals a ++ useful_intervals b.
Proof. apply filter_app. Qed.

Lemma OnCongestionEvent_wf {libm : Libm} {D : Type}
    {delegate_ : MIQ.MonitorIntervalQueueDelegateInterface D}
    (acked_packets : AckedPacketVector) (lost_packets : LostPacketVector)
    (rtt_us : Z) (event_time : QuicTime)
    (q q' : MonitorIntervalQueue.t) (d d' : D) :
  queue_wf q ->
  MIQ.OnCongestionEvent acked_packets lost_packets rtt_us event_time q d
  = Some (q', d') ->
  queue_wf q'
  /\ (length (MonitorIntervalQueue.monitor_intervals_ q')
      <= length (MonitorIntervalQueue.monitor_intervals_ q))%nat.
Proof.
  intros [Hcount Hsize] H. unfold MIQ.OnCongestionEvent in H. simpl in H.
  destruct (_ =? 0).
  { inversion H; subst. simpl. split; [split; assumption | lia]. }
  bind_inv H. destruct p as [[after n] invalid]. simpl in H.
  apply for_each_interval_spec in E. destruct E as (Hall & _).
  destruct (loop_result_useful _ _ _ _ _ _ Hall) as [_ Huseful].
  pose proof (Forall2_length Hall) as Hlength.
  destruct (_ && _).
  { inversion H; subst. unfold queue_wf. simpl.
    rewrite Huseful, <- Hlength. split; [split; assumption | lia]. }
  bind_inv H. rewrite Hcount, <- Huseful in H.
  destruct (remove_useful_intervals_counted after) as (remaining & Hdrain & Hnone).
  pose proof (remove_useful_intervals_suffix _ _ _ _ Hdrain) as [dropped Hsplit].
  rewrite Hdrain in H. simpl in H. inversion H; subst. unfold queue_wf. simpl.
  rewrite Hnone. rewrite length_app in Hlength. simpl.
  split; [split; lia | lia].
Qed.

Lemma EnqueueNewMonitorInterval_wf (sending_rate : QuicBandwidth)
    (is_useful : bool) (tolerance : float) (rtt_us : Z) (end_time : QuicTime)
    (q : MonitorIntervalQueue.t) :
  queue_wf q ->
  Z.of_nat (length (MonitorIntervalQueue.monitor_intervals_ q)) + 1 < size_t_max ->
  queue_wf (MIQ.EnqueueNewMonitorInterval sending_rate is_useful tolerance
              rtt_us end_time q).
Proof.
  intros [Hcount Hsize] Hroom.
  pose proof (useful_intervals_length_le (MonitorIntervalQueue.monitor_intervals_ q))
    as Hle.
  unfold queue_wf. simpl. rewrite useful_intervals_app, !length_app. simpl.
  destruct is_useful; simpl.
  - unfold size_t_incr, to_size_t. rewrite Z.mod_small by lia. lia.
  - lia.
Qed.

Lemma OnPacketSent_wf (sent_time : QuicTime) (packet_number : QuicPacketNumber)
    (bytes : QuicByteCount) (q : MonitorIntervalQueue.t) :
  queue_wf q ->
  queue_wf (MIQ.OnPacketSent sent_time packet_number bytes q)
  /\ length (MonitorIntervalQueue.monitor_intervals_
               (MIQ.OnPacketSent sent_time packet_number bytes q))
     = length (MonitorIntervalQueue.monitor_intervals_ q).
Proof.
  intros [Hcount Hsize]. unfold MIQ.OnPacketSent.
  destruct (MonitorIntervalQueue.monitor_intervals_ q) as [ | front rest] eqn:Hq.
  - unfold queue_wf. rewrite Hq. simpl. auto.
  - assert (Hnonempty : front :: rest <> []) by discriminate.
    pose proof (app_removelast_last
                  (MonitorInterval.new (F64.of_Z 0) false (flit 0 1) 0 0)
                  Hnonempty) as Hsplit.
    unfold queue_wf.
    cbn [MonitorIntervalQueue.monitor_intervals_
         MonitorIntervalQueue.num_useful_intervals_].
    set (init := removelast (front :: rest)) in *.
    set (back := last (front :: rest) _) in *.
    rewrite Hsplit in Hcount, Hsize |- *.
    rewrite useful_intervals_app, length_app in Hcount.
    rewrite length_app in Hsize.
    rewrite useful_intervals_app, !length_app.
    assert (Huseful :
              length (useful_intervals
                        [MIQ.record_packet sent_time packet_number bytes back])
              = length (useful_intervals [back])).
    { unfold useful_intervals, MIQ.record_packet. simpl.
      destruct (MonitorInterval.bytes_sent back =? 0); simpl;
        destruct (MonitorInterval.is_useful back); reflexivity. }
    rewrite Huseful. simpl length in *. repeat split; lia.
Qed.

(** Every operation keeps the counter of useful intervals in step with
    the deque, as long as the deque has room for one more interval. *)
Lemma queue_step_wf {libm : Libm} (op : QueueOp)
    (q q' : MonitorIntervalQueue.t) :
  queue_wf q ->
  Z.of_nat (length (MonitorIntervalQueue.monitor_intervals_ q)) + 1 < size_t_max ->
  queue_step op q = Some q' ->
  queue_wf q'.
Proof.
  intros Hwf Hroom Hstep.
  destruct op as [rate useful tolerance rtt end_time | sent_time number bytes
                 | acked lost rtt event_time | ]; simpl in Hstep.
  - inversion Hstep. now apply EnqueueNewMonitorInterval_wf.
  - inversion Hstep. now apply OnPacketSent_wf.
  - bind_inv Hstep. destruct p as [q1 log]. inversion Hstep; subst.
    eapply OnCongestionEvent_wf; eassumption.
  - inversion Hstep. unfold queue_wf. simpl. split; reflexivity.
Qed.

Lemma MaybeSetSendingRate_queue (rand : Z) (c c' : CongestionController.t) :
  CC.MaybeSetSendingRate rand c = Some c' ->
  CongestionController.interval_queue_ c'
  = CongestionController.interval_queue_ c.
Proof.
  unfold CC.MaybeSetSendingRate. intros H. bind_inv H.
  destruct b; [now inversion H | ].
  repeat match type of H with
         | context [if ?b then _ else _] => destruct b
         end; inversion H; reflexivity.
Qed.

(** The queue of the controller stays well-formed over the calls of the
    API, as long as it has room for one more interval. *)
Lemma api_step_wf {libm : Libm} (call : ApiCall)
    (c c' : CongestionController.t) :
  queue_wf (CongestionController.interval_queue_ c) ->
  Z.of_nat (length (MonitorIntervalQueue.monitor_intervals_
                      (CongestionController.interval_queue_ c))) + 1
  < size_t_max ->
  api_step call c = Some c' ->
  queue_wf (CongestionController.interval_queue_ c').
Proof.
  intros Hwf Hroom Hstep.
  destruct call as [rand sent_time in_flight number bytes retx
                   | event_time rtt acked lost]; simpl in Hstep.
  - unfold CC.OnPacketSent in Hstep. bind_inv Hstep. bind_inv Hstep.
    inversion Hstep; subst c'. simpl. apply OnPacketSent_wf.
    destruct b.
    + bind_inv E0. bind_inv E0. inversion E0; subst t. simpl.
      apply MaybeSetSendingRate_queue in E1. rewrite E1.
      now apply EnqueueNewMonitorInterval_wf.
    + inversion E0; subst t. exact Hwf.
  - unfold CC.OnCongestionEvent in Hstep.
    assert (Hqueue : forall c1,
               CongestionController.interval_queue_ c1
               = CongestionController.interval_queue_ c ->
               (bind (MIQ.OnCongestionEvent acked lost rtt event_time
                        (CongestionController.interval_queue_ c1) c1)
                     (fun x => let '(q, c3) := x in
                               Some (CongestionController.set_interval_queue_ q c3))
                = Some c') ->
               queue_wf (CongestionController.interval_queue_ c')).
    { intros c1 Hsame H. bind_inv H. destruct p as [q c3].
      inversion H; subst c'. simpl. rewrite Hsame in E.
      exact (proj1 (OnCongestionEvent_wf _ _ _ _ _ _ _ _ Hwf E)). }
    destruct (negb (rtt =? 0)); [ | now apply (Hqueue c)].
    bind_inv Hstep. bind_inv Hstep. destruct b.
    + apply EnterProbing_queue in Hstep. rewrite Hstep. simpl.
      unfold queue_wf. simpl. split; reflexivity.
    + exact (Hqueue (CongestionController.set_avg_rtt_ q c) eq_refl Hstep).
Qed.

(** The clamp at work: from 2 200 000 bit/s, a decision to decrease by the
    minimum change would end below [kMinSendingRate]; the clamped step
    ends exactly on it. *)
Example clamp_reaches_minimum :
  option_map
    (fun c => (CongestionController.mode_ c,
               CongestionController.sending_rate_ c,
               CongestionController.previous_change_ c))
    (CC.OnUtilityAvailable batch_preferring_lower controller_probing_low)
  = Some (DECISION_MADE, F64.of_Z 2097152, F64.of_Z (-102848))
  /\ CC.kMinSendingRate = F64.of_Z 2097152.
Proof. split; vm_compute; reflexivity. Qed.

(** * Further properties of the queue *)

Lemma queue_step_length {libm : Libm} (op : QueueOp)
    (q q' : MonitorIntervalQueue.t) :
  queue_step op q = Some q' ->
  (length (MonitorIntervalQueue.monitor_intervals_ q')
   <= length (MonitorIntervalQueue.monitor_intervals_ q) + 1)%nat.
Proof.
  intros Hstep.
  destruct op as [rate useful tolerance rtt end_time | sent_time number bytes
                 | acked lost rtt event_time | ]; simpl in Hstep.
  - inversion Hstep. simpl. rewrite length_app. simpl. lia.
  - inversion Hstep. unfold MIQ.OnPacketSent.
    destruct (MonitorIntervalQueue.monitor_intervals_ q) as [ | front rest] eqn:Hq.
    + rewrite Hq. simpl. lia.
    + cbn [MonitorIntervalQueue.monitor_intervals_].
      assert (Hnonempty : front :: rest <> []) by discriminate.
      pose proof (f_equal (@length _)
                    (app_removelast_last
                       (MonitorInterval.new (F64.of_Z 0) false (flit 0 1) 0 0)
                       Hnonempty)) as Hlen.
      rewrite !length_app in *. simpl length in *. lia.
  - bind_inv Hstep. destruct p as [q1 log]. inversion Hstep; subst.
    apply OnCongestionEvent_intervals in E.
    destruct E as (after & dropped & Hall & Hsplit).
    apply Forall2_length in Hall. rewrite Hsplit, length_app in Hall. lia.
  - inversion Hstep. simpl. lia.
Qed.

(** X1: starting from the empty queue, after every sequence of fewer than
    2^64 - 1 queue operations, [num_useful_intervals_] is the number of
    useful intervals in the deque. *)
Theorem X1_useful_counter_counts {libm : Libm} (ops : list QueueOp)
    (q : MonitorIntervalQueue.t) :
  Z.of_nat (length ops) + 1 < size_t_max ->
  queue_run ops MonitorIntervalQueue.new = Some q ->
  MonitorIntervalQueue.num_useful_intervals_ q
  = Z.of_nat (length (useful_intervals
                        (MonitorIntervalQueue.monitor_intervals_ q))).
Proof.
  assert (Hgen : forall (start : MonitorIntervalQueue.t),
             queue_wf start ->
             Z.of_nat (length (MonitorIntervalQueue.monitor_intervals_ start))
             + Z.of_nat (length ops) + 1 < size_t_max ->
             queue_run ops start = Some q -> queue_wf q).
  { induction ops as [ | op ops IH]; intros start Hwf Hroom Hrun; simpl in *.
    - now inversion Hrun; subst.
    - bind_inv Hrun.
      match goal with
      | Hstep : queue_step op start = Some ?next |- _ =>
          pose proof (queue_step_length _ _ _ Hstep) as Hlen;
          apply (IH next); [ | lia | exact Hrun];
          apply (queue_step_wf op start next Hwf); [lia | exact Hstep]
      end. }
  intros Hroom Hrun.
  apply (Hgen MonitorIntervalQueue.new); [ | simpl; lia | exact Hrun].
  split; [reflexivity | vm_compute; reflexivity].
Qed.

Lemma X1_useful_counter_counts_witness :
  exists q,
    @queue_run libm_example ops_duplicate_ack MonitorIntervalQueue.new = Some q
    /\ MonitorIntervalQueue.num_useful_intervals_ q
       = Z.of_nat (length (useful_intervals
                             (MonitorIntervalQueue.monitor_intervals_ q))).
Proof.
  eexists. split; [vm_compute; reflexivity | ].
  apply (@X1_useful_counter_counts libm_example ops_duplicate_ack).
  - vm_compute. reflexivity.
  - vm_compute. reflexivity.
Defined.

(** ** What one event does to the intervals *)

Lemma attribute_lost_foreign (lost_packets : LostPacketVector)
    (interval : MonitorInterval.t) :
  foreign_to lost_packets interval ->
  MIQ.attribute_lost lost_packets interval = interval.
Proof.
  unfold foreign_to, MIQ.attribute_lost.
  induction 1 as [ | packet packets Hout _ IH]; simpl; [reflexivity | ].
  now rewrite Hout.
Qed.

Lemma attribute_acked_foreign (acked_packets : AckedPacketVector) (rtt_us : Z)
    (interval : MonitorInterval.t) :
  foreign_to acked_packets interval ->
  MIQ.attribute_acked acked_packets rtt_us interval = interval.
Proof.
  unfold foreign_to, MIQ.attribute_acked.
  induction 1 as [ | packet packets Hout _ IH]; simpl; [reflexivity | ].
  now rewrite Hout.
Qed.

Lemma remove_useful_intervals_trailing (intervals : list MonitorInterval.t) :
  MIQ.remove_useful_intervals intervals
    (Z.of_nat (length (useful_intervals intervals)))
  = Some (trailing_not_useful intervals, 0).
Proof.
  induction intervals as [ | front rest IH]; [reflexivity | ].
  unfold useful_intervals in *.
  cbn [MIQ.remove_useful_intervals trailing_not_useful existsb filter].
  destruct (MonitorInterval.is_useful front) eqn:Huseful.
  - cbn [length orb]. rewrite Nat2Z.inj_succ.
    destruct (Z.ltb_spec 0 (Z.succ (Z.of_nat (length (filter MonitorInterval.is_useful rest)))));
      [ | lia].
    replace (Z.succ (Z.of_nat (length (filter MonitorInterval.is_useful rest))) - 1)
      with (Z.of_nat (length (filter MonitorInterval.is_useful rest))) by lia.
    exact IH.
  - cbn [orb].
    destruct (existsb MonitorInterval.is_useful rest) eqn:Hsome.
    + destruct (Z.ltb_spec 0 (Z.of_nat (length (filter MonitorInterval.is_useful rest))));
        [exact IH | ].
      apply existsb_exists in Hsome. destruct Hsome as (i & Hin & Hi).
      assert (Hfiltered : In i (filter MonitorInterval.is_useful rest))
        by (apply filter_In; auto).
      destruct (filter MonitorInterval.is_useful rest); [destruct Hfiltered | ].
      simpl in *. lia.
    + assert (Hnone : filter MonitorInterval.is_useful rest = []).
      { clear IH. induction rest as [ | i rest IHrest]; [reflexivity | ].
        simpl in *. apply orb_false_iff in Hsome. destruct Hsome as [-> Hrest].
        auto. }
      rewrite Hnone. reflexivity.
Qed.

Section QueueOutcome.
Context {libm : Libm}.
Context {D : Type} {delegate_ : MIQ.MonitorIntervalQueueDelegateInterface D}.
Variables (acked_packets : AckedPacketVector) (lost_packets : LostPacketVector).
Variables (rtt_us : Z) (event_time : QuicTime).

Lemma loop_result_settled (before after : MonitorInterval.t) :
  loop_result acked_packets lost_packets rtt_us event_time before after ->
  MonitorInterval.is_useful before = false
  \/ MIQ.IsUtilityAvailable before event_time = true ->
  after = before.
Proof. intros Hone Hsettled. inversion Hone; subst; [reflexivity | | | ];
  destruct Hsettled; congruence.
Qed.



Lemma no_useful_no_invalid (intervals : list MonitorInterval.t) :
  useful_intervals intervals = [] ->
  existsb (completes_with_invalid_utility acked_packets lost_packets rtt_us
             event_time) intervals = false.
Proof.
  unfold useful_intervals.
  induction intervals as [ | i rest IH]; [reflexivity | ]. simpl.
  destruct (MonitorInterval.is_useful i) eqn:Hi; [discriminate | ].
  intros Hrest. unfold completes_with_invalid_utility at 1. rewrite Hi. simpl.
  auto.
Qed.

(** The queue and the delegate after an event, on a well-formed queue. *)
Lemma OnCongestionEvent_outcome (q q' : MonitorIntervalQueue.t) (d d' : D) :
  queue_wf q ->
  MIQ.OnCongestionEvent acked_packets lost_packets rtt_us event_time q d
  = Some (q', d') ->
  exists after,
    Forall2 (loop_result acked_packets lost_packets rtt_us event_time)
      (MonitorIntervalQueue.monitor_intervals_ q) after
    /\ if drains acked_packets lost_packets rtt_us event_time q
       then q' = MonitorIntervalQueue.Build (trailing_not_useful after) 0 0
       else d' = d
            /\ q' = MonitorIntervalQueue.Build after
                      (MonitorIntervalQueue.num_useful_intervals_ q)
                      (Z.of_nat
                         (length
                            (filter (becomes_available acked_packets lost_packets
                                       rtt_us event_time)
                               (useful_intervals
                                  (MonitorIntervalQueue.monitor_intervals_ q))))).
Proof.
  intros [Hcount Hsize] H. unfold MIQ.OnCongestionEvent in H. simpl in H.
  unfold drains, delivers.
  destruct (Z.eqb_spec (MonitorIntervalQueue.num_useful_intervals_ q) 0) as [Hzero | Hsome].
  { inversion H; subst. rewrite Hzero. simpl.
    exists (MonitorIntervalQueue.monitor_intervals_ q).
    split; [apply Forall2_untouched | ].
    rewrite Hzero in Hcount.
    assert (Hnone : useful_intervals (MonitorIntervalQueue.monitor_intervals_ q) = []).
    { destruct (useful_intervals (MonitorIntervalQueue.monitor_intervals_ q));
        [reflexivity | simpl in Hcount; lia]. }
    rewrite (no_useful_no_invalid _ Hnone), Hnone. simpl. auto. }
  bind_inv H. destruct p as [[after n] invalid]. simpl in H.
  apply for_each_interval_spec in E. destruct E as (Hall & Hinvalid & Hn).
  exists after. split; [exact Hall | ].
  destruct (loop_result_useful _ _ _ _ _ _ Hall) as [_ Hlen].
  destruct (Z.ltb_spec 0 (MonitorIntervalQueue.num_useful_intervals_ q));
    [ | lia].
  rewrite <- Hinvalid. simpl.
  pose proof (useful_intervals_length_le (MonitorIntervalQueue.monitor_intervals_ q))
    as Hle.
  pose proof (filter_length_le
                (becomes_available acked_packets lost_packets rtt_us event_time)
                (useful_intervals (MonitorIntervalQueue.monitor_intervals_ q)))
    as Hle'.
  destruct invalid.
  - rewrite andb_false_r in *. simpl in H.
    rewrite Hcount, <- Hlen, remove_useful_intervals_trailing in H.
    simpl in H. rewrite orb_true_r. now inversion H.
  - rewrite andb_true_r, orb_false_r in *.
    rewrite (Hn eq_refl), size_t_incr_iter in H by lia.
    rewrite Z.add_0_l, Hcount, filter_length_forallb in H.
    destruct (forallb _ _) eqn:Hforall; simpl in H.
    + bind_inv H.
      rewrite <- Hlen, remove_useful_intervals_trailing in H.
      simpl in H. now inversion H.
    + inversion H; subst. rewrite Hcount. auto.
Qed.

End QueueOutcome.

(** X2: an event changes no interval that is not useful, and none that was
    utility-available when the event arrived: packets reported for such an
    interval are not attributed to it.  The intervals after the event are
    those of the queue, position by position, minus the ones removed from
    the head. *)
Theorem X2_event_skips_settled_intervals {libm : Libm} {D : Type}
    {delegate_ : MIQ.MonitorIntervalQueueDelegateInterface D}
    (acked_packets : AckedPacketVector) (lost_packets : LostPacketVector)
    (rtt_us : Z) (event_time : QuicTime)
    (q q' : MonitorIntervalQueue.t) (d d' : D) :
  MIQ.OnCongestionEvent acked_packets lost_packets rtt_us event_time q d
  = Some (q', d') ->
  exists after dropped,
    after = dropped ++ MonitorIntervalQueue.monitor_intervals_ q'
    /\ Forall2
         (fun before interval =>
            MonitorInterval.is_useful before = false
            \/ MIQ.IsUtilityAvailable before event_time = true ->
            interval = before)
         (MonitorIntervalQueue.monitor_intervals_ q) after.
Proof.
  intros H. apply OnCongestionEvent_intervals in H.
  destruct H as (after & dropped & Hall & Hsplit).
  exists after, dropped. split; [exact Hsplit | ].
  clear Hsplit. induction Hall as [ | b a before after' Hone Hall IH];
    constructor; [ | exact IH].
  exact (loop_result_settled _ _ _ _ _ _ Hone).
Qed.

Lemma X2_event_skips_settled_intervals_witness :
  exists q' log',
    @MIQ.OnCongestionEvent libm_example _ recorder [ack_1000 1; ack_1000 3] []
      10000 12000 queue_with_trailing []
    = Some (q', log')
    /\ nth_error (MonitorIntervalQueue.monitor_intervals_ q') 1
       = nth_error (MonitorIntervalQueue.monitor_intervals_ queue_with_trailing) 1
    /\ exists after dropped,
         after = dropped ++ MonitorIntervalQueue.monitor_intervals_ q'
         /\ Forall2
              (fun before interval =>
                 MonitorInterval.is_useful before = false
                 \/ MIQ.IsUtilityAvailable before 12000 = true ->
                 interval = before)
              (MonitorIntervalQueue.monitor_intervals_ queue_with_trailing)
              after.
Proof.
  destruct (@MIQ.OnCongestionEvent libm_example _ recorder
              [ack_1000 1; ack_1000 3] [] 10000 12000 queue_with_trailing [])
    as [[q' log'] | ] eqn:Hrun; [ | vm_compute in Hrun; discriminate Hrun].
  exists q', log'. split; [reflexivity | ].
  split.
  - pose proof Hrun as Hvalue. vm_compute in Hvalue.
    inversion Hvalue; subst. reflexivity.
  - exact (@X2_event_skips_settled_intervals libm_example _ recorder
             [ack_1000 1; ack_1000 3] [] 10000 12000 queue_with_trailing q'
             [] log' Hrun).
Defined.

(** X3: an event whose packets fall in the range of no interval modifies
    no interval: the queue afterwards is the queue before, minus the
    intervals removed from the head. *)
Theorem X3_foreign_packets_change_no_interval {libm : Libm} {D : Type}
    {delegate_ : MIQ.MonitorIntervalQueueDelegateInterface D}
    (acked_packets : AckedPacketVector) (lost_packets : LostPacketVector)
    (rtt_us : Z) (event_time : QuicTime)
    (q q' : MonitorIntervalQueue.t) (d d' : D) :
  Forall (foreign_to acked_packets) (MonitorIntervalQueue.monitor_intervals_ q) ->
  Forall (foreign_to lost_packets) (MonitorIntervalQueue.monitor_intervals_ q) ->
  MIQ.OnCongestionEvent acked_packets lost_packets rtt_us event_time q d
  = Some (q', d') ->
  exists dropped,
    MonitorIntervalQueue.monitor_intervals_ q
    = dropped ++ MonitorIntervalQueue.monitor_intervals_ q'.
Proof.
  intros Hacked Hlost H. apply OnCongestionEvent_intervals in H.
  destruct H as (after & dropped & Hall & Hsplit).
  exists dropped. rewrite <- Hsplit. clear Hsplit.
  induction Hall as [ | b a before after' Hone Hall IH]; [reflexivity | ].
  inversion Hacked as [ | ? ? Hb_acked Hrest_acked]; subst.
  inversion Hlost as [ | ? ? Hb_lost Hrest_lost]; subst.
  rewrite <- (IH Hrest_acked Hrest_lost). f_equal.
  assert (Hsame : attributed acked_packets lost_packets rtt_us b = b).
  { unfold attributed. rewrite (attribute_lost_foreign _ _ Hb_lost).
    now apply attribute_acked_foreign. }
  inversion Hone; subst; try rewrite Hsame in *; congruence.
Qed.

Lemma X3_foreign_packets_change_no_interval_witness :
  exists q' log',
    @MIQ.OnCongestionEvent libm_example _ recorder [ack_1000 7] [ack_1000 9]
      10000 20000 queue_with_trailing []
    = Some (q', log')
    /\ exists dropped,
         MonitorIntervalQueue.monitor_intervals_ queue_with_trailing
         = dropped ++ MonitorIntervalQueue.monitor_intervals_ q'.
Proof.
  destruct (@MIQ.OnCongestionEvent libm_example _ recorder
              [ack_1000 7] [ack_1000 9] 10000 20000 queue_with_trailing [])
    as [[q' log'] | ] eqn:Hrun; [ | vm_compute in Hrun; discriminate Hrun].
  exists q', log'. split; [reflexivity | ].
  apply (@X3_foreign_packets_change_no_interval libm_example _ recorder
           [ack_1000 7] [ack_1000 9] 10000 20000 queue_with_trailing q'
           [] log').
  - repeat constructor.
  - repeat constructor.
  - exact Hrun.
Defined.



(** After a loop without invalid utility, the counter of available
    intervals has been incremented once per useful interval that is
    utility-available once the loop is over. *)
Lemma for_each_interval_available {libm : Libm}
    (acked_packets : AckedPacketVector) (lost_packets : LostPacketVector)
    (rtt_us : Z) (event_time : QuicTime) (intervals : list MonitorInterval.t) :
  forall (n : Z) (after : list MonitorInterval.t) (n' : Z),
    MIQ.for_each_interval acked_packets lost_packets rtt_us event_time
      intervals n = Some (after, n', false) ->
    n' = Nat.iter
           (length (filter (fun interval =>
                              MIQ.IsUtilityAvailable interval event_time)
                      (useful_intervals after)))
           size_t_incr n.
Proof.
  unfold useful_intervals.
  induction intervals as [ | interval rest IH]; intros n after n' Hrun.
  - simpl in Hrun. now inversion Hrun.
  - simpl in Hrun.
    destruct (MonitorInterval.is_useful interval) eqn:Huseful; simpl in Hrun.
    + destruct (MIQ.IsUtilityAvailable interval event_time) eqn:Hbefore.
      * bind_inv Hrun. destruct p as [[rest' m] flag].
        inversion Hrun; subst. apply IH in E.
        simpl. rewrite Huseful. simpl. rewrite Hbefore. simpl length.
        now rewrite Nat.iter_succ_r.
      * fold (attributed acked_packets lost_packets rtt_us interval) in Hrun.
        destruct (attributed_spec acked_packets lost_packets rtt_us interval)
          as (Hid & _).
        assert (Hsame : MonitorInterval.is_useful
                          (attributed acked_packets lost_packets rtt_us interval)
                        = true)
          by (unfold identity_of in Hid; congruence).
        destruct (MIQ.IsUtilityAvailable
                    (attributed acked_packets lost_packets rtt_us interval)
                    event_time) eqn:Hafter.
        -- bind_inv Hrun. destruct p as [valid interval'].
           apply CalculateUtility_cases in E.
           destruct E as [(-> & -> & _) | (-> & _ & utility & ->)].
           ++ simpl in Hrun. discriminate Hrun.
           ++ simpl in Hrun. bind_inv Hrun. destruct p as [[rest' m] flag].
              inversion Hrun; subst. apply IH in E.
              cbn [filter]. 
              change (MonitorInterval.is_useful
                        (MonitorInterval.set_utility utility
                           (MonitorInterval.set_rtt_on_monitor_end_us rtt_us
                              (attributed acked_packets lost_packets rtt_us
                                 interval))))
                with (MonitorInterval.is_useful
                        (attributed acked_packets lost_packets rtt_us interval)).
              rewrite Hsame. cbn [filter].
              change (MIQ.IsUtilityAvailable
                        (MonitorInterval.set_utility utility
                           (MonitorInterval.set_rtt_on_monitor_end_us rtt_us
                              (attributed acked_packets lost_packets rtt_us
                                 interval))) event_time)
                with (MIQ.IsUtilityAvailable
                        (attributed acked_packets lost_packets rtt_us interval)
                        event_time).
              rewrite Hafter. simpl length.
              now rewrite Nat.iter_succ_r.
        -- bind_inv Hrun. destruct p as [[rest' m] flag].
           inversion Hrun; subst. apply IH in E.
           cbn [filter]. rewrite Hsame. cbn [filter]. rewrite Hafter.
           exact E.
    + bind_inv Hrun. destruct p as [[rest' m] flag].
      inversion Hrun; subst. apply IH in E.
      cbn [filter]. rewrite Huseful. exact E.
Qed.

(** X5: an event that neither delivers a batch nor completes a useful
    interval with invalid utility removes no interval and does not call the
    delegate: the queue holds the same intervals, each as the loop left it,
    [num_useful_intervals_] is unchanged and [num_available_intervals_] is
    the number of useful intervals in the queue that are utility-available. *)
Theorem X5_pending_event_removes_nothing {libm : Libm} {D : Type}
    {delegate_ : MIQ.MonitorIntervalQueueDelegateInterface D}
    (acked_packets : AckedPacketVector) (lost_packets : LostPacketVector)
    (rtt_us : Z) (event_time : QuicTime)
    (q q' : MonitorIntervalQueue.t) (d d' : D) :
  queue_wf q ->
  drains acked_packets lost_packets rtt_us event_time q = false ->
  MIQ.OnCongestionEvent acked_packets lost_packets rtt_us event_time q d
  = Some (q', d') ->
  d' = d
  /\ Forall2 (loop_result acked_packets lost_packets rtt_us event_time)
       (MonitorIntervalQueue.monitor_intervals_ q)
       (MonitorIntervalQueue.monitor_intervals_ q')
  /\ map identity_of (MonitorIntervalQueue.monitor_intervals_ q')
     = map identity_of (MonitorIntervalQueue.monitor_intervals_ q)
  /\ MonitorIntervalQueue.num_useful_intervals_ q'
     = MonitorIntervalQueue.num_useful_intervals_ q
  /\ MonitorIntervalQueue.num_available_intervals_ q'
     = Z.of_nat
         (length
            (filter (fun interval =>
                       MIQ.IsUtilityAvailable interval event_time)
               (useful_intervals (MonitorIntervalQueue.monitor_intervals_ q')))).
Proof.
  intros Hwf Hdrains H.
  destruct (OnCongestionEvent_outcome _ _ _ _ _ _ _ _ Hwf H)
    as (after & Hall & Hout).
  rewrite Hdrains in Hout. destruct Hout as [-> Hq'].
  split; [reflexivity | ].
  assert (Hintervals : MonitorIntervalQueue.monitor_intervals_ q' = after)
    by now rewrite Hq'.
  rewrite Hintervals.
  split; [exact Hall | ].
  split; [ | split; [now rewrite Hq' | ]].
  - clear - Hall.
    induction Hall as [ | b a before after' Hone Hall IH]; [reflexivity | ].
    simpl. rewrite IH. f_equal. eapply loop_result_identity. exact Hone.
  - destruct Hwf as [Hcount Hsize].
    pose proof (useful_intervals_length_le
                  (MonitorIntervalQueue.monitor_intervals_ q)) as Hle.
    destruct (loop_result_useful _ _ _ _ _ _ Hall) as [_ Hlen].
    pose proof (filter_length_le
                  (fun interval => MIQ.IsUtilityAvailable interval event_time)
                  (useful_intervals after)) as Hle'.
    unfold MIQ.OnCongestionEvent in H. simpl in H.
    destruct (Z.eqb_spec (MonitorIntervalQueue.num_useful_intervals_ q) 0)
      as [Hzero | Hsome].
    { assert (Hnone : MonitorIntervalQueue.num_available_intervals_ q' = 0)
        by (inversion H; reflexivity).
      lia. }
    bind_inv H. destruct p as [[after1 n] invalid]. simpl in H.
    pose proof E as Hspec.
    apply for_each_interval_spec in Hspec. destruct Hspec as (_ & Hinvalid & Hn).
    unfold drains in Hdrains. apply orb_false_iff in Hdrains.
    destruct Hdrains as [_ Hvalid]. rewrite Hvalid in Hinvalid. subst invalid.
    specialize (Hn eq_refl).
    apply for_each_interval_available in E.
    pose proof (filter_length_le
                  (becomes_available acked_packets lost_packets rtt_us
                     event_time)
                  (useful_intervals
                     (MonitorIntervalQueue.monitor_intervals_ q))) as Hle''.
    rewrite size_t_incr_iter, Z.add_0_l in Hn by lia.
    rewrite andb_true_r in H.
    destruct (Z.ltb_spec n (MonitorIntervalQueue.num_useful_intervals_ q)).
    + rewrite Hq' in H. inversion H; subst after1. simpl.
      rewrite Hq'. simpl. rewrite <- Hn, E.
      rewrite size_t_incr_iter by lia. lia.
    + bind_inv H. bind_inv H. destruct p as [remaining m].
      rewrite Hq' in H. inversion H. lia.
Qed.

Lemma X5_pending_event_removes_nothing_witness :
  exists q' log',
    @MIQ.OnCongestionEvent libm_example _ recorder [ack_1000 1] [] 10000 12000
      queue_with_trailing []
    = Some (q', log')
    /\ log' = []
    /\ map MonitorInterval.bytes_acked (MonitorIntervalQueue.monitor_intervals_ q')
       = [1000; 0]
    /\ MonitorIntervalQueue.num_useful_intervals_ q' = 1
    /\ MonitorIntervalQueue.num_available_intervals_ q' = 0.
Proof.
  destruct (@MIQ.OnCongestionEvent libm_example _ recorder
              [ack_1000 1] [] 10000 12000 queue_with_trailing [])
    as [[q' log'] | ] eqn:Hrun; [ | vm_compute in Hrun; discriminate Hrun].
  exists q', log'. split; [reflexivity | ].
  assert (Hwf : queue_wf queue_with_trailing) by (split; vm_compute; reflexivity).
  assert (Hdrains : drains [ack_1000 1] [] 10000 12000 queue_with_trailing
                    = false) by (vm_compute; reflexivity).
  destruct (@X5_pending_event_removes_nothing libm_example _ recorder
              [ack_1000 1] [] 10000 12000 queue_with_trailing q' [] log'
              Hwf Hdrains Hrun) as (Hlog & _ & _ & Huseful & Havailable).
  split; [exact Hlog | ].
  pose proof Hrun as Hvalue. vm_compute in Hvalue. inversion Hvalue; subst.
  repeat split; reflexivity.
Defined.

(** ** Packets sent into the current interval *)

Lemma OnPacketSent_back (sent_time : QuicTime) (packet_number : QuicPacketNumber)
    (bytes : QuicByteCount) (init : list MonitorInterval.t)
    (back : MonitorInterval.t) (useful available : Z) :
  MIQ.OnPacketSent sent_time packet_number bytes
    (MonitorIntervalQueue.Build (init ++ [back]) useful available)
  = MonitorIntervalQueue.Build
      (init ++ [MIQ.record_packet sent_time packet_number bytes back])
      useful available.
Proof.
  unfold MIQ.OnPacketSent.
  cbn [MonitorIntervalQueue.monitor_intervals_
       MonitorIntervalQueue.num_useful_intervals_
       MonitorIntervalQueue.num_available_intervals_].
  rewrite removelast_last, last_last.
  destruct (init ++ [back]) eqn:Hq; [ | reflexivity].
  destruct init; discriminate Hq.
Qed.

Lemma send_packets_back (packets : list SentPacket) :
  forall (init : list MonitorInterval.t) (back : MonitorInterval.t)
         (useful available : Z),
    send_packets packets
      (MonitorIntervalQueue.Build (init ++ [back]) useful available)
    = MonitorIntervalQueue.Build (init ++ [record_packets packets back])
        useful available.
Proof.
  induction packets as [ | [[sent_time packet_number] bytes] packets IH];
    intros init back useful available; [reflexivity | ].
  simpl. rewrite OnPacketSent_back. apply IH.
Qed.

Lemma last_cons_default {A : Type} (l : list A) :
  forall (x d d' : A), last (x :: l) d = last (x :: l) d'.
Proof.
  induction l as [ | y l IH]; intros x d d'; [reflexivity | ].
  change (last (y :: l) d = last (y :: l) d'). apply IH.
Qed.

(** Packets recorded in an interval that already holds bytes. *)
Lemma record_packets_started (packets : list SentPacket) :
  forall back : MonitorInterval.t,
    0 < MonitorInterval.bytes_sent back ->
    Forall (fun packet : SentPacket => 0 < snd packet) packets ->
    let after := record_packets packets back in
    (MonitorInterval.first_packet_sent_time after,
     MonitorInterval.first_packet_number after)
    = (MonitorInterval.first_packet_sent_time back,
       MonitorInterval.first_packet_number back)
    /\ (MonitorInterval.last_packet_sent_time after,
        MonitorInterval.last_packet_number after)
       = fst (last packets
                (MonitorInterval.last_packet_sent_time back,
                 MonitorInterval.last_packet_number back, 0))
    /\ MonitorInterval.bytes_sent after
       = MonitorInterval.bytes_sent back + total_bytes packets
    /\ MonitorInterval.n_packets after
       = MonitorInterval.n_packets back + Z.of_nat (length packets)
    /\ (MonitorInterval.sending_rate after, MonitorInterval.is_useful after,
        MonitorInterval.rtt_fluctuation_tolerance_ratio after,
        MonitorInterval.end_time after, MonitorInterval.bytes_acked after,
        MonitorInterval.bytes_lost after,
        MonitorInterval.rtt_on_monitor_start_us after,
        MonitorInterval.rtt_on_monitor_end_us after,
        MonitorInterval.utility after, MonitorInterval.packet_rtt_samples after)
       = (MonitorInterval.sending_rate back, MonitorInterval.is_useful back,
          MonitorInterval.rtt_fluctuation_tolerance_ratio back,
          MonitorInterval.end_time back, MonitorInterval.bytes_acked back,
          MonitorInterval.bytes_lost back,
          MonitorInterval.rtt_on_monitor_start_us back,
          MonitorInterval.rtt_on_monitor_end_us back,
          MonitorInterval.utility back, MonitorInterval.packet_rtt_samples back).
Proof.
  induction packets as [ | [[sent_time packet_number] bytes] packets IH];
    intros back Hstarted Hsizes.
  - simpl. repeat split; lia.
  - inversion Hsizes as [ | ? ? Hsize Hrest]; subst. simpl in Hsize.
    cbn [record_packets fold_left].
    fold (record_packets packets
            (MIQ.record_packet sent_time packet_number bytes back)).
    assert (Hnonzero : (MonitorInterval.bytes_sent back =? 0) = false)
      by (apply Z.eqb_neq; lia).
    assert (Hstep : MIQ.record_packet sent_time packet_number bytes back
                    = MonitorInterval.set_n_packets
                        (MonitorInterval.n_packets back + 1)
                        (MonitorInterval.set_bytes_sent
                           (MonitorInterval.bytes_sent back + bytes)
                           (MonitorInterval.set_last_packet sent_time
                              packet_number back))).
    { unfold MIQ.record_packet. rewrite Hnonzero. reflexivity. }
    rewrite Hstep.
    set (next := MonitorInterval.set_n_packets _ _).
    assert (Hnext : 0 < MonitorInterval.bytes_sent next) by (simpl; lia).
    destruct (IH next Hnext Hrest) as (Hfirst & Hlast & Hbytes & Hcount & Hkept).
    cbv zeta. rewrite Hfirst, Hlast, Hbytes, Hcount, Hkept.
    subst next. cbn [total_bytes fold_right snd length].
    fold (total_bytes packets). rewrite Nat2Z.inj_succ.
    repeat split; try (simpl; lia).
    destruct packets as [ | packet packets]; [reflexivity | ].
    change (last ((sent_time, packet_number, bytes) :: packet :: packets)
              (MonitorInterval.last_packet_sent_time back,
               MonitorInterval.last_packet_number back, 0))
      with (last (packet :: packets)
              (MonitorInterval.last_packet_sent_time back,
               MonitorInterval.last_packet_number back, 0)).
    f_equal. apply last_cons_default.
Qed.

(** X6: the packets sent after an interval is enqueued all go to that
    interval, and to no other: with packets of positive size, the interval
    at the back records the time and number of the first and of the last
    packet, the sum of the sizes and the number of packets; the intervals
    before it, the two counters and the other members of the interval are
    as they were. *)
Theorem X6_packets_accumulate_in_current_interval
    (sending_rate : QuicBandwidth) (is_useful : bool) (tolerance : float)
    (rtt_us : Z) (end_time : QuicTime) (q : MonitorIntervalQueue.t)
    (first : SentPacket) (rest : list SentPacket) :
  Forall (fun packet : SentPacket => 0 < snd packet) (first :: rest) ->
  send_packets (first :: rest)
    (MIQ.EnqueueNewMonitorInterval sending_rate is_useful tolerance rtt_us
       end_time q)
  = MonitorIntervalQueue.Build
      (MonitorIntervalQueue.monitor_intervals_ q
       ++ [MonitorInterval.Build sending_rate is_useful tolerance end_time
             (fst (fst first)) (fst (fst (last rest first)))
             (snd (fst first)) (snd (fst (last rest first)))
             (total_bytes (first :: rest)) 0 0 rtt_us rtt_us (flit 0 1)
             (Z.of_nat (length (first :: rest))) []])
      (MonitorIntervalQueue.num_useful_intervals_
         (MIQ.EnqueueNewMonitorInterval sending_rate is_useful tolerance rtt_us
            end_time q))
      (MonitorIntervalQueue.num_available_intervals_ q).
Proof.
  intros Hsizes. unfold MIQ.EnqueueNewMonitorInterval at 1.
  rewrite send_packets_back.
  cbn [MonitorIntervalQueue.num_useful_intervals_ MIQ.EnqueueNewMonitorInterval].
  f_equal. f_equal. f_equal.
  destruct first as [[sent_time packet_number] bytes].
  inversion Hsizes as [ | ? ? Hsize Hrest]; subst. simpl in Hsize.
  cbn [record_packets fold_left].
  fold (record_packets rest
          (MIQ.record_packet sent_time packet_number bytes
             (MonitorInterval.new sending_rate is_useful tolerance rtt_us
                end_time))).
  set (started := MIQ.record_packet _ _ _ _).
  assert (Hstarted : 0 < MonitorInterval.bytes_sent started)
    by (subst started; simpl; lia).
  destruct (record_packets_started rest started Hstarted Hrest)
    as (Hfirst & Hlast & Hbytes & Hcount & Hkept).
  cbv zeta in *.
  destruct (record_packets rest started) as
    [rate useful tol ending first_time last_time first_number last_number
     sent acked lost rtt_start rtt_end utility n samples].
  cbn [MonitorInterval.first_packet_sent_time MonitorInterval.first_packet_number
       MonitorInterval.last_packet_sent_time MonitorInterval.last_packet_number
       MonitorInterval.bytes_sent MonitorInterval.n_packets
       MonitorInterval.sending_rate MonitorInterval.is_useful
       MonitorInterval.rtt_fluctuation_tolerance_ratio MonitorInterval.end_time
       MonitorInterval.bytes_acked MonitorInterval.bytes_lost
       MonitorInterval.rtt_on_monitor_start_us
       MonitorInterval.rtt_on_monitor_end_us MonitorInterval.utility
       MonitorInterval.packet_rtt_samples] in *.
  assert (Hone : MonitorInterval.n_packets started = 1) by reflexivity.
  assert (Hsent : MonitorInterval.bytes_sent started = bytes) by reflexivity.
  rewrite Hone in Hcount. rewrite Hsent in Hbytes.
  subst started. simpl in Hfirst, Hkept.
  inversion Hfirst; inversion Hkept; subst.
  assert (Hlast' : (last_time, last_number)
                   = fst (last rest (sent_time, packet_number, bytes))).
  { rewrite Hlast. simpl.
    destruct rest as [ | packet rest]; [reflexivity | ].
    f_equal. apply last_cons_default. }
  cbn [fst snd total_bytes fold_right length].
  fold (total_bytes rest).
  destruct (last rest (sent_time, packet_number, bytes)) as [[lt ln] lb].
  simpl in Hlast'. inversion Hlast'; subst.
  rewrite Nat2Z.inj_succ. f_equal. lia.
Qed.

Lemma X6_packets_accumulate_in_current_interval_witness :
  map (fun interval =>
         (MonitorInterval.first_packet_number interval,
          MonitorInterval.last_packet_number interval,
          MonitorInterval.bytes_sent interval,
          MonitorInterval.n_packets interval))
      (MonitorIntervalQueue.monitor_intervals_
         (send_packets [(20, 3, 1000); (30, 4, 500); (40, 5, 700)]
            (MIQ.EnqueueNewMonitorInterval (F64.of_Z 11200000) true (flit 3 10)
               10000 30000 queue_two_packets)))
  = [(1, 2, 2000, 2); (3, 5, 2200, 3)].
Proof.
  assert (Hsizes : Forall (fun packet : SentPacket => 0 < snd packet)
                     [(20, 3, 1000); (30, 4, 500); (40, 5, 700)])
    by (repeat constructor).
  exact (f_equal
           (fun q =>
              map (fun interval =>
                     (MonitorInterval.first_packet_number interval,
                      MonitorInterval.last_packet_number interval,
                      MonitorInterval.bytes_sent interval,
                      MonitorInterval.n_packets interval))
                  (MonitorIntervalQueue.monitor_intervals_ q))
           (X6_packets_accumulate_in_current_interval (F64.of_Z 11200000) true
              (flit 3 10) 10000 30000 queue_two_packets (20, 3, 1000)
              [(30, 4, 500); (40, 5, 700)] Hsizes)).
Defined.

(** ** The utility of an interval with fewer than two RTT samples *)

(** X7: for an interval whose first and last packet were sent at
    different times and which holds fewer than two RTT samples,
    [CalculateUtility] has no defined result: both half sums are zero,
    [latency_inflation] is 0/0, and the conversion of a NaN to [int] is
    undefined. *)
Theorem X7_utility_needs_two_rtt_samples {libm : Libm}
    (interval : MonitorInterval.t) :
  (length (MonitorInterval.packet_rtt_samples interval) < 2)%nat ->
  MonitorInterval.last_packet_sent_time interval
  <> MonitorInterval.first_packet_sent_time interval ->
  MIQ.CalculateUtility interval = None.
Proof.
  intros Hfew Hdiffer. apply Z.eqb_neq in Hdiffer.
  unfold MIQ.CalculateUtility. rewrite Hdiffer.
  assert (Hsums :
            MIQ.rtt_half_sums (MonitorInterval.packet_rtt_samples interval)
              (Z.of_nat (length (MonitorInterval.packet_rtt_samples interval)) / 2)
            = (F32.of_double (F64.lit 0 1), F32.of_double (F64.lit 0 1))).
  { destruct (MonitorInterval.packet_rtt_samples interval) as [ | s [ | s' rest]];
      [reflexivity | reflexivity | simpl in Hfew; lia]. }
  cbv zeta. rewrite Hsums.
  match goal with
  | |- bind ?c _ = None =>
      replace c with (@None float) by (vm_compute; reflexivity)
  end.
  reflexivity.
Qed.

Lemma X7_utility_needs_two_rtt_samples_witness :
  @MIQ.CalculateUtility libm_example
    (interval_with_samples [PacketRttSample.Build 1 10000])
  = None
  /\ option_map fst
       (@MIQ.CalculateUtility libm_example
          (interval_with_samples
             [PacketRttSample.Build 1 10000; PacketRttSample.Build 2 10000]))
     = Some true.
Proof.
  split.
  - apply (@X7_utility_needs_two_rtt_samples libm_example
             (interval_with_samples [PacketRttSample.Build 1 10000])).
    + simpl. lia.
    + simpl. lia.
  - vm_compute. reflexivity.
Defined.

(** * Further properties of the controller *)

(** ** Decisions in PROBING *)

Lemma CanMakeDecision_four (a0 a1 a2 a3 : UtilityInfo.t)
    (rest : list UtilityInfo.t) :
  CC.CanMakeDecision (a0 :: a1 :: a2 :: a3 :: rest)
  = Some (Bool.eqb (prefers_increase a0 a1) (prefers_increase a2 a3)).
Proof.
  unfold CC.CanMakeDecision.
  destruct (Z.ltb_spec (Z.of_nat (length (a0 :: a1 :: a2 :: a3 :: rest)))
                       (2 * CC.kNumIntervalGroupsInProbing)) as [Hshort | _].
  { simpl length in Hshort. unfold CC.kNumIntervalGroupsInProbing in Hshort. lia. }
  simpl. fold (prefers_increase a0 a1). fold (prefers_increase a2 a3).
  destruct (prefers_increase a0 a1), (prefers_increase a2 a3); reflexivity.
Qed.

(** X8: [CanMakeDecision] is defined for every batch and never reads past
    its end: it answers false for a batch of fewer than four utilities,
    and otherwise whether the first two probing groups agree on the
    direction; entries after the fourth are not read. *)
Theorem X8_CanMakeDecision_compares_two_groups
    (utility_info : list UtilityInfo.t) :
  CC.CanMakeDecision utility_info
  = Some match utility_info with
         | a0 :: a1 :: a2 :: a3 :: _ =>
             Bool.eqb (prefers_increase a0 a1) (prefers_increase a2 a3)
         | _ => false
         end.
Proof.
  destruct utility_info as [ | a0 [ | a1 [ | a2 [ | a3 rest]]]];
    try reflexivity.
  apply CanMakeDecision_four.
Qed.

(** What [EnterProbing] assigns: the rate, the mode and the rounds. *)
Lemma EnterProbing_frame (c c' : CongestionController.t) :
  CC.EnterProbing c = Some c' ->
  c' = CongestionController.set_rounds_
         (if SenderMode_eqb (CongestionController.mode_ c) PROBING
          then size_t_incr (CongestionController.rounds_ c) else 1)
         (CongestionController.set_mode_ PROBING
            (CongestionController.set_sending_rate_
               (CongestionController.sending_rate_ c') c)).
Proof.
  unfold CC.EnterProbing. intros H. bind_inv H.
  assert (Hc : exists rate,
             t = CongestionController.set_sending_rate_ rate c).
  { destruct (CongestionController.mode_ c).
    - inversion E. eauto.
    - bind_inv E.
      destruct (MonitorInterval.is_useful _);
        [destruct (RateChangeDirection_eqb _ _); inversion E; eauto | ].
      injection E as <-. exists (CongestionController.sending_rate_ c).
      now destruct c.
    - destruct (RateChangeDirection_eqb _ _); inversion E; eauto. }
  destruct Hc as [rate ->]. simpl in H.
  destruct (SenderMode_eqb (CongestionController.mode_ c) PROBING) eqn:Hmode;
    inversion H; subst c'; simpl; [ | reflexivity].
  destruct c as [mode ?]; simpl in *. now destruct mode.
Qed.

Lemma OnUtilityAvailable_frame (utility_info : list UtilityInfo.t)
    (c c' : CongestionController.t) :
  CC.OnUtilityAvailable utility_info c = Some c' ->
  queue_and_rtt_state c' = queue_and_rtt_state c.
Proof.
  assert (Hprobing : forall c0 c1,
             CC.EnterProbing c0 = Some c1 ->
             queue_and_rtt_state c1 = queue_and_rtt_state c0).
  { intros c0 c1 H. apply EnterProbing_frame in H. now rewrite H. }
  assert (Houtside : forall c0 c1,
             outside_rate_change c1 = outside_rate_change c0 ->
             queue_and_rtt_state c1 = queue_and_rtt_state c0).
  { unfold outside_rate_change, queue_and_rtt_state. intros c0 c1 H.
    inversion H. reflexivity. }
  unfold CC.OnUtilityAvailable. intros Hrun.
  destruct (CongestionController.mode_ c) eqn:Hmode.
  - bind_inv Hrun. destruct (_ <? _)%f32; [ | now apply Hprobing].
    now inversion Hrun.
  - bind_inv Hrun. destruct b; [ | now apply Hprobing].
    do 4 bind_inv Hrun.
    match type of Hrun with
    | context [CC.ComputeRateChange ?a ?b ?c0] =>
        pose proof (ComputeRateChange_outside a b c0) as Hout;
        destruct (CC.ComputeRateChange a b c0) as [rate_change c2]
    end.
    apply Houtside in Hout. simpl in Hout.
    inversion Hrun; subst c'. exact Hout.
  - bind_inv Hrun.
    match type of Hrun with
    | context [CC.ComputeRateChange ?a ?b ?c0] =>
        pose proof (ComputeRateChange_outside a b c0) as Hout;
        destruct (CC.ComputeRateChange a b c0) as [rate_change c2]
    end.
    apply Houtside in Hout. simpl in Hout.
    destruct (Bool.eqb _ _).
    + inversion Hrun; subst c'. exact Hout.
    + apply Hprobing in Hrun. now rewrite Hrun.
Qed.

Lemma EnterProbing_stays (c c' : CongestionController.t) :
  CongestionController.mode_ c = PROBING ->
  CC.EnterProbing c = Some c' ->
  stays_in_probing c c'.
Proof.
  intros Hmode H. split; [exact H | ].
  apply EnterProbing_frame in H. rewrite Hmode in H. simpl in H.
  rewrite H. simpl. auto.
Qed.

(** X9: in PROBING, a batch leads to DECISION_MADE exactly when it holds
    at least four utilities and its first two groups agree; then [rounds_]
    is 1, [latest_utility_info_] is the better sample of the second group
    and the new rate is the old one plus the change kept in
    [previous_change_].  Every other batch leaves the controller in
    PROBING with [rounds_] incremented and its direction, latest utility
    and previous change untouched. *)
Theorem X9_probing_decides_when_groups_agree
    (utility_info : list UtilityInfo.t) (c c' : CongestionController.t) :
  CongestionController.mode_ c = PROBING ->
  CC.OnUtilityAvailable utility_info c = Some c' ->
  match utility_info with
  | a0 :: a1 :: a2 :: a3 :: _ =>
      if Bool.eqb (prefers_increase a0 a1) (prefers_increase a2 a3)
      then CongestionController.mode_ c' = DECISION_MADE
           /\ CongestionController.rounds_ c' = 1
           /\ CongestionController.latest_utility_info_ c'
              = (if (UtilityInfo.utility a2 >? UtilityInfo.utility a3)%f32
                 then a2 else a3)
           /\ CongestionController.sending_rate_ c'
              = (CongestionController.sending_rate_ c
                 + CongestionController.previous_change_ c')%f64
      else stays_in_probing c c'
  | _ => stays_in_probing c c'
  end.
Proof.
  intros Hmode Hrun. unfold CC.OnUtilityAvailable in Hrun.
  rewrite Hmode in Hrun.
  assert (Hshort : match utility_info with
                   | _ :: _ :: _ :: _ :: _ => True
                   | _ => CC.CanMakeDecision utility_info = Some false
                   end).
  { destruct utility_info as [ | a0 [ | a1 [ | a2 [ | a3 rest]]]];
      first [exact I | reflexivity]. }
  destruct utility_info as [ | a0 [ | a1 [ | a2 [ | a3 rest]]]];
    try (rewrite Hshort in Hrun; simpl in Hrun;
         now apply EnterProbing_stays).
  rewrite CanMakeDecision_four in Hrun. simpl bind in Hrun.
  destruct (Bool.eqb _ _); [ | now apply EnterProbing_stays].
  simpl in Hrun.
  match type of Hrun with
  | context [CC.ComputeRateChange ?a ?b ?c0] =>
      pose proof (ComputeRateChange_outside a b c0) as Hout;
      destruct (CC.ComputeRateChange a b c0) as [rate_change c2]
  end.
  apply outside_rate_change_fields in Hout.
  destruct Hout as (_ & Hrate & Hlatest & _). simpl in Hrate, Hlatest.
  inversion Hrun; subst c'. simpl. rewrite Hrate, Hlatest. auto.
Qed.

Lemma X9_probing_decides_when_groups_agree_witness :
  (exists c',
      CC.OnUtilityAvailable batch_agreeing controller_probing_queued = Some c'
      /\ CongestionController.mode_ c' = DECISION_MADE
      /\ CongestionController.rounds_ c' = 1)
  /\ exists c',
       CC.OnUtilityAvailable batch_disagreeing controller_probing_queued
       = Some c'
       /\ stays_in_probing controller_probing_queued c'.
Proof.
  split.
  - destruct (CC.OnUtilityAvailable batch_agreeing controller_probing_queued)
      as [c' | ] eqn:Hrun; [ | vm_compute in Hrun; discriminate Hrun].
    exists c'. split; [reflexivity | ].
    destruct (X9_probing_decides_when_groups_agree batch_agreeing
                controller_probing_queued c' eq_refl Hrun)
      as (Hmode & Hrounds & _).
    auto.
  - destruct (CC.OnUtilityAvailable batch_disagreeing controller_probing_queued)
      as [c' | ] eqn:Hrun; [ | vm_compute in Hrun; discriminate Hrun].
    exists c'. split; [reflexivity | ].
    exact (X9_probing_decides_when_groups_agree batch_disagreeing
             controller_probing_queued c' eq_refl Hrun).
Defined.

(** X10: when a decision is made on a batch whose first two samples have
    ordered sending rates, [direction_] is the verdict of the first
    probing group: INCREASE if the sample with the greater utility has the
    greater rate, DECREASE otherwise. *)
Theorem X10_direction_is_the_verdict (a0 a1 a2 a3 : UtilityInfo.t)
    (rest : list UtilityInfo.t) (c c' : CongestionController.t) :
  CongestionController.mode_ c = PROBING ->
  (UtilityInfo.sending_rate a0 <? UtilityInfo.sending_rate a1)%f64
  || (UtilityInfo.sending_rate a0 >? UtilityInfo.sending_rate a1)%f64 = true ->
  CC.OnUtilityAvailable (a0 :: a1 :: a2 :: a3 :: rest) c = Some c' ->
  CongestionController.mode_ c' = DECISION_MADE ->
  CongestionController.direction_ c'
  = if prefers_increase a0 a1 then INCREASE else DECREASE.
Proof.
  intros Hmode Hordered Hrun Hmode'. unfold CC.OnUtilityAvailable in Hrun.
  rewrite Hmode, CanMakeDecision_four in Hrun. simpl bind in Hrun.
  destruct (Bool.eqb _ _).
  - simpl in Hrun.
    match type of Hrun with
    | context [CC.ComputeRateChange ?a ?b ?c0] =>
        pose proof (ComputeRateChange_outside a b c0) as Hout;
        destruct (CC.ComputeRateChange a b c0) as [rate_change c2]
    end.
    apply outside_rate_change_fields in Hout.
    destruct Hout as (_ & _ & _ & _ & Hdirection & _). simpl in Hdirection.
    inversion Hrun; subst c'. simpl. rewrite Hdirection.
    unfold prefers_increase.
    destruct (UtilityInfo.utility a0 >? UtilityInfo.utility a1)%f32.
    + reflexivity.
    + destruct (UtilityInfo.sending_rate a0 >? UtilityInfo.sending_rate a1)%f64
        eqn:Hgreater.
      * now rewrite (F64_ltb_asym _ _ Hgreater).
      * rewrite orb_false_r in Hordered. now rewrite Hordered.
  - apply EnterProbing_mode in Hrun. congruence.
Qed.

Lemma X10_direction_is_the_verdict_witness :
  (exists c',
      CC.OnUtilityAvailable batch_agreeing controller_probing = Some c'
      /\ CongestionController.direction_ c' = INCREASE)
  /\ exists c',
       CC.OnUtilityAvailable batch_preferring_lower controller_probing_low
       = Some c'
       /\ CongestionController.direction_ c' = DECREASE.
Proof.
  split.
  - destruct (CC.OnUtilityAvailable batch_agreeing controller_probing)
      as [c' | ] eqn:Hrun; [ | vm_compute in Hrun; discriminate Hrun].
    exists c'. split; [reflexivity | ].
    unfold batch_agreeing in Hrun.
    assert (Hmode' : CongestionController.mode_ c' = DECISION_MADE).
    { pose proof Hrun as Hvalue. vm_compute in Hvalue.
      inversion Hvalue; subst. reflexivity. }
    refine (X10_direction_is_the_verdict _ _ _ _ [] controller_probing c'
              _ _ Hrun Hmode'); vm_compute; reflexivity.
  - destruct (CC.OnUtilityAvailable batch_preferring_lower controller_probing_low)
      as [c' | ] eqn:Hrun; [ | vm_compute in Hrun; discriminate Hrun].
    exists c'. split; [reflexivity | ].
    unfold batch_preferring_lower in Hrun.
    assert (Hmode' : CongestionController.mode_ c' = DECISION_MADE).
    { pose proof Hrun as Hvalue. vm_compute in Hvalue.
      inversion Hvalue; subst. reflexivity. }
    refine (X10_direction_is_the_verdict _ _ _ _ [] controller_probing_low c'
              _ _ Hrun Hmode'); vm_compute; reflexivity.
Defined.

(** ** The callback and the queue *)

(** X11: [OnUtilityAvailable] never touches the queue or the RTT state of
    the controller: [interval_queue_], [avg_rtt_], [initial_rtt_] and
    [monitor_duration_] are the same after the call, whatever the mode and
    the batch. *)
Theorem X11_callback_leaves_queue_and_rtt (utility_info : list UtilityInfo.t)
    (c c' : CongestionController.t) :
  CC.OnUtilityAvailable utility_info c = Some c' ->
  CongestionController.interval_queue_ c'
  = CongestionController.interval_queue_ c
  /\ CongestionController.avg_rtt_ c' = CongestionController.avg_rtt_ c
  /\ CongestionController.initial_rtt_ c' = CongestionController.initial_rtt_ c
  /\ CongestionController.monitor_duration_ c'
     = CongestionController.monitor_duration_ c.
Proof.
  intros H. apply OnUtilityAvailable_frame in H.
  unfold queue_and_rtt_state in H. inversion H. auto.
Qed.

Lemma X11_callback_leaves_queue_and_rtt_witness :
  exists c',
    CC.OnUtilityAvailable batch_disagreeing controller_probing_queued = Some c'
    /\ CongestionController.interval_queue_ c' = queue_two_packets
    /\ CongestionController.avg_rtt_ c' = 0
    /\ CongestionController.initial_rtt_ c' = 10000
    /\ CongestionController.monitor_duration_ c' = 0.
Proof.
  destruct (CC.OnUtilityAvailable batch_disagreeing controller_probing_queued)
    as [c' | ] eqn:Hrun; [ | vm_compute in Hrun; discriminate Hrun].
  exists c'. split; [reflexivity | ].
  exact (X11_callback_leaves_queue_and_rtt batch_disagreeing
           controller_probing_queued c' Hrun).
Defined.

(** [OnUtilityAvailable] reads [utility_info[0]] in every mode, up to
    [utility_info[3]] after [CanMakeDecision] has checked the size, and
    [interval_queue_.current()] in [EnterProbing]. *)
Lemma OnUtilityAvailable_defined (info0 : UtilityInfo.t)
    (rest : list UtilityInfo.t) (c : CongestionController.t) :
  MIQ.empty (CongestionController.interval_queue_ c) = false ->
  exists c', CC.OnUtilityAvailable (info0 :: rest) c = Some c'.
Proof.
  intros Hqueue.
  assert (Hprobing : forall c0,
             CongestionController.interval_queue_ c0
             = CongestionController.interval_queue_ c ->
             exists c', CC.EnterProbing c0 = Some c').
  { intros c0 Hsame. unfold CC.EnterProbing. rewrite Hsame.
    unfold MIQ.empty in Hqueue. unfold MIQ.current.
    destruct (MonitorIntervalQueue.monitor_intervals_
                (CongestionController.interval_queue_ c));
      [discriminate Hqueue | ].
    destruct (CongestionController.mode_ c0) eqn:Hmode; simpl.
    - rewrite Hmode. simpl. eauto.
    - destruct (MonitorInterval.is_useful _);
        [destruct (RateChangeDirection_eqb _ _) | ];
        simpl; rewrite Hmode; simpl; eauto.
    - destruct (RateChangeDirection_eqb _ _); simpl; rewrite Hmode; simpl; eauto. }
  unfold CC.OnUtilityAvailable.
  destruct (CongestionController.mode_ c) eqn:Hmode.
  - simpl. destruct (_ <? _)%f32; [eauto | now apply Hprobing].
  - destruct rest as [ | info1 [ | info2 [ | info3 rest]]];
      try (simpl; now apply Hprobing).
    rewrite CanMakeDecision_four. simpl bind.
    destruct (Bool.eqb _ _); [ | now apply Hprobing].
    simpl. destruct (CC.ComputeRateChange _ _ _). eauto.
  - simpl.
    match goal with
    | |- context [CC.ComputeRateChange ?a ?b ?c0] =>
        pose proof (ComputeRateChange_outside a b c0) as Hout;
        destruct (CC.ComputeRateChange a b c0) as [rate_change c2]
    end.
    apply outside_rate_change_fields in Hout.
    destruct Hout as (_ & _ & _ & _ & _ & Hsame & _). simpl in Hsame.
    destruct (Bool.eqb _ _); [eauto | now apply Hprobing].
Qed.

(** X12: with the controller as delegate and a queue whose counter agrees
    with its deque, an event is defined whenever its loop over the
    intervals is, that is whenever every utility it calculates is defined:
    the batch handed to [OnUtilityAvailable] is never empty, the callback
    reads neither past the end of the batch nor the back of an empty
    deque, and removing the useful intervals never pops from an empty
    deque. *)
Theorem X12_event_defined_when_utilities_are {libm : Libm}
    (acked_packets : AckedPacketVector) (lost_packets : LostPacketVector)
    (rtt_us : Z) (event_time : QuicTime) (c : CongestionController.t)
    (loop : list MonitorInterval.t * Z * bool) :
  queue_wf (CongestionController.interval_queue_ c) ->
  MIQ.for_each_interval acked_packets lost_packets rtt_us event_time
    (MonitorIntervalQueue.monitor_intervals_
       (CongestionController.interval_queue_ c)) 0
  = Some loop ->
  exists q' c',
    MIQ.OnCongestionEvent acked_packets lost_packets rtt_us event_time
      (CongestionController.interval_queue_ c) c
    = Some (q', c').
Proof.
  intros [Hcount Hsize] Hloop. unfold MIQ.OnCongestionEvent.
  cbn [MonitorIntervalQueue.monitor_intervals_
       MonitorIntervalQueue.num_useful_intervals_
       MonitorIntervalQueue.num_available_intervals_].
  destruct (Z.eqb_spec (MonitorIntervalQueue.num_useful_intervals_
                          (CongestionController.interval_queue_ c)) 0)
    as [Hzero | Hsome]; [eauto | ].
  rewrite Hloop. destruct loop as [[after n] invalid]. simpl bind.
  apply for_each_interval_spec in Hloop. destruct Hloop as (Hall & _).
  destruct (loop_result_useful _ _ _ _ _ _ Hall) as [_ Hlen].
  destruct ((n <? _) && negb invalid); [eauto | ].
  assert (Hdrain : exists remaining,
             MIQ.remove_useful_intervals after
               (MonitorIntervalQueue.num_useful_intervals_
                  (CongestionController.interval_queue_ c))
             = Some (remaining, 0)).
  { rewrite Hcount, <- Hlen, remove_useful_intervals_trailing. eauto. }
  destruct Hdrain as [remaining Hdrain].
  destruct invalid; simpl negb; cbv iota.
  - simpl bind. rewrite Hdrain. simpl. eauto.
  - assert (Hbatch : exists info0 rest,
               MIQ.utility_info_of after = info0 :: rest).
    { unfold MIQ.utility_info_of. fold (useful_intervals after).
      destruct (useful_intervals after); [simpl in Hlen; lia | ].
      simpl. eauto. }
    destruct Hbatch as (info0 & rest & Hbatch).
    assert (Hnonempty : after <> []).
    { intros ->. discriminate Hbatch. }
    unfold MIQ.OnUtilityAvailable, CC.delegate. rewrite Hbatch.
    destruct (OnUtilityAvailable_defined info0 rest
                (CongestionController.set_interval_queue_
                   (MonitorIntervalQueue.Build after
                      (MonitorIntervalQueue.num_useful_intervals_
                         (CongestionController.interval_queue_ c)) n) c))
      as [c' Hcall].
    { simpl. unfold MIQ.empty. simpl. now destruct after. }
    rewrite Hcall. simpl bind. rewrite Hdrain. simpl. eauto.
Qed.

Lemma X12_event_defined_when_utilities_are_witness :
  exists q' c',
    @MIQ.OnCongestionEvent libm_example _ CC.delegate [ack_1000 1; ack_1000 2]
      [] 10000 20000
      (CongestionController.interval_queue_ controller_probing_queued)
      controller_probing_queued
    = Some (q', c').
Proof.
  destruct (@MIQ.for_each_interval libm_example [ack_1000 1; ack_1000 2] []
              10000 20000
              (MonitorIntervalQueue.monitor_intervals_
                 (CongestionController.interval_queue_
                    controller_probing_queued)) 0)
    as [loop | ] eqn:Hloop; [ | vm_compute in Hloop; discriminate Hloop].
  apply (@X12_event_defined_when_utilities_are libm_example
           [ack_1000 1; ack_1000 2] [] 10000 20000 controller_probing_queued
           loop).
  - split; vm_compute; reflexivity.
  - exact Hloop.
Defined.

(** ** Congestion events of the controller *)

(** X13: when the RTT of an event exceeds the tolerated inflation in
    STARTING, the event ignores its acked and lost packets: the queue is
    emptied, the rate is halved, the controller is in PROBING with
    [rounds_] 1, [avg_rtt_] holds the smoothed RTT, and the pacing rate is
    the halved rate. *)
Theorem X13_rtt_inflation_empties_the_queue {libm : Libm}
    (event_time rtt : QuicTime) (acked_packets : AckedPacketVector)
    (lost_packets : LostPacketVector) (c : CongestionController.t)
    (avg_rtt : QuicTime) :
  rtt <> 0 ->
  CC.smoothed_rtt rtt c = Some avg_rtt ->
  CC.rtt_inflation_in_starting rtt (CongestionController.set_avg_rtt_ avg_rtt c)
  = Some true ->
  let c' :=
    CongestionController.set_rounds_ 1
      (CongestionController.set_mode_ PROBING
         (CongestionController.set_sending_rate_
            (CongestionController.sending_rate_ c * F64.lit 5 10)%f64
            (CongestionController.set_interval_queue_ MonitorIntervalQueue.new
               (CongestionController.set_avg_rtt_ avg_rtt c)))) in
  CC.OnCongestionEvent event_time rtt acked_packets lost_packets c = Some c'
  /\ CC.PacingRate c'
     = Some (CongestionController.sending_rate_ c * F64.lit 5 10)%f64.
Proof.
  intros Hrtt Havg Hinflated c'. split; [ | reflexivity].
  pose proof (rtt_inflation_in_starting_mode _ _ Hinflated) as Hmode.
  simpl in Hmode.
  unfold CC.OnCongestionEvent. apply Z.eqb_neq in Hrtt.
  rewrite Hrtt, Havg. simpl. rewrite Hinflated. simpl.
  unfold CC.EnterProbing. simpl. rewrite Hmode. simpl. rewrite Hmode.
  reflexivity.
Qed.

Lemma X13_rtt_inflation_empties_the_queue_witness :
  option_map
    (fun c =>
       (CongestionController.mode_ c, CongestionController.sending_rate_ c,
        CongestionController.avg_rtt_ c,
        MIQ.size (CongestionController.interval_queue_ c)))
    (@CC.OnCongestionEvent libm_example 40000 14000 [ack_1000 1] []
       controller_single_packet)
  = Some (PROBING, F64.of_Z 5600000, 11000, 0).
Proof.
  assert (Hrtt : 14000 <> 0) by lia.
  assert (Havg : CC.smoothed_rtt 14000 controller_single_packet = Some 11000)
    by (vm_compute; reflexivity).
  assert (Hinflated :
            CC.rtt_inflation_in_starting 14000
              (CongestionController.set_avg_rtt_ 11000 controller_single_packet)
            = Some true) by (vm_compute; reflexivity).
  destruct (@X13_rtt_inflation_empties_the_queue libm_example 40000 14000
              [ack_1000 1] [] controller_single_packet 11000 Hrtt Havg
              Hinflated) as [Hrun _].
  rewrite Hrun. vm_compute. reflexivity.
Defined.

Lemma OnCongestionEvent_callback_frame {libm : Libm}
    (acked_packets : AckedPacketVector) (lost_packets : LostPacketVector)
    (rtt_us : Z) (event_time : QuicTime)
    (q q' : MonitorIntervalQueue.t) (c c' : CongestionController.t) :
  MIQ.OnCongestionEvent acked_packets lost_packets rtt_us event_time q c
  = Some (q', c') ->
  CongestionController.avg_rtt_ c' = CongestionController.avg_rtt_ c
  /\ CongestionController.initial_rtt_ c' = CongestionController.initial_rtt_ c
  /\ CongestionController.monitor_duration_ c'
     = CongestionController.monitor_duration_ c.
Proof.
  intros H. apply OnCongestionEvent_delegate in H.
  destruct H as [-> | (utility_info & at_call & Hcall)]; [auto | ].
  simpl in Hcall. apply OnUtilityAvailable_frame in Hcall.
  unfold queue_and_rtt_state in Hcall. simpl in Hcall.
  inversion Hcall. auto.
Qed.

(** X14: after a congestion event, [avg_rtt_] is unchanged if the event
    carries no RTT ([rtt = 0]) and is the smoothed RTT otherwise, whatever
    the callback does; in particular the first RTT sample is taken as it
    is.  [initial_rtt_] and [monitor_duration_] are never changed by an
    event. *)
Theorem X14_avg_rtt_after_event {libm : Libm} (event_time rtt : QuicTime)
    (acked_packets : AckedPacketVector) (lost_packets : LostPacketVector)
    (c c' : CongestionController.t) :
  CC.OnCongestionEvent event_time rtt acked_packets lost_packets c = Some c' ->
  Some (CongestionController.avg_rtt_ c')
  = (if rtt =? 0 then Some (CongestionController.avg_rtt_ c)
     else CC.smoothed_rtt rtt c)
  /\ (CongestionController.avg_rtt_ c = 0 ->
      CongestionController.avg_rtt_ c' = rtt)
  /\ CongestionController.initial_rtt_ c' = CongestionController.initial_rtt_ c
  /\ CongestionController.monitor_duration_ c'
     = CongestionController.monitor_duration_ c.
Proof.
  intros H.
  assert (Hmain :
            Some (CongestionController.avg_rtt_ c')
            = (if rtt =? 0 then Some (CongestionController.avg_rtt_ c)
               else CC.smoothed_rtt rtt c)
            /\ CongestionController.initial_rtt_ c'
               = CongestionController.initial_rtt_ c
            /\ CongestionController.monitor_duration_ c'
               = CongestionController.monitor_duration_ c).
  { unfold CC.OnCongestionEvent in H.
    assert (Hqueue : forall c1,
               (bind (MIQ.OnCongestionEvent acked_packets lost_packets rtt
                        event_time (CongestionController.interval_queue_ c1) c1)
                     (fun x => let '(q, c3) := x in
                               Some (CongestionController.set_interval_queue_ q c3))
                = Some c') ->
               CongestionController.avg_rtt_ c' = CongestionController.avg_rtt_ c1
               /\ CongestionController.initial_rtt_ c'
                  = CongestionController.initial_rtt_ c1
               /\ CongestionController.monitor_duration_ c'
                  = CongestionController.monitor_duration_ c1).
    { intros c1 Hrun. bind_inv Hrun. destruct p as [q c3].
      inversion Hrun; subst c'. simpl.
      eapply OnCongestionEvent_callback_frame. exact E. }
    destruct (rtt =? 0); simpl in H.
    - destruct (Hqueue c H) as (-> & -> & ->). auto.
    - bind_inv H. bind_inv H. rewrite <- E. destruct b.
      + apply EnterProbing_frame in H. rewrite H. simpl. auto.
      + destruct (Hqueue (CongestionController.set_avg_rtt_ q c) H)
          as (-> & -> & ->). auto. }
  destruct Hmain as (Havg & Hinitial & Hduration).
  repeat split; try assumption.
  intros Hzero. unfold CC.smoothed_rtt in Havg. rewrite Hzero in Havg.
  simpl in Havg. destruct (Z.eqb_spec rtt 0); inversion Havg; congruence.
Qed.

Lemma X14_avg_rtt_after_event_witness :
  exists c',
    @CC.OnCongestionEvent libm_example 12000 12000 [ack_1000 1] []
      controller_single_packet = Some c'
    /\ Some (CongestionController.avg_rtt_ c')
       = CC.smoothed_rtt 12000 controller_single_packet
    /\ CongestionController.avg_rtt_ c' = 10500.
Proof.
  destruct (@CC.OnCongestionEvent libm_example 12000 12000 [ack_1000 1] []
              controller_single_packet) as [c' | ] eqn:Hrun;
    [ | vm_compute in Hrun; discriminate Hrun].
  exists c'. split; [reflexivity | ].
  destruct (@X14_avg_rtt_after_event libm_example 12000 12000 [ack_1000 1] []
              controller_single_packet c' Hrun) as (Havg & _).
  split; [exact Havg | ].
  change (Some (CongestionController.avg_rtt_ c') = Some 10500) in Havg.
  now inversion Havg.
Defined.

(** ** Before the first RTT sample *)

Lemma api_run_starts {libm : Libm} (calls : list ApiCall)
    (c : CongestionController.t) (trace : list CongestionController.t) :
  api_run calls c = Some trace -> exists rest, trace = c :: rest.
Proof.
  destruct calls; simpl; intros H.
  - inversion H. eauto.
  - do 2 bind_inv H. inversion H. eauto.
Qed.

Lemma awaiting_first_rtt_step {libm : Libm} (rate : QuicBandwidth)
    (call : ApiCall) (c c' : CongestionController.t) :
  awaiting_first_rtt rate c ->
  carries_no_rtt call = true ->
  api_step call c = Some c' ->
  awaiting_first_rtt rate c'
  /\ length (MonitorIntervalQueue.monitor_intervals_
               (CongestionController.interval_queue_ c'))
     = (length (MonitorIntervalQueue.monitor_intervals_
                  (CongestionController.interval_queue_ c))
        + if is_packet_sent call then 1 else 0)%nat.
Proof.
  intros (Hmode & Havg & Hrate & Huseful & Hall) Hno Hstep.
  destruct call as [rand sent_time in_flight number bytes retx
                   | event_time rtt acked lost]; simpl in Hstep, Hno |- *.
  - unfold CC.OnPacketSent in Hstep. unfold MIQ.num_useful_intervals in Hstep.
    rewrite Huseful in Hstep. simpl in Hstep.
    unfold CC.MaybeSetSendingRate in Hstep. rewrite Hmode in Hstep.
    simpl in Hstep. bind_inv Hstep. bind_inv E.
    unfold CC.CreateUsefulInterval in E. simpl in E.
    rewrite Havg, Hmode in E. simpl in E.
    unfold MIQ.EnqueueNewMonitorInterval in E.
    inversion E; subst t. simpl in Hstep.
    rewrite OnPacketSent_back in Hstep.
    inversion Hstep; subst c'. simpl.
    split; [ | rewrite length_app; reflexivity].
    repeat split; try assumption.
    apply Forall_app. split; [exact Hall | ].
    constructor; [ | constructor].
    repeat split; assumption.
  - apply Z.eqb_eq in Hno. subst rtt.
    unfold CC.OnCongestionEvent in Hstep. simpl in Hstep.
    unfold MIQ.OnCongestionEvent in Hstep. simpl in Hstep.
    rewrite Huseful in Hstep. simpl in Hstep.
    inversion Hstep; subst c'. simpl.
    split; [ | lia]. repeat split; assumption.
Qed.

Lemma awaiting_first_rtt_run {libm : Libm} (rate : QuicBandwidth)
    (calls : list ApiCall) :
  forall (c : CongestionController.t) (trace : list CongestionController.t),
    awaiting_first_rtt rate c ->
    forallb carries_no_rtt calls = true ->
    api_run calls c = Some trace ->
    awaiting_first_rtt rate (last trace c)
    /\ length (MonitorIntervalQueue.monitor_intervals_
                 (CongestionController.interval_queue_ (last trace c)))
       = (length (MonitorIntervalQueue.monitor_intervals_
                    (CongestionController.interval_queue_ c))
          + packets_sent calls)%nat.
Proof.
  unfold packets_sent.
  induction calls as [ | call calls IH]; intros c trace Hstart Hno Hrun;
    simpl in Hrun.
  - inversion Hrun. simpl. split; [exact Hstart | lia].
  - simpl in Hno. apply andb_true_iff in Hno. destruct Hno as [Hcall Hrest].
    do 2 bind_inv Hrun. inversion Hrun; subst trace.
    destruct (awaiting_first_rtt_step rate call c t Hstart Hcall E)
      as [Hnext Hlen].
    destruct (IH t l Hnext Hrest E0) as [Hfinal Hlength].
    destruct (api_run_starts _ _ _ E0) as [rest ->].
    rewrite (last_cons_default rest t t c) in Hfinal, Hlength.
    change (last (c :: t :: rest) c) with (last (t :: rest) c).
    split; [exact Hfinal | ].
    rewrite Hlength, Hlen. simpl.
    destruct (is_packet_sent call); simpl; lia.
Qed.

(** X15: until an event carries an RTT sample, every packet sent opens a
    monitor interval of its own and no interval is ever removed: after a
    run of [OnPacketSent] calls and congestion events with [rtt = 0] on a
    fresh controller, the queue holds one interval per packet sent, each
    not useful, holding one packet and sent at the initial rate; the
    controller is still in STARTING at its initial rate. *)
Theorem X15_one_interval_per_packet_before_first_rtt {libm : Libm}
    (initial_rtt_us : QuicTime)
    (initial_congestion_window max_congestion_window : QuicPacketCount)
    (calls : list ApiCall) (trace : list CongestionController.t) :
  forallb carries_no_rtt calls = true ->
  api_run calls
    (CC.new initial_rtt_us initial_congestion_window max_congestion_window)
  = Some trace ->
  let start :=
    CC.new initial_rtt_us initial_congestion_window max_congestion_window in
  let c := last trace start in
  awaiting_first_rtt (CongestionController.sending_rate_ start) c
  /\ length (MonitorIntervalQueue.monitor_intervals_
               (CongestionController.interval_queue_ c))
     = packets_sent calls.
Proof.
  intros Hno Hrun start c.
  apply (awaiting_first_rtt_run (CongestionController.sending_rate_ start)
           calls start trace); [ | exact Hno | exact Hrun].
  repeat split. constructor.
Qed.

Lemma X15_one_interval_per_packet_before_first_rtt_witness :
  exists trace,
    @api_run libm_example calls_without_rtt controller_S1 = Some trace
    /\ length (MonitorIntervalQueue.monitor_intervals_
                 (CongestionController.interval_queue_
                    (last trace controller_S1)))
       = 3%nat
    /\ CongestionController.mode_ (last trace controller_S1) = STARTING.
Proof.
  destruct (@api_run libm_example calls_without_rtt controller_S1)
    as [trace | ] eqn:Hrun; [ | vm_compute in Hrun; discriminate Hrun].
  exists trace. split; [reflexivity | ].
  destruct (@X15_one_interval_per_packet_before_first_rtt libm_example
              10000 10 100 calls_without_rtt trace eq_refl Hrun)
    as [(Hmode & _) Hlength].
  split; [exact Hlength | exact Hmode].
Defined.

(** ** The number of useful intervals *)

Lemma OnPacketSent_num_useful (sent_time : QuicTime)
    (packet_number : QuicPacketNumber) (bytes : QuicByteCount)
    (q : MonitorIntervalQueue.t) :
  MonitorIntervalQueue.num_useful_intervals_
    (MIQ.OnPacketSent sent_time packet_number bytes q)
  = MonitorIntervalQueue.num_useful_intervals_ q.
Proof.
  unfold MIQ.OnPacketSent.
  now destruct (MonitorIntervalQueue.monitor_intervals_ q).
Qed.

Lemma max_num_useful_positive (mode : SenderMode) : 0 < max_num_useful mode.
Proof. destruct mode; reflexivity. Qed.

Lemma api_step_length {libm : Libm} (call : ApiCall)
    (c c' : CongestionController.t) :
  queue_wf (CongestionController.interval_queue_ c) ->
  api_step call c = Some c' ->
  (length (MonitorIntervalQueue.monitor_intervals_
             (CongestionController.interval_queue_ c'))
   <= length (MonitorIntervalQueue.monitor_intervals_
                (CongestionController.interval_queue_ c)) + 1)%nat.
Proof.
  intros Hwf Hstep.
  destruct call as [rand sent_time in_flight number bytes retx
                   | event_time rtt acked lost]; simpl in Hstep.
  - unfold CC.OnPacketSent in Hstep. bind_inv Hstep. bind_inv Hstep.
    inversion Hstep; subst c'. simpl.
    assert (Hsent : forall q,
               length (MonitorIntervalQueue.monitor_intervals_
                         (MIQ.OnPacketSent sent_time number bytes q))
               = length (MonitorIntervalQueue.monitor_intervals_ q)).
    { intros q. unfold MIQ.OnPacketSent.
      destruct (MonitorIntervalQueue.monitor_intervals_ q) as [ | front rest] eqn:Hq;
        [now rewrite Hq | ].
      cbn [MonitorIntervalQueue.monitor_intervals_].
      assert (Hnonempty : front :: rest <> []) by discriminate.
      pose proof (f_equal (@length _)
                    (app_removelast_last
                       (MonitorInterval.new (F64.of_Z 0) false (flit 0 1) 0 0)
                       Hnonempty)) as Hlen.
      rewrite !length_app in *. simpl length in *. lia. }
    rewrite Hsent. destruct b.
    + bind_inv E0. bind_inv E0. inversion E0; subst t. simpl.
      apply MaybeSetSendingRate_queue in E1. rewrite E1, length_app. simpl. lia.
    + inversion E0; subst t. lia.
  - unfold CC.OnCongestionEvent in Hstep.
    assert (Hqueue : forall c1,
               CongestionController.interval_queue_ c1
               = CongestionController.interval_queue_ c ->
               (bind (MIQ.OnCongestionEvent acked lost rtt event_time
                        (CongestionController.interval_queue_ c1) c1)
                     (fun x => let '(q, c3) := x in
                               Some (CongestionController.set_interval_queue_ q c3))
                = Some c') ->
               (length (MonitorIntervalQueue.monitor_intervals_
                          (CongestionController.interval_queue_ c'))
                <= length (MonitorIntervalQueue.monitor_intervals_
                             (CongestionController.interval_queue_ c)) + 1)%nat).
    { intros c1 Hsame H. bind_inv H. destruct p as [q c3].
      inversion H; subst c'. simpl. rewrite Hsame in E.
      pose proof (proj2 (OnCongestionEvent_wf _ _ _ _ _ _ _ _ Hwf E)). lia. }
    destruct (negb (rtt =? 0)); [ | now apply (Hqueue c)].
    bind_inv Hstep. bind_inv Hstep. destruct b.
    + apply EnterProbing_queue in Hstep. rewrite Hstep. simpl. lia.
    + exact (Hqueue (CongestionController.set_avg_rtt_ q c) eq_refl Hstep).
Qed.

Lemma useful_within_bound_step {libm : Libm} (call : ApiCall)
    (c c' : CongestionController.t) :
  useful_within_bound c ->
  Z.of_nat (length (MonitorIntervalQueue.monitor_intervals_
                      (CongestionController.interval_queue_ c))) + 1
  < size_t_max ->
  api_step call c = Some c' ->
  useful_within_bound c'.
Proof.
  intros [Hwf Hbound] Hroom Hstep.
  split; [exact (api_step_wf call c c' Hwf Hroom Hstep) | ].
  destruct call as [rand sent_time in_flight number bytes retx
                   | event_time rtt acked lost]; simpl in Hstep.
  - pose proof (OnPacketSent_mode _ _ _ _ _ _ _ _ Hstep) as Hmode.
    rewrite Hmode.
    unfold CC.OnPacketSent in Hstep. bind_inv Hstep. bind_inv Hstep.
    inversion Hstep; subst c'. simpl. rewrite OnPacketSent_num_useful.
    destruct b.
    + bind_inv E0. bind_inv E0. inversion E0; subst t. simpl.
      pose proof (MaybeSetSendingRate_queue _ _ _ E1) as Hqueue.
      pose proof (MaybeSetSendingRate_mode _ _ _ E1) as Hsame.
      unfold CC.CreateUsefulInterval, MIQ.num_useful_intervals. simpl.
      rewrite Hqueue, Hsame.
      change (if SenderMode_eqb (CongestionController.mode_ c) PROBING
              then 4 else 1)
        with (max_num_useful (CongestionController.mode_ c)).
      destruct (CongestionController.avg_rtt_ t0 =? 0); [exact Hbound | ].
      destruct (Z.ltb_spec
                  (MonitorIntervalQueue.num_useful_intervals_
                     (CongestionController.interval_queue_ c))
                  (max_num_useful (CongestionController.mode_ c)));
        [ | exact Hbound].
      destruct Hwf as [Hcount _].
      unfold size_t_incr, to_size_t. rewrite Z.mod_small; [lia | ].
      assert (max_num_useful (CongestionController.mode_ c) <= 4)
        by (destruct (CongestionController.mode_ c); vm_compute; discriminate).
      unfold size_t_max. lia.
    + inversion E0; subst t. exact Hbound.
  - unfold CC.OnCongestionEvent in Hstep.
    assert (Hqueue : forall c1,
               CongestionController.interval_queue_ c1
               = CongestionController.interval_queue_ c ->
               CongestionController.mode_ c1 = CongestionController.mode_ c ->
               (bind (MIQ.OnCongestionEvent acked lost rtt event_time
                        (CongestionController.interval_queue_ c1) c1)
                     (fun x => let '(q, c3) := x in
                               Some (CongestionController.set_interval_queue_ q c3))
                = Some c') ->
               MonitorIntervalQueue.num_useful_intervals_
                 (CongestionController.interval_queue_ c')
               <= max_num_useful (CongestionController.mode_ c')).
    { intros c1 Hsame Hmode H. bind_inv H. destruct p as [q c3].
      inversion H; subst c'. simpl. rewrite Hsame in E.
      destruct (OnCongestionEvent_outcome _ _ _ _ _ _ _ _ Hwf E)
        as (after & _ & Hout).
      destruct (drains acked lost rtt event_time
                  (CongestionController.interval_queue_ c)).
      - rewrite Hout. simpl.
        pose proof (max_num_useful_positive (CongestionController.mode_ c3)).
        lia.
      - destruct Hout as [-> ->]. simpl. now rewrite Hmode. }
    destruct (negb (rtt =? 0)); [ | now apply (Hqueue c)].
    bind_inv Hstep. bind_inv Hstep. destruct b.
    + pose proof (EnterProbing_queue _ _ Hstep) as Hcleared.
      rewrite Hcleared. simpl.
      pose proof (max_num_useful_positive (CongestionController.mode_ c')).
      lia.
    + exact (Hqueue (CongestionController.set_avg_rtt_ q c) eq_refl eq_refl
               Hstep).
Qed.

(** X16: on a fresh controller, after every run of fewer than 2^64 - 1
    calls of [OnPacketSent] and [OnCongestionEvent], the queue holds at
    most [2 * kNumIntervalGroupsInProbing = 4] useful intervals in PROBING
    and at most one in STARTING and DECISION_MADE, and
    [num_useful_intervals_] is their number. *)
Theorem X16_useful_intervals_bounded {libm : Libm} (initial_rtt_us : QuicTime)
    (initial_congestion_window max_congestion_window : QuicPacketCount)
    (calls : list ApiCall) (trace : list CongestionController.t) :
  Z.of_nat (length calls) + 1 < size_t_max ->
  api_run calls
    (CC.new initial_rtt_us initial_congestion_window max_congestion_window)
  = Some trace ->
  Forall
    (fun c =>
       Z.of_nat (length (useful_intervals
                           (MonitorIntervalQueue.monitor_intervals_
                              (CongestionController.interval_queue_ c))))
       <= (if SenderMode_eqb (CongestionController.mode_ c) PROBING
           then 4 else 1)
       /\ MonitorIntervalQueue.num_useful_intervals_
            (CongestionController.interval_queue_ c)
          = Z.of_nat (length (useful_intervals
                                (MonitorIntervalQueue.monitor_intervals_
                                   (CongestionController.interval_queue_ c)))))
    trace.
Proof.
  intros Hroom Hrun.
  assert (Hgen : forall calls c trace,
             useful_within_bound c ->
             Z.of_nat (length (MonitorIntervalQueue.monitor_intervals_
                                 (CongestionController.interval_queue_ c)))
             + Z.of_nat (length calls) + 1 < size_t_max ->
             api_run calls c = Some trace ->
             Forall useful_within_bound trace).
  { clear. induction calls as [ | call calls IH]; intros c trace Hc Hroom Hrun;
      simpl in Hrun.
    - inversion Hrun. repeat constructor; apply Hc.
    - do 2 bind_inv Hrun. inversion Hrun; subst trace.
      simpl length in Hroom.
      pose proof (api_step_length call c t (proj1 Hc) E) as Hlen.
      constructor; [exact Hc | ].
      apply (IH t); [ | lia | exact E0].
      apply (useful_within_bound_step call c t Hc); [lia | exact E]. }
  assert (Hall : Forall useful_within_bound trace).
  { apply (Hgen calls
             (CC.new initial_rtt_us initial_congestion_window
                max_congestion_window)); [ | simpl; lia | exact Hrun].
    split; [split; [reflexivity | vm_compute; reflexivity] | ].
    vm_compute. discriminate. }
  eapply Forall_impl; [ | exact Hall].
  intros c [[Hcount Hsize] Hbound]. split; [ | exact Hcount].
  rewrite <- Hcount. exact Hbound.
Qed.

Lemma X16_useful_intervals_bounded_witness :
  exists trace,
    @api_run libm_example calls_probing controller_S1 = Some trace
    /\ nth_error
         (map (fun c =>
                 (CongestionController.mode_ c,
                  MonitorIntervalQueue.num_useful_intervals_
                    (CongestionController.interval_queue_ c)))
              trace) 16
       = Some (PROBING, 4)
    /\ Forall
         (fun c =>
            Z.of_nat (length (useful_intervals
                                (MonitorIntervalQueue.monitor_intervals_
                                   (CongestionController.interval_queue_ c))))
            <= (if SenderMode_eqb (CongestionController.mode_ c) PROBING
                then 4 else 1)
            /\ MonitorIntervalQueue.num_useful_intervals_
                 (CongestionController.interval_queue_ c)
               = Z.of_nat (length (useful_intervals
                                     (MonitorIntervalQueue.monitor_intervals_
                                        (CongestionController.interval_queue_
                                           c)))))
         trace.
Proof.
  destruct (@api_run libm_example calls_probing controller_S1)
    as [trace | ] eqn:Hrun; [ | vm_compute in Hrun; discriminate Hrun].
  exists trace. split; [reflexivity | ]. split.
  - pose proof Hrun as Hvalue. vm_compute in Hvalue.
    inversion Hvalue; subst. reflexivity.
  - apply (@X16_useful_intervals_bounded libm_example 10000 10 100
             calls_probing trace); [vm_compute; reflexivity | exact Hrun].
Defined.

(** ** Rounds in DECISION_MADE *)

Lemma MaybeSetSendingRate_rounds (rand : Z) (c c' : CongestionController.t) :
  CC.MaybeSetSendingRate rand c = Some c' ->
  CongestionController.rounds_ c' = CongestionController.rounds_ c.
Proof.
  unfold CC.MaybeSetSendingRate. intros H. bind_inv H.
  destruct b; [now inversion H | ].
  repeat match type of H with
         | context [if ?b then _ else _] => destruct b
         end; inversion H; reflexivity.
Qed.

Lemma OnPacketSent_rounds {libm : Libm} (rand : Z) (sent_time : QuicTime)
    (bytes_in_flight : QuicByteCount) (packet_number : QuicPacketNumber)
    (bytes : QuicByteCount) (is_retransmittable : bool)
    (c c' : CongestionController.t) :
  CC.OnPacketSent rand sent_time bytes_in_flight packet_number bytes
    is_retransmittable c = Some c' ->
  CongestionController.rounds_ c' = CongestionController.rounds_ c.
Proof.
  unfold CC.OnPacketSent. intros H. bind_inv H. bind_inv H.
  inversion H; subst c'. simpl. destruct b.
  - bind_inv E0. bind_inv E0. inversion E0; subst t. simpl.
    eapply MaybeSetSendingRate_rounds. exact E1.
  - now inversion E0.
Qed.

Lemma OnUtilityAvailable_rounds (utility_info : list UtilityInfo.t)
    (c c' : CongestionController.t) :
  (CongestionController.mode_ c = DECISION_MADE ->
   CongestionController.rounds_ c = 1) ->
  CC.OnUtilityAvailable utility_info c = Some c' ->
  CongestionController.mode_ c' = DECISION_MADE ->
  CongestionController.rounds_ c' = 1.
Proof.
  unfold CC.OnUtilityAvailable. intros Hone Hrun Hmode'.
  destruct (CongestionController.mode_ c) eqn:Hmode.
  - bind_inv Hrun. destruct (_ <? _)%f32.
    + inversion Hrun; subst c'. simpl in Hmode'. congruence.
    + apply EnterProbing_mode in Hrun. congruence.
  - bind_inv Hrun. destruct b.
    + do 4 bind_inv Hrun.
      destruct (CC.ComputeRateChange _ _ _) as [rate_change c2].
      inversion Hrun; subst c'. reflexivity.
    + apply EnterProbing_mode in Hrun. congruence.
  - bind_inv Hrun.
    match type of Hrun with
    | context [CC.ComputeRateChange ?a ?b ?c0] =>
        pose proof (ComputeRateChange_outside a b c0) as Hout;
        destruct (CC.ComputeRateChange a b c0) as [rate_change c2]
    end.
    apply outside_rate_change_fields in Hout.
    destruct Hout as (_ & _ & _ & Hrounds & _). simpl in Hrounds.
    destruct (Bool.eqb _ _).
    + inversion Hrun; subst c'. simpl. rewrite Hrounds. now apply Hone.
    + apply EnterProbing_mode in Hrun. congruence.
Qed.

Lemma api_step_rounds {libm : Libm} (call : ApiCall)
    (c c' : CongestionController.t) :
  (CongestionController.mode_ c = DECISION_MADE ->
   CongestionController.rounds_ c = 1) ->
  api_step call c = Some c' ->
  CongestionController.mode_ c' = DECISION_MADE ->
  CongestionController.rounds_ c' = 1.
Proof.
  intros Hone Hstep Hmode'.
  destruct call as [rand sent_time in_flight number bytes retx
                   | event_time rtt acked lost]; simpl in Hstep.
  - rewrite (OnPacketSent_rounds _ _ _ _ _ _ _ _ Hstep).
    rewrite (OnPacketSent_mode _ _ _ _ _ _ _ _ Hstep) in Hmode'. auto.
  - unfold CC.OnCongestionEvent in Hstep.
    assert (Hqueue : forall c1,
               CongestionController.mode_ c1 = CongestionController.mode_ c ->
               CongestionController.rounds_ c1 = CongestionController.rounds_ c ->
               (bind (MIQ.OnCongestionEvent acked lost rtt event_time
                        (CongestionController.interval_queue_ c1) c1)
                     (fun x => let '(q, c3) := x in
                               Some (CongestionController.set_interval_queue_ q c3))
                = Some c') ->
               CongestionController.rounds_ c' = 1).
    { intros c1 Hmode Hrounds H. bind_inv H. destruct p as [q c3].
      inversion H; subst c'. simpl in *.
      apply OnCongestionEvent_delegate in E.
      destruct E as [-> | (utility_info & at_call & Hcall)].
      - rewrite Hrounds. apply Hone. congruence.
      - simpl in Hcall.
        apply (OnUtilityAvailable_rounds utility_info
                 (CongestionController.set_interval_queue_ at_call c1) c3);
          [ | exact Hcall | exact Hmode'].
        simpl. rewrite Hmode, Hrounds. exact Hone. }
    destruct (negb (rtt =? 0)); [ | now apply (Hqueue c)].
    bind_inv Hstep. bind_inv Hstep. destruct b.
    + apply EnterProbing_mode in Hstep. congruence.
    + exact (Hqueue (CongestionController.set_avg_rtt_ q c) eq_refl eq_refl
               Hstep).
Qed.

(** X17: in every state a fresh controller reaches through [OnPacketSent]
    and [OnCongestionEvent], DECISION_MADE goes with [rounds_ = 1]: the
    mode never counts its rounds, so leaving it through [EnterProbing]
    always restores the rate by a single step of [kDecisionMadeStepSize],
    dividing by [1 + 0.02] or [1 - 0.02]. *)
Theorem X17_decision_made_never_counts_rounds {libm : Libm}
    (initial_rtt_us : QuicTime)
    (initial_congestion_window max_congestion_window : QuicPacketCount)
    (calls : list ApiCall) (trace : list CongestionController.t) :
  api_run calls
    (CC.new initial_rtt_us initial_congestion_window max_congestion_window)
  = Some trace ->
  Forall single_round_decision trace.
Proof.
  intros Hrun.
  assert (Hgen : forall calls c trace,
             (CongestionController.mode_ c = DECISION_MADE ->
              CongestionController.rounds_ c = 1) ->
             api_run calls c = Some trace ->
             Forall (fun c => CongestionController.mode_ c = DECISION_MADE ->
                              CongestionController.rounds_ c = 1) trace).
  { clear. induction calls as [ | call calls IH]; intros c trace Hc Hrun;
      simpl in Hrun.
    - inversion Hrun. repeat constructor. exact Hc.
    - do 2 bind_inv Hrun. inversion Hrun; subst trace.
      constructor; [exact Hc | ].
      apply (IH t); [ | exact E0].
      exact (api_step_rounds call c t Hc E). }
  assert (Hfresh :
            CongestionController.mode_
              (CC.new initial_rtt_us initial_congestion_window
                 max_congestion_window) = DECISION_MADE ->
            CongestionController.rounds_
              (CC.new initial_rtt_us initial_congestion_window
                 max_congestion_window) = 1) by reflexivity.
  eapply Forall_impl; [ | apply (Hgen _ _ _ Hfresh Hrun)].
  intros c Hone Hmode. split; [now apply Hone | ].
  unfold CC.EnterProbing. rewrite Hmode, (Hone Hmode).
  change (std_min_float (F32.of_Z 1 * CC.kDecisionMadeStepSize)%f32
            CC.kMaxDecisionMadeStepSize)
    with CC.kDecisionMadeStepSize.
  destruct (RateChangeDirection_eqb _ _); simpl; rewrite Hmode; reflexivity.
Qed.

Lemma X17_decision_made_never_counts_rounds_witness :
  exists trace,
    @api_run libm_example calls_probing controller_S1 = Some trace
    /\ map CongestionController.mode_ (skipn 17 trace)
       = [DECISION_MADE; DECISION_MADE]
    /\ Forall single_round_decision trace.
Proof.
  destruct (@api_run libm_example calls_probing controller_S1)
    as [trace | ] eqn:Hrun; [ | vm_compute in Hrun; discriminate Hrun].
  exists trace. split; [reflexivity | ]. split.
  - pose proof Hrun as Hvalue. vm_compute in Hvalue.
    inversion Hvalue; subst. reflexivity.
  - exact (@X17_decision_made_never_counts_rounds libm_example 10000 10 100
             calls_probing trace Hrun).
Defined.

(** ** Packets sent through the controller *)

Lemma last_cons {A : Type} (rest : list A) :
  forall (i d : A), last (i :: rest) d = last rest i.
Proof.
  induction rest as [ | j rest IH]; intros i d; [reflexivity | ].
  change (last (j :: rest) d = last (j :: rest) i). apply last_cons_default.
Qed.

Lemma current_back (init : list MonitorInterval.t) (back : MonitorInterval.t)
    (useful available : Z) :
  MIQ.current (MonitorIntervalQueue.Build (init ++ [back]) useful available)
  = Some back.
Proof.
  unfold MIQ.current. simpl.
  destruct (init ++ [back]) as [ | i rest] eqn:Hq;
    [destruct init; discriminate Hq | ].
  rewrite <- (last_cons rest i back), <- Hq. now rewrite last_last.
Qed.

Lemma queue_back (q : MonitorIntervalQueue.t) :
  MonitorIntervalQueue.monitor_intervals_ q <> [] ->
  exists init back,
    q = MonitorIntervalQueue.Build (init ++ [back])
          (MonitorIntervalQueue.num_useful_intervals_ q)
          (MonitorIntervalQueue.num_available_intervals_ q).
Proof.
  intros Hnonempty.
  destruct (exists_last Hnonempty) as (init & back & Hsplit).
  exists init, back. destruct q as [intervals useful available].
  simpl in *. now rewrite Hsplit.
Qed.

Lemma PacingRate_back (init : list MonitorInterval.t)
    (back : MonitorInterval.t) (useful available : Z)
    (c : CongestionController.t) :
  CongestionController.interval_queue_ c
  = MonitorIntervalQueue.Build (init ++ [back]) useful available ->
  CC.PacingRate c = Some (MonitorInterval.sending_rate back).
Proof.
  intros Hq. unfold CC.PacingRate. rewrite Hq, current_back.
  unfold MIQ.empty. simpl. now destruct init.
Qed.

(** X18: a packet sent through the controller is always recorded: on a
    queue whose counter agrees with its deque, after [OnPacketSent] the
    current interval is the previous current interval, or a new interval
    created at the controller's rate and smoothed RTT and planned to end
    [monitor_duration_] after the packet, with this packet recorded in it.
    The early return of the queue's [OnPacketSent] on an empty deque is
    never taken, and [PacingRate] is the rate of that interval. *)
Theorem X18_sent_packet_is_recorded (rand : Z)
    (sent_time : QuicTime) (bytes_in_flight : QuicByteCount)
    (packet_number : QuicPacketNumber) (bytes : QuicByteCount)
    (is_retransmittable : bool) (c c' : CongestionController.t) :
  queue_wf (CongestionController.interval_queue_ c) ->
  CC.OnPacketSent rand sent_time bytes_in_flight packet_number bytes
    is_retransmittable c = Some c' ->
  exists before,
    MIQ.current (CongestionController.interval_queue_ c')
    = Some (MIQ.record_packet sent_time packet_number bytes before)
    /\ (MIQ.current (CongestionController.interval_queue_ c) = Some before
        \/ exists is_useful tolerance,
             before
             = MonitorInterval.new (CongestionController.sending_rate_ c')
                 is_useful tolerance (CongestionController.avg_rtt_ c')
                 (sent_time + CongestionController.monitor_duration_ c'))
    /\ MonitorInterval.last_packet_number
         (MIQ.record_packet sent_time packet_number bytes before)
       = packet_number
    /\ MonitorInterval.n_packets
         (MIQ.record_packet sent_time packet_number bytes before)
       = MonitorInterval.n_packets before + 1
    /\ CC.PacingRate c' = Some (MonitorInterval.sending_rate before).
Proof.
  intros [Hcount _] Hstep.
  assert (Hrecord : forall before,
             MonitorInterval.last_packet_number
               (MIQ.record_packet sent_time packet_number bytes before)
             = packet_number
             /\ MonitorInterval.n_packets
                  (MIQ.record_packet sent_time packet_number bytes before)
                = MonitorInterval.n_packets before + 1
             /\ MonitorInterval.sending_rate
                  (MIQ.record_packet sent_time packet_number bytes before)
                = MonitorInterval.sending_rate before).
  { intros before. unfold MIQ.record_packet.
    destruct (MonitorInterval.bytes_sent before =? 0); simpl; auto. }
  unfold CC.OnPacketSent in Hstep. bind_inv Hstep. bind_inv Hstep.
  inversion Hstep; subst c'. clear Hstep. destruct b.
  - bind_inv E0. bind_inv E0. inversion E0; subst t. clear E0.
    unfold MIQ.EnqueueNewMonitorInterval.
    cbn [CongestionController.interval_queue_
         CongestionController.set_interval_queue_].
    rewrite OnPacketSent_back.
    eexists. split; [apply current_back | ].
    split; [right; simpl; eauto | ].
    match goal with
    | |- context [MIQ.record_packet _ _ _ ?b] =>
        destruct (Hrecord b) as (Hlast & Hn & Hrate)
    end.
    split; [exact Hlast | ]. split; [exact Hn | ].
    erewrite PacingRate_back by reflexivity. apply f_equal. exact Hrate.
  - inversion E0; subst t. clear E0.
    assert (Hnonempty : MonitorIntervalQueue.monitor_intervals_
                          (CongestionController.interval_queue_ c) <> []).
    { intros Hempty. unfold MIQ.num_useful_intervals in E.
      rewrite Hcount, Hempty in E. simpl in E. discriminate E. }
    destruct (queue_back _ Hnonempty) as (init & back & Hq).
    exists back.
    cbn [CongestionController.interval_queue_
         CongestionController.set_interval_queue_].
    rewrite Hq, OnPacketSent_back, !current_back.
    destruct (Hrecord back) as (Hlast & Hn & Hrate).
    split; [reflexivity | ]. split; [left; reflexivity | ].
    split; [exact Hlast | ]. split; [exact Hn | ].
    erewrite PacingRate_back by reflexivity. apply f_equal. exact Hrate.
Qed.

Lemma X18_sent_packet_is_recorded_witness :
  exists c' before,
    CC.OnPacketSent 0 0 0 1 1000 true controller_S1 = Some c'
    /\ MIQ.current (CongestionController.interval_queue_ c')
       = Some (MIQ.record_packet 0 1 1000 before)
    /\ MonitorInterval.last_packet_number (MIQ.record_packet 0 1 1000 before)
       = 1
    /\ CC.PacingRate c' = Some (MonitorInterval.sending_rate before).
Proof.
  destruct (CC.OnPacketSent 0 0 0 1 1000 true controller_S1)
    as [c' | ] eqn:Hrun; [ | vm_compute in Hrun; discriminate Hrun].
  assert (Hwf : queue_wf (CongestionController.interval_queue_ controller_S1))
    by (split; vm_compute; reflexivity).
  destruct (X18_sent_packet_is_recorded 0 0 0 1 1000 true
              controller_S1 c' Hwf Hrun)
    as (before & Hcurrent & _ & Hlast & _ & Hpacing).
  exists c', before. auto.
Defined.
